(** * DataScrubber: the readership cleaning pipeline

    A shallow embedding of [src/cleaning_rawdata.py] (publisher adapters and
    the shared column processing) and [src/cleaning_customer.py] (client and
    title resolution, missing-client ledger), followed by the properties the
    specification states about them.  The loading functions of
    [src/cleaning_rawdata.py], [get_firm_name] and the combined ledger of
    [src/cleaning_all_rawdata.py] follow, with further properties of the
    code.

    Modelling conventions.
    - A Python [str] is a [string]: the UTF-8 bytes of the text.  Substring
      search, splitting, replacing and lexicographic comparison agree on
      bytes and on code points; [len] and indexing agree on ASCII text, which
      is what the date columns hold.
    - A cell of a frame is a [cell]: [Some s] for text, [None] for pandas'
      missing value (NaN / NaT).  Dates of the title master are written as
      text.
    - A raw frame is the list of its rows, a row a list of label-value
      pairs; the column set of a frame without rows is not represented.
    - Library code the program calls but does not contain (Unicode case
      mapping, [int], [float], dateutil, pycountry, the sort behind
      [sort_values]) and the master tables loaded by [params.py] are the
      fields of one record, [Externals]; every definition takes it as its
      first argument, and every property is proved for all of them.  The
      title reconstruction of adapter 7, which rests on [urllib] and [re], is
      a field of the same record: the properties hold whatever frame it
      returns.  [py_ascii] is a concrete instance used to run the model on
      examples.
    - A call that can raise returns a [result]; [Raised] stands for any
      Python exception.
    - Files are state: writing a frame and reading it back is taken to
      return the same rows. *)

From Stdlib Require Import String Ascii List ZArith Bool Lia.
From Stdlib Require Import Permutation Sorted DecimalString QArith.
Import ListNotations.
Close Scope Q_scope.
Open Scope string_scope.
Open Scope list_scope.

(* ===================================================================== *)
(** * Results of calls that may raise                                     *)
(* ===================================================================== *)

Inductive result (A : Type) : Type :=
| Ok (a : A)
| Raised.
Arguments Ok {A} a.
Arguments Raised {A}.

Definition bind {A B : Type} (m : result A) (k : A -> result B) : result B :=
  match m with
  | Ok a => k a
  | Raised => Raised
  end.

Notation "x <- m ;; k" := (bind m (fun x => k))
  (at level 61, m at next level, right associativity).

(** Element-wise application ([Series.apply], [DataFrame.applymap]): the
    first element on which [f] raises aborts the whole pass. *)
Fixpoint mapM {A B : Type} (f : A -> result B) (l : list A) : result (list B) :=
  match l with
  | [] => Ok []
  | x :: t => y <- f x ;; ys <- mapM f t ;; Ok (y :: ys)
  end.

(** Boolean-mask row selection [df[mask]] where computing the mask can
    raise. *)
Fixpoint filterM {A : Type} (p : A -> result bool) (l : list A) : result (list A) :=
  match l with
  | [] => Ok []
  | x :: t => b <- p x ;; ys <- filterM p t ;; Ok (if b then x :: ys else ys)
  end.

Definition of_option {A : Type} (o : option A) : result A :=
  match o with
  | Some a => Ok a
  | None => Raised
  end.

(* ===================================================================== *)
(** * Python string operations                                            *)
(* ===================================================================== *)

Module Py.

(** [sub in s] *)
Fixpoint contains (sub s : string) : bool :=
  prefix sub s ||
  match s with
  | EmptyString => false
  | String _ t => contains sub t
  end.

(** [s.endswith(p)] *)
Definition endswith (s p : string) : bool :=
  (String.length p <=? String.length s)%nat &&
  String.eqb (substring (String.length s - String.length p) (String.length p) s) p.

(** [s.split(sep)] for a non-empty separator: [skip] counts the characters
    of a matched separator still to be passed over, [acc] is the piece
    being read. *)
Fixpoint split_go (sep : string) (skip : nat) (acc s : string) : list string :=
  match s with
  | EmptyString => [acc]
  | String c t =>
      match skip with
      | S k => split_go sep k acc t
      | O =>
          if prefix sep s
          then acc :: split_go sep (String.length sep - 1) EmptyString t
          else split_go sep 0 (acc ++ String c EmptyString)%string t
      end
  end.

Definition split (s sep : string) : list string := split_go sep 0 EmptyString s.

(** [s.replace(old, new)], left to right, non-overlapping. *)
Fixpoint replace_go (old new : string) (skip : nat) (s : string) : string :=
  match s with
  | EmptyString => EmptyString
  | String c t =>
      match skip with
      | S k => replace_go old new k t
      | O =>
          if prefix old s
          then (new ++ replace_go old new (String.length old - 1) t)%string
          else String c (replace_go old new 0 t)
      end
  end.

(** With an empty [old], Python inserts [new] before every character and
    at the end. *)
Fixpoint intersperse (new s : string) : string :=
  match s with
  | EmptyString => new
  | String c t => (new ++ String c (intersperse new t))%string
  end.

Definition replace (s old new : string) : string :=
  match old with
  | EmptyString => intersperse new s
  | _ => replace_go old new 0 s
  end.

(** [s[i:]] and [s[i:j]] for [0 <= i <= j]. *)
Definition slice_from (i : nat) (s : string) : string :=
  substring i (String.length s - i) s.
Definition slice (i j : nat) (s : string) : string :=
  substring i (Nat.min j (String.length s) - i) s.

(** The format spec [:02d]: decimal, zero-padded to width two (the sign
    counts towards the width). *)
Definition format_02d (z : Z) : string :=
  let s := NilZero.string_of_int (Z.to_int z) in
  if (String.length s <? 2)%nat then ("0" ++ s)%string else s.

(** [d.get(k, default)] and [k in d] for a dict built from a sequence of
    pairs ([dict(zip(...))], [Series.to_dict()]): a later pair overrides an
    earlier one with the same key. *)
Fixpoint dict_get {V : Type} (d : list (string * V)) (k : string) : option V :=
  match d with
  | [] => None
  | (k', v) :: t =>
      match dict_get t k with
      | Some w => Some w
      | None => if String.eqb k' k then Some v else None
      end
  end.

End Py.

(* ===================================================================== *)
(** * Frames                                                              *)
(* ===================================================================== *)

(** A cell: text or missing. *)
Definition cell : Type := option string.

Definition cell_eqb (a b : cell) : bool :=
  match a, b with
  | Some x, Some y => String.eqb x y
  | None, None => true
  | _, _ => false
  end.

(** The placeholder for undisclosed or unknown information. *)
Definition SENTINEL : string := "非公開".

(** A raw frame as [get_data] returns it: every cell was cast with
    [astype(str)], a row maps column labels to text.  The frame is the list
    of its rows, in index order. *)
Definition Row : Type := list (string * string).
Definition DataFrame : Type := list Row.

(** [row[c]]; a missing label raises [KeyError]. *)
Fixpoint get (c : string) (r : Row) : result string :=
  match r with
  | [] => Raised
  | (c', v) :: t => if String.eqb c' c then Ok v else get c t
  end.

(** The value under [c], missing when the row has no such column. *)
Fixpoint lookup (c : string) (r : Row) : cell :=
  match r with
  | [] => None
  | (c', v) :: t => if String.eqb c' c then Some v else lookup c t
  end.

(** [row[c] = v]: overwrite in place, or append a new column. *)
Fixpoint set (c v : string) (r : Row) : Row :=
  match r with
  | [] => [(c, v)]
  | (c', v') :: t => if String.eqb c' c then (c', v) :: t else (c', v') :: set c v t
  end.

(** [df[cols]] *)
Definition select_row (cols : list string) (r : Row) : result Row :=
  mapM (fun c => v <- get c r ;; Ok (c, v)) cols.

Definition select (cols : list string) (df : DataFrame) : result DataFrame :=
  mapM (select_row cols) df.

(** [df.assign] with constant column values. *)
Definition assign (kvs : list (string * string)) (df : DataFrame) : DataFrame :=
  map (fun r => fold_left (fun r' kv => set (fst kv) (snd kv) r') kvs r) df.

(** [df.rename(columns=m)]: labels absent from the frame are ignored. *)
Definition rename (m : list (string * string)) (df : DataFrame) : DataFrame :=
  map (map (fun cv : string * string =>
              (match Py.dict_get m (fst cv) with Some c' => c' | None => fst cv end,
               snd cv))) df.

(** [df.drop(columns=cols)] on a frame that has them. *)
Definition drop (cols : list string) (df : DataFrame) : DataFrame :=
  map (filter (fun cv : string * string => negb (existsb (String.eqb (fst cv)) cols))) df.

(** [df[cols] = df[cols].applymap(f)] *)
Definition update (f : string -> result string) (c : string) (r : Row) : result Row :=
  v <- get c r ;; v' <- f v ;; Ok (set c v' r).

Definition applymap (cols : list string) (f : string -> result string)
    (df : DataFrame) : result DataFrame :=
  mapM (fun r => fold_left (fun acc c => r' <- acc ;; update f c r') cols (Ok r)) df.

(** The canonical record: the ten columns of [column_order]. *)
Record CRow : Type := mkCRow {
  Read_Date : cell;
  Post_Date : cell;
  Firm_Name : cell;
  User_Name : cell;
  Email : cell;
  City : cell;
  Country : cell;
  Report_Title : cell;
  Platform : cell;
  Transaction_ID : cell
}.

Definition Frame : Type := list CRow.

(* ===================================================================== *)
(** * Library functions and master tables                                 *)
(* ===================================================================== *)

(** A binary64 number by its value: a finite one is a rational, exactly. *)
Inductive float64 : Type :=
| Finite (q : Q)
| Infinity (negative : bool)
| NaN.

(** [x > y]; a comparison with NaN is false. *)
Definition float_gt (x y : float64) : bool :=
  match x, y with
  | NaN, _ | _, NaN => false
  | Finite a, Finite b => negb (Qle_bool a b)
  | Finite _, Infinity negative => negative
  | Infinity negative, Finite _ => negb negative
  | Infinity a, Infinity b => negb a && b
  end.

Record Externals : Type := mkExternals {
  (** [str.lower], [str.upper], [str.strip] *)
  str_lower : string -> string;
  str_upper : string -> string;
  str_strip : string -> string;
  (** [int(s)]; [None] when it raises [ValueError] *)
  py_int : string -> option Z;
  (** [Series.astype(float)] on one text cell; [None] when it raises *)
  astype_float : string -> option float64;
  (** the repeat count [Index.repeat] reads from a text cell; [None] when
      the conversion raises *)
  repeat_count : string -> option nat;
  (** [dateutil.parser.parse(s).month]; [None] when parsing raises *)
  parser_parse_month : string -> option Z;
  (** [pycountry.countries.get(alpha_2=code)]: the name of the country with
      that code, [None] when there is none *)
  pycountry_alpha_2 : string -> option string;
  (** the row order [sort_values(by='Read Date', ascending=False)] produces *)
  sort_values_desc : Frame -> Frame;
  (** the title reconstruction of adapter 7 (the nested function of the same
      name: URL decoding with [urllib.parse.unquote], pattern matching with
      [re], the catalog of known report titles) *)
  pre_cleaning_example_publisher_7 : DataFrame -> result DataFrame;
  (** params.py: the rows of the Country and City Mapping Master Files *)
  country_df : list (string * string);
  city_df : list (string * string)
}.

(** params.py *)
Definition CUSTOM_COUNTRY_MAPPING (E : Externals) : list (string * string) := country_df E.
Definition CUSTOM_CITY_MAPPING (E : Externals) : list (string * string) := city_df E.

(** What the program relies on from [sort_values]: the rows are rearranged,
    greatest Read Date first, missing Read Dates last.  Nothing is assumed
    about the order of rows with equal Read Dates. *)
Definition read_date_ge (a b : CRow) : Prop :=
  match Read_Date a, Read_Date b with
  | _, None => True
  | None, Some _ => False
  | Some x, Some y => String.leb y x = true
  end.

Definition sort_values_spec (srt : Frame -> Frame) : Prop :=
  forall df, Permutation df (srt df) /\ StronglySorted read_date_ge (srt df).


(* ===================================================================== *)
(** * cleaning_rawdata.py                                                 *)
(* ===================================================================== *)

Definition column_order : list string :=
  ["Read Date"; "Post Date"; "Firm Name"; "User Name"; "Email"; "City";
   "Country"; "Report Title"; "Platform"; "Transaction ID"].

(** [df.reindex(columns=column_order)]: the ten columns, a column the frame
    lacks is introduced as missing, any other column is dropped. *)
Definition reindex (r : Row) : CRow :=
  {| Read_Date := lookup "Read Date" r;
     Post_Date := lookup "Post Date" r;
     Firm_Name := lookup "Firm Name" r;
     User_Name := lookup "User Name" r;
     Email := lookup "Email" r;
     City := lookup "City" r;
     Country := lookup "Country" r;
     Report_Title := lookup "Report Title" r;
     Platform := lookup "Platform" r;
     Transaction_ID := lookup "Transaction ID" r |}.

Definition cell_eq_dec (a b : cell) : {a = b} + {a <> b}.
Proof. repeat decide equality. Defined.

(** [df.drop_duplicates(subset=...)], keep='first': a row is dropped when an
    earlier row agrees with it on the subset, here given by [key] (two
    missing values count as the same). *)
Fixpoint drop_duplicates_on {A K : Type} (K_eq_dec : forall x y : K, {x = y} + {x <> y})
    (key : A -> K) (df : list A) : list A :=
  match df with
  | [] => []
  | r :: t =>
      r :: filter (fun r' => if K_eq_dec (key r') (key r) then false else true)
                  (drop_duplicates_on K_eq_dec key t)
  end.

(** [df.drop_duplicates(subset='Transaction ID')] *)
Definition drop_duplicates_tid (df : Frame) : Frame :=
  drop_duplicates_on cell_eq_dec Transaction_ID df.

(** The values [process_columns] replaces by the sentinel. *)
Definition to_replace : list string :=
  ["***"; "N/A - Free Content"; "Restricted"; "nan"; "Unattributed";
   "Embargoed"; "EMBARGOED"; "Unknown"].

Definition is_to_replace (s : string) : bool := existsb (String.eqb s) to_replace.

Definition replace_cell (c : cell) : cell :=
  match c with
  | Some s => if is_to_replace s then Some SENTINEL else Some s
  | None => None
  end.

(** [df.replace(to_replace, SENTINEL)], on every column. *)
Definition replace_row (r : CRow) : CRow :=
  {| Read_Date := replace_cell (Read_Date r);
     Post_Date := replace_cell (Post_Date r);
     Firm_Name := replace_cell (Firm_Name r);
     User_Name := replace_cell (User_Name r);
     Email := replace_cell (Email r);
     City := replace_cell (City r);
     Country := replace_cell (Country r);
     Report_Title := replace_cell (Report_Title r);
     Platform := replace_cell (Platform r);
     Transaction_ID := replace_cell (Transaction_ID r) |}.

Definition process_columns (E : Externals) (df : DataFrame) (remove_duplicates : bool) : Frame :=
  let df := map reindex df in
  let df := sort_values_desc E df in
  let df := if remove_duplicates then drop_duplicates_tid df else df in
  map replace_row df.

Definition set_Country (v : cell) (r : CRow) : CRow :=
  {| Read_Date := Read_Date r; Post_Date := Post_Date r; Firm_Name := Firm_Name r;
     User_Name := User_Name r; Email := Email r; City := City r;
     Country := v;
     Report_Title := Report_Title r; Platform := Platform r;
     Transaction_ID := Transaction_ID r |}.

Definition set_City (v : cell) (r : CRow) : CRow :=
  {| Read_Date := Read_Date r; Post_Date := Post_Date r; Firm_Name := Firm_Name r;
     User_Name := User_Name r; Email := Email r;
     City := v;
     Country := Country r;
     Report_Title := Report_Title r; Platform := Platform r;
     Transaction_ID := Transaction_ID r |}.

(** [x.upper() if x != SENTINEL else x]; a missing value has no [upper]. *)
Definition upper_unless_sentinel (E : Externals) (c : cell) : result string :=
  match c with
  | Some x => Ok (if String.eqb x SENTINEL then x else str_upper E x)
  | None => Raised
  end.

(** The nested [custom_mapping] of [map_and_fillna_country].  On a missing
    value the call runs into the upper-casing below with a value that has no
    [upper]; the model raises at once. *)
Definition custom_mapping (E : Externals) (country_code : cell) : result string :=
  match country_code with
  | Some code =>
      if String.eqb code SENTINEL then Ok SENTINEL
      else
        let country_name :=
          match pycountry_alpha_2 E code with
          | Some name => name
          | None => code
          end in
        Ok (match Py.dict_get (CUSTOM_COUNTRY_MAPPING E) country_name with
            | Some name => name
            | None => country_name
            end)
  | None => Raised
  end.

Definition map_and_fillna_country (E : Externals) (df : Frame) : result Frame :=
  (* df['Country'] = df['Country'].apply(custom_mapping) *)
  df <- mapM (fun r => name <- custom_mapping E (Country r) ;;
                       Ok (set_Country (Some name) r)) df ;;
  (* df['Country'] = df['Country'].apply(lambda x: x.upper() if x != SENTINEL else x) *)
  mapM (fun r => name <- upper_unless_sentinel E (Country r) ;;
                 Ok (set_Country (Some name) r)) df.

(** [Series.map(CUSTOM_CITY_MAPPING).fillna(original)] on one cell. *)
Definition map_city (E : Externals) (c : cell) : cell :=
  match c with
  | Some x =>
      match Py.dict_get (CUSTOM_CITY_MAPPING E) x with
      | Some x' => Some x'
      | None => Some x
      end
  | None => None
  end.

Definition map_and_fillna_city (E : Externals) (df : Frame) : result Frame :=
  (* df['City'] = df['City'].map(CUSTOM_CITY_MAPPING).fillna(df['City']) *)
  let df := map (fun r => set_City (map_city E (City r)) r) df in
  (* df['City'] = df['City'].apply(lambda x: x.upper() if x != SENTINEL else x) *)
  mapM (fun r => name <- upper_unless_sentinel E (City r) ;;
                 Ok (set_City (Some name) r)) df.

(** The call every adapter ends with:
    [map_and_fillna_city(map_and_fillna_country(process_columns(df, remove_duplicates)))]. *)
Definition canonicalize (E : Externals) (df : DataFrame) (remove_duplicates : bool) : result Frame :=
  df <- map_and_fillna_country E (process_columns E df remove_duplicates) ;;
  map_and_fillna_city E df.

Definition month_name_to_month (E : Externals) (month_name : string) : result Z :=
  of_option (parser_parse_month E month_name).

(** The disclosure filter of adapters 1 to 6:
    [df[~df['Firm Name'].str.lower().str.contains('non-disclosed company name')]]. *)
Definition is_non_disclosed (E : Externals) (firm_name : string) : bool :=
  Py.contains "non-disclosed company name" (str_lower E firm_name).

Definition drop_non_disclosed (E : Externals) (df : DataFrame) : result DataFrame :=
  filterM (fun r => firm <- get "Firm Name" r ;; Ok (negb (is_non_disclosed E firm))) df.

(** ** Adapter 1 *)

(** Format: YYYY/MM/DD HH:MM or DD/MM/YYYY HH:MM *)
Definition convert_date_example_publisher_1 (date_str : string) : result string :=
  match Py.split date_str " " with
  | [date; _] =>
      match String.get 2 date with
      | Some c =>
          let date :=
            if Ascii.eqb c "/"
            then (Py.slice_from 6 date ++ "/" ++ Py.slice 3 5 date ++ "/" ++ Py.slice 0 2 date)%string
            else date in
          Ok (Py.replace date "/" "-")
      | None => Raised
      end
  | _ => Raised
  end.

Definition rows_example_publisher_1 (E : Externals) (df : DataFrame) : result DataFrame :=
  df <- select ["Transaction Date"; "Customer Name"; "User Name"; "Business eMail";
                "Customer City"; "Customer Country"; "Transaction Id"; "Post Date";
                "Title"] df ;;
  let df := assign [("Platform", "example_publisher_1")] df in
  let df := rename [("Transaction Date", "Read Date"); ("Platform", "Platform");
                    ("Customer Name", "Firm Name"); ("User Name", "User Name");
                    ("Business eMail", "Email"); ("Customer City", "City");
                    ("Customer Country", "Country"); ("Transaction Id", "Transaction ID");
                    ("Post Date", "Post Date"); ("Title", "Report Title")] df in
  df <- drop_non_disclosed E df ;;
  applymap ["Read Date"; "Post Date"] convert_date_example_publisher_1 df.

Definition clean_example_publisher_1 (E : Externals) (df : DataFrame) : result Frame :=
  df <- rows_example_publisher_1 E df ;;
  canonicalize E df true.

(** ** Adapter 2 *)

(** Format: DD-Month-YYYY HH:MM AM/PM *)
Definition convert_date_example_publisher_2 (E : Externals) (date_str : string) : result string :=
  match Py.split date_str " " with
  | [date; _; _] =>
      match Py.split date "-" with
      | [day; month_name; year] =>
          month <- month_name_to_month E month_name ;;
          day <- of_option (py_int E day) ;;
          Ok (year ++ "-" ++ Py.format_02d month ++ "-" ++ Py.format_02d day)%string
      | _ => Raised
      end
  | _ => Raised
  end.

Definition rows_example_publisher_2 (E : Externals) (df : DataFrame) : result DataFrame :=
  df <- select ["Date/time read"; "Platform"; "Parent Firm name"; "Reader name"; "E-mail";
                "City"; "Country"; "Readership Event ID"; "Date/time published";
                "Report title"] df ;;
  let df := rename [("Date/time read", "Read Date"); ("Platform", "Platform");
                    ("Parent Firm name", "Firm Name"); ("Reader name", "User Name");
                    ("E-mail", "Email"); ("City", "City"); ("Country", "Country");
                    ("Readership Event ID (FactSet)", "Transaction ID");
                    ("Date/time published", "Post Date");
                    ("Report title", "Report Title")] df in
  df <- drop_non_disclosed E df ;;
  applymap ["Read Date"; "Post Date"] (convert_date_example_publisher_2 E) df.

Definition clean_example_publisher_2 (E : Externals) (df : DataFrame) : result Frame :=
  df <- rows_example_publisher_2 E df ;;
  canonicalize E df true.

(** ** Adapter 3 *)

(** Format: MM/DD/YYYY HH:MM:SS *)
Definition convert_date_example_publisher_3 (E : Externals) (date_str : string) : result string :=
  match Py.split date_str " " with
  | [date; _] =>
      match Py.split date "/" with
      | [month; day; year] =>
          month <- of_option (py_int E month) ;;
          day <- of_option (py_int E day) ;;
          Ok (year ++ "-" ++ Py.format_02d month ++ "-" ++ Py.format_02d day)%string
      | _ => Raised
      end
  | _ => Raised
  end.

Definition rows_example_publisher_3 (E : Externals) (df : DataFrame) : result DataFrame :=
  df <- select ["Viewed Date"; "Published Date"; "Client Name"; "User Name"; "User Email";
                "User City"; "User Country"; "Headline"; "Transaction ID"] df ;;
  let df := assign [("Platform", "example_publisher_3")] df in
  let df := rename [("Viewed Date", "Read Date"); ("Platform", "Platform");
                    ("Client Name", "Firm Name"); ("User Name", "User Name");
                    ("User Email", "Email"); ("User City", "City");
                    ("User Country", "Country"); ("Transaction ID", "Transaction ID");
                    ("Published Date", "Post Date"); ("Headline", "Report Title")] df in
  df <- drop_non_disclosed E df ;;
  applymap ["Read Date"; "Post Date"] (convert_date_example_publisher_3 E) df.

Definition clean_example_publisher_3 (E : Externals) (df : DataFrame) : result Frame :=
  df <- rows_example_publisher_3 E df ;;
  canonicalize E df true.

(** ** Adapter 4 *)

(** Format: YYYY/MM/DD *)
Definition convert_date_example_publisher_4 (date_str : string) : result string :=
  Ok (Py.replace date_str "/" "-").

Definition rows_example_publisher_4 (E : Externals) (df : DataFrame) : result DataFrame :=
  df <- select ["Read Date"; "Firm Name"; "Post Date"; "Report Title"] df ;;
  let df := assign [("Platform", "example_publisher_4"); ("User Name", SENTINEL);
                    ("Email", SENTINEL); ("City", SENTINEL); ("Country", SENTINEL);
                    ("Transaction ID", SENTINEL)] df in
  df <- drop_non_disclosed E df ;;
  applymap ["Read Date"; "Post Date"] convert_date_example_publisher_4 df.

Definition clean_example_publisher_4 (E : Externals) (df : DataFrame) : result Frame :=
  df <- rows_example_publisher_4 E df ;;
  canonicalize E df false.

(** ** Adapter 5 *)

(** Format: MM/DD/YYYY HH:MM:SS AM/PM *)
Definition convert_date_example_publisher_5 (E : Externals) (date_str : string) : result string :=
  match Py.split date_str " " with
  | [date; _; _] =>
      match Py.split date "/" with
      | [month; day; year] =>
          month <- of_option (py_int E month) ;;
          day <- of_option (py_int E day) ;;
          Ok (year ++ "-" ++ Py.format_02d month ++ "-" ++ Py.format_02d day)%string
      | _ => Raised
      end
  | _ => Raised
  end.

Definition rows_example_publisher_5 (E : Externals) (df : DataFrame) : result DataFrame :=
  df <- select ["Activity Date"; "Client Name"; "Activity Id"; "Document Posted Date";
                "Headline"] df ;;
  let df := assign [("Platform", "example_publisher_5"); ("User Name", SENTINEL);
                    ("Email", SENTINEL); ("City", SENTINEL); ("Country", SENTINEL)] df in
  let df := rename [("Activity Date", "Read Date"); ("Platform", "Platform");
                    ("Client Name", "Firm Name"); ("User Name", "User Name");
                    ("Email", "Email"); ("City", "City"); ("Country", "Country");
                    ("Activity Id", "Transaction ID");
                    ("Document Posted Date", "Post Date");
                    ("Headline", "Report Title")] df in
  df <- drop_non_disclosed E df ;;
  (* only the Read Date is converted *)
  applymap ["Read Date"] (convert_date_example_publisher_5 E) df.

Definition clean_example_publisher_5 (E : Externals) (df : DataFrame) : result Frame :=
  df <- rows_example_publisher_5 E df ;;
  canonicalize E df true.

(** ** Adapter 6 *)

(** Format: Month DD, YYYY *)
Definition convert_date_example_publisher_6 (E : Externals) (date_str : string) : result string :=
  match Py.split date_str ", " with
  | [month_name_day; year] =>
      match Py.split month_name_day " " with
      | [month_name; day] =>
          month <- month_name_to_month E month_name ;;
          day <- of_option (py_int E (str_strip E day)) ;;
          Ok (year ++ "-" ++ Py.format_02d month ++ "-" ++ Py.format_02d day)%string
      | _ => Raised
      end
  | _ => Raised
  end.

Definition rows_example_publisher_6 (E : Externals) (df : DataFrame) : result DataFrame :=
  (* df.loc[df.index.repeat(df['Platform Views*'])] *)
  dfs <- mapM (fun r => views <- get "Platform Views*" r ;;
                        n <- of_option (repeat_count E views) ;;
                        Ok (repeat r n)) df ;;
  let df := concat dfs in
  df <- select ["Published"; "Title"] df ;;
  (* 'Read Date': df['Published'] *)
  df <- mapM (fun r => published <- get "Published" r ;;
                       Ok (set "Read Date" published r)) df ;;
  let df := assign [("Platform", "example_publisher_6"); ("Firm Name", SENTINEL);
                    ("User Name", SENTINEL); ("Email", SENTINEL); ("City", SENTINEL);
                    ("Country", SENTINEL); ("Transaction ID", SENTINEL)] df in
  let df := rename [("Read Date", "Read Date"); ("Platform", "Platform");
                    ("Firm Name", "Firm Name"); ("User Name", "User Name");
                    ("Email", "Email"); ("City", "City"); ("Country", "Country");
                    ("Transaction ID", "Transaction ID"); ("Published", "Post Date");
                    ("Title", "Report Title")] df in
  df <- drop_non_disclosed E df ;;
  applymap ["Read Date"; "Post Date"] (convert_date_example_publisher_6 E) df.

Definition clean_example_publisher_6 (E : Externals) (df : DataFrame) : result Frame :=
  df <- rows_example_publisher_6 E df ;;
  canonicalize E df false.

(** ** Adapter 7 *)

(** Format: YYYY-MM-DD HH:MM:SS AM/PM *)
Definition convert_date_example_publisher_7 (date_str : string) : result string :=
  match Py.split date_str " " with
  | [date; _; _] => Ok date
  | _ => Raised
  end.

Definition rows_example_publisher_7 (E : Externals) (df : DataFrame) : result DataFrame :=
  (* The four fillna calls read these columns; every cell is text, so they
     fill nothing. *)
  _ <- select ["First name"; "姓"; "Last name"; "名"; "Email"; "メールアドレス";
               "Profession"; "属性"] df ;;
  (* df['User Name'] = df['First name'] + ' ' + df['Last name'] *)
  df <- mapM (fun r => first <- get "First name" r ;;
                       last <- get "Last name" r ;;
                       Ok (set "User Name" (first ++ " " ++ last)%string r)) df ;;
  df <- select ["User Name"; "Email"; "Downloaded Report"; "Conversion Date";
                "Conversion Page"] df ;;
  (* the e-mail disclosure filter *)
  df <- filterM (fun r => email <- get "Email" r ;;
                          Ok (negb (Py.endswith email "@non-disclosedcompany.com") &&
                              negb (String.eqb email "company@hotmail.com"))) df ;;
  (* df.replace('nan', np.nan) ; df.dropna() *)
  let df := filter (fun r : Row => negb (existsb (fun cv => String.eqb (snd cv) "nan") r)) df in
  (* test and otherwise unusable rows *)
  df <- filterM (fun r => report <- get "Downloaded Report" r ;;
                          page <- get "Conversion Page" r ;;
                          Ok (negb (Py.contains "テスト" report ||
                                    String.eqb report "Q2" ||
                                    Py.contains "non-disclosed link" page ||
                                    Py.contains "non-disclosed link" page))) df ;;
  df <- pre_cleaning_example_publisher_7 E df ;;
  let df := assign [("Platform", "example_publisher_7"); ("Firm Name", SENTINEL);
                    ("City", SENTINEL); ("Country", SENTINEL);
                    ("Transaction ID", SENTINEL);
                    ("Post Date", "2000-12-31 00:00:00 AM")] df in
  let df := rename [("Conversion Date", "Read Date"); ("Platform", "Platform");
                    ("Firm Name", "Firm Name"); ("User Name", "User Name");
                    ("Email", "Email"); ("City", "City"); ("Country", "Country");
                    ("Transaction ID", "Transaction ID"); ("Post Date", "Post Date");
                    ("Downloaded Report", "Report Title")] df in
  applymap ["Read Date"; "Post Date"] convert_date_example_publisher_7 df.

Definition clean_example_publisher_7 (E : Externals) (df : DataFrame) : result Frame :=
  df <- rows_example_publisher_7 E df ;;
  canonicalize E df false.

(** ** Adapter 8 *)

Definition convert_date_example_publisher_8 (E : Externals) (date_str : string) : result string :=
  parts <-
    (if (String.length date_str =? 19)%nat then
       match Py.split date_str " " with
       | [date; _] =>
           match Py.split date "-" with
           | [year; month; day] => Ok (year, month, day)
           | _ => Raised
           end
       | _ => Raised
       end
     else if (String.length date_str =? 16)%nat then
       match Py.split date_str " " with
       | [date; _] =>
           match Py.split date "/" with
           | [day; month; year] => Ok (year, month, day)
           | _ => Raised
           end
       | _ => Raised
       end
     else
       match Py.split date_str "/" with
       | [day; month; year] => Ok (year, month, day)
       | _ => Raised
       end) ;;
  let '(year, month, day) := parts in
  month <- of_option (py_int E month) ;;
  day <- of_option (py_int E day) ;;
  Ok (year ++ "-" ++ Py.format_02d month ++ "-" ++ Py.format_02d day)%string.

(** [df['Event Type'] == 'OPEN'] *)
Definition is_open (r : Row) : result bool :=
  event_type <- get "Event Type" r ;; Ok (String.eqb event_type "OPEN").

(** [df['Open duration (ms)'].astype(float) > 3000.0] *)
Definition opened_long_enough (E : Externals) (r : Row) : result bool :=
  duration <- get "Open duration (ms)" r ;;
  ms <- of_option (astype_float E duration) ;;
  Ok (float_gt ms (Finite 3000)).

Definition rows_example_publisher_8 (E : Externals) (df : DataFrame) : result DataFrame :=
  df <- select ["Recipient"; "Subject"; "Event Type"; "Event ID";
                "Event Created Date (Your time zone)"; "City"; "Country";
                "Open duration (ms)"] df ;;
  (* Filter out all sent emails that where never opened *)
  df <- filterM is_open df ;;
  (* Filter out all emails that were opened for less than 3 seconds *)
  df <- filterM (opened_long_enough E) df ;;
  let df := drop ["Event Type"; "Open duration (ms)"] df in
  (* the e-mail disclosure filter *)
  df <- filterM (fun r => recipient <- get "Recipient" r ;;
                          Ok (negb (Py.endswith recipient "@non-disclosedcompany.com") &&
                              negb (String.eqb recipient "user@hotmail.com"))) df ;;
  (* df.fillna(SENTINEL): every cell is text, nothing is filled *)
  let df := assign [("Platform", "example_publisher_8"); ("User Name", SENTINEL);
                    ("Firm Name", SENTINEL); ("Post Date", "31/12/2000 00:00")] df in
  let df := rename [("Event Created Date (Your time zone)", "Read Date");
                    ("Platform", "Platform"); ("Firm Name", "Firm Name");
                    ("User Name", "User Name"); ("Recipient", "Email");
                    ("City", "City"); ("Country", "Country");
                    ("Event ID", "Transaction ID"); ("Post Date", "Post Date");
                    ("Subject", "Report Title")] df in
  applymap ["Read Date"; "Post Date"] (convert_date_example_publisher_8 E) df.

Definition clean_example_publisher_8 (E : Externals) (df : DataFrame) : result Frame :=
  df <- rows_example_publisher_8 E df ;;
  canonicalize E df true.

(** ** Dispatch *)

(** Every adapter is its row preparation followed by [canonicalize] with the
    [remove_duplicates] argument listed here ([true] is the default of
    [process_columns]). *)
Definition adapters : list (string * (Externals -> DataFrame -> result DataFrame) * bool) :=
  [("example_publisher_1", rows_example_publisher_1, true);
   ("example_publisher_2", rows_example_publisher_2, true);
   ("example_publisher_3", rows_example_publisher_3, true);
   ("example_publisher_4", rows_example_publisher_4, false);
   ("example_publisher_5", rows_example_publisher_5, true);
   ("example_publisher_6", rows_example_publisher_6, false);
   ("example_publisher_7", rows_example_publisher_7, false);
   ("example_publisher_8", rows_example_publisher_8, true)].

Definition cleaning_functions : list (string * (Externals -> DataFrame -> result Frame)) :=
  [("example_publisher_1", clean_example_publisher_1);
   ("example_publisher_2", clean_example_publisher_2);
   ("example_publisher_3", clean_example_publisher_3);
   ("example_publisher_4", clean_example_publisher_4);
   ("example_publisher_5", clean_example_publisher_5);
   ("example_publisher_6", clean_example_publisher_6);
   ("example_publisher_7", clean_example_publisher_7);
   ("example_publisher_8", clean_example_publisher_8)].

(** [preclean_data]: [None] for an unsupported publisher. *)
Definition preclean_data (E : Externals) (df : DataFrame) (publisher : string)
    : option (result Frame) :=
  match Py.dict_get cleaning_functions publisher with
  | Some cleaning_function => Some (cleaning_function E df)
  | None => None
  end.

(* ===================================================================== *)
(** * cleaning_customer.py                                                *)
(* ===================================================================== *)

(** A row of the Client Master File.  A blank cell of the sheet is read as
    missing. *)
Record ClientEntry : Type := mkClient {
  cl_Client : cell;
  cl_Domain : cell;
  cl_Investor_Type : cell;
  cl_Investor_Style : cell;
  cl_City : cell;
  cl_Country : cell
}.

(** A row of a Report Title Master File: Title and Content are text, the
    Post Date is a date (written here in ISO form) or blank. *)
Record TitleEntry : Type := mkTitle {
  ti_Title : string;
  ti_Content : string;
  ti_Post_Date : cell
}.

(** A row of [master_data] once the client columns are assigned. *)
Record MRow : Type := mkMRow {
  base : CRow;
  Investor_Type : cell;
  Investor_Style : cell;
  In_Client_Master : bool
}.

(** ... and once the Title column is. *)
Record TRow : Type := mkTRow {
  resolved : MRow;
  Title : cell
}.

Definition get_client_info (E : Externals) (firm_name : string) (clients : list ClientEntry)
    : cell * cell * bool :=
  (* mask = clients['Client'].str.upper() == firm_name.upper() *)
  let mask := fun c =>
    match cl_Client c with
    | Some name => String.eqb (str_upper E name) (str_upper E firm_name)
    | None => false
    end in
  match filter mask clients with
  | c :: _ => (cl_Investor_Type c, cl_Investor_Style c, true)
  | [] => (Some SENTINEL, Some SENTINEL, false)
  end.

Definition set_base (b : CRow) (row : MRow) : MRow :=
  {| base := b; Investor_Type := Investor_Type row;
     Investor_Style := Investor_Style row;
     In_Client_Master := In_Client_Master row |}.

Definition get_city_and_country (row : MRow) (clients : list ClientEntry) : MRow :=
  (* client_row = clients[clients['Client'] == row['Firm Name']] *)
  let client_row :=
    filter (fun c =>
              match cl_Client c, Firm_Name (base row) with
              | Some name, Some firm => String.eqb name firm
              | _, _ => false
              end) clients in
  match client_row with
  | c :: _ =>
      let row :=
        if negb (cell_eqb (cl_City c) (Some SENTINEL))
        then set_base (set_City (cl_City c) (base row)) row
        else row in
      let row :=
        if negb (cell_eqb (cl_Country c) (Some SENTINEL))
        then set_base (set_Country (cl_Country c) (base row)) row
        else row in
      row
  | [] => row
  end.

(** The tests of the two loops of [add_shortened_title]:
    [title.lower() in report_title.lower()] and
    [content.replace(' ', '').lower() in report_title.replace(' ', '').lower()]. *)
Definition title_in (E : Externals) (report_title : string) (t : TitleEntry) : bool :=
  Py.contains (str_lower E (ti_Title t)) (str_lower E report_title).

Definition content_in (E : Externals) (report_title : string) (t : TitleEntry) : bool :=
  Py.contains (str_lower E (Py.replace (ti_Content t) " " ""))
              (str_lower E (Py.replace report_title " " "")).

(** The first loop: over [titles['Title']]. *)
Fixpoint match_by_title (E : Externals) (report_title : string) (titles : list TitleEntry)
    : option string :=
  match titles with
  | [] => None
  | t :: rest =>
      if title_in E report_title t then Some (ti_Title t)
      else match_by_title E report_title rest
  end.

(** The second loop: over [titles['Content']], returning the Title of the
    same row. *)
Fixpoint match_by_content (E : Externals) (report_title : string) (titles : list TitleEntry)
    : option string :=
  match titles with
  | [] => None
  | t :: rest =>
      if content_in E report_title t then Some (ti_Title t)
      else match_by_content E report_title rest
  end.

Definition add_shortened_title (E : Externals) (report_title : string)
    (titles : list TitleEntry) : string :=
  match match_by_title E report_title titles with
  | Some title => title
  | None =>
      match match_by_content E report_title titles with
      | Some title => title
      | None => report_title
      end
  end.

Definition set_Post_Date (v : cell) (r : CRow) : CRow :=
  {| Read_Date := Read_Date r;
     Post_Date := v;
     Firm_Name := Firm_Name r; User_Name := User_Name r; Email := Email r;
     City := City r; Country := Country r; Report_Title := Report_Title r;
     Platform := Platform r; Transaction_ID := Transaction_ID r |}.

(** [titles.set_index('Title')['Post Date'].to_dict()] *)
Definition post_date_map (titles : list TitleEntry) : list (string * cell) :=
  map (fun t => (ti_Title t, ti_Post_Date t)) titles.

(** [Series.map(d)] on one value: missing when [d] has no such key. *)
Definition map_post_date (titles : list TitleEntry) (title : cell) : cell :=
  match title with
  | Some title =>
      match Py.dict_get (post_date_map titles) title with
      | Some d => d
      | None => None
      end
  | None => None
  end.

Definition get_post_date (df : list TRow) (titles : list TitleEntry) : list TRow :=
  map (fun r =>
         {| resolved := set_base (set_Post_Date (map_post_date titles (Title r))
                                                (base (resolved r)))
                                 (resolved r);
            Title := Title r |}) df.

(** A row has a missing value in some column. *)
Definition isna (c : cell) : bool :=
  match c with
  | Some _ => false
  | None => true
  end.

Definition has_na (r : TRow) : bool :=
  let b := base (resolved r) in
  isna (Read_Date b) || isna (Post_Date b) || isna (Firm_Name b) ||
  isna (User_Name b) || isna (Email b) || isna (City b) || isna (Country b) ||
  isna (Report_Title b) || isna (Platform b) || isna (Transaction_ID b) ||
  isna (Investor_Type (resolved r)) || isna (Investor_Style (resolved r)) ||
  isna (Title r).

(** [df.dropna()] *)
Definition dropna (df : list TRow) : list TRow := filter (fun r => negb (has_na r)) df.

(** [main], the stock-code filter:
    [master_data[master_data['Report Title'].str.contains(stock_code, na=False)]].
    Stock codes are digit strings, for which the pattern search is a
    substring search. *)
Definition filter_stock_code (stock_code : string) (master_data : Frame) : Frame :=
  filter (fun r =>
            match Report_Title r with
            | Some title => Py.contains stock_code title
            | None => false
            end) master_data.

(** [main], the three assigned client columns and [get_city_and_country];
    a missing Firm Name has no [upper]. *)
Definition resolve_client (E : Externals) (clients : list ClientEntry) (r : CRow) : result MRow :=
  match Firm_Name r with
  | Some firm_name =>
      let '(investor_type, investor_style, is_client) := get_client_info E firm_name clients in
      Ok (get_city_and_country
            {| base := r; Investor_Type := investor_type;
               Investor_Style := investor_style;
               In_Client_Master := is_client |} clients)
  | None => Raised
  end.

(** [main], the function applied to each row for the Title column:
    [add_shortened_title(row['Report Title'], titles)].  A missing Report
    Title has no [lower]; with an empty title master it is returned as it
    is. *)
Definition row_title (E : Externals) (titles : list TitleEntry) (row : MRow) : result cell :=
  match Report_Title (base row) with
  | Some report_title => Ok (Some (add_shortened_title E report_title titles))
  | None =>
      match titles with
      | [] => Ok None
      | _ :: _ => Raised
      end
  end.

(** [main], the block under "Add shortened title if there are any rows to
    process": the Title column, the Post Date overwrite and [dropna]. *)
Definition title_stage (E : Externals) (titles : list TitleEntry) (master_data : list MRow)
    : result (list TRow) :=
  df <- mapM (fun row => title <- row_title E titles row ;;
                         Ok {| resolved := row; Title := title |})
             master_data ;;
  Ok (dropna (get_post_date df titles)).

(** [main], from the stock-code filter to [dropna], on the rows of the
    precleaned file ([get_firm_name], which [main] runs first for two
    publisher names, only rewrites the Firm Name column). *)
Definition main_master_data (E : Externals) (stock_code : string)
    (clients : list ClientEntry) (titles : list TitleEntry) (master_data : Frame)
    : result (list TRow) :=
  df <- mapM (resolve_client E clients) (filter_stock_code stock_code master_data) ;;
  title_stage E titles df.

(** Rows are compared field by field; two missing values are equal, as
    [drop_duplicates] has it. *)
Definition CRow_eq_dec (a b : CRow) : {a = b} + {a <> b}.
Proof. repeat decide equality. Defined.

Definition TRow_eq_dec (a b : TRow) : {a = b} + {a <> b}.
Proof. repeat decide equality. Defined.

(** [df.drop_duplicates()] *)
Definition drop_duplicates (df : list TRow) : list TRow :=
  drop_duplicates_on TRow_eq_dec (fun r => r) df.

(** [save_missing_clients].  The state is the customer's Missing Clients
    file: [None] while it does not exist, else its rows.  Writing a frame
    and reading it back is taken to return the same rows.  The result is the
    file after the call. *)
Definition save_missing_clients (df : list TRow) (ledger : option (list TRow))
    : option (list TRow) :=
  let new_df := filter (fun r => Bool.eqb (In_Client_Master (resolved r)) false) df in
  match new_df with
  | [] => ledger
  | _ :: _ =>
      match ledger with
      | Some existing_df => Some (drop_duplicates (existing_df ++ new_df))
      | None => Some new_df
      end
  end.


(* ===================================================================== *)
(** * A concrete runtime                                                  *)
(* ===================================================================== *)

(** [py_ascii] fixes the library functions on ASCII text and small master
    tables, so that the model can be run on examples.  Its stand-in for the
    title reconstruction of adapter 7 keeps the Downloaded Report column as
    it is and drops the Conversion Page column, the last step of that
    function. *)
Module Ascii_runtime.

Definition lower_char (c : ascii) : ascii :=
  let n := nat_of_ascii c in
  if (65 <=? n)%nat && (n <=? 90)%nat then ascii_of_nat (n + 32) else c.

Definition upper_char (c : ascii) : ascii :=
  let n := nat_of_ascii c in
  if (97 <=? n)%nat && (n <=? 122)%nat then ascii_of_nat (n - 32) else c.

Fixpoint map_chars (f : ascii -> ascii) (s : string) : string :=
  match s with
  | EmptyString => EmptyString
  | String c t => String (f c) (map_chars f t)
  end.

Definition lower : string -> string := map_chars lower_char.
Definition upper : string -> string := map_chars upper_char.

Fixpoint lstrip (s : string) : string :=
  match s with
  | String " " t => lstrip t
  | _ => s
  end.

Fixpoint rev_string (acc s : string) : string :=
  match s with
  | EmptyString => acc
  | String c t => rev_string (String c acc) t
  end.

Definition strip (s : string) : string :=
  rev_string "" (lstrip (rev_string "" (lstrip s))).

Fixpoint digits_go (acc : N) (s : string) : option N :=
  match s with
  | EmptyString => Some acc
  | String c t =>
      let n := N_of_ascii c in
      if (48 <=? n)%N && (n <=? 57)%N then digits_go (acc * 10 + (n - 48))%N t else None
  end.

Definition digits (s : string) : option N :=
  match s with
  | EmptyString => None
  | _ => digits_go 0%N s
  end.

Definition int (s : string) : option Z :=
  match strip s with
  | String "-" t => option_map (fun n => (- Z.of_N n)%Z) (digits t)
  | t => option_map Z.of_N (digits t)
  end.

Definition float_of (s : string) : option float64 :=
  if String.eqb s "nan" then Some NaN
  else option_map (fun n => Finite (inject_Z (Z.of_N n))) (digits s).

Definition months : list (string * Z) :=
  [("january", 1); ("february", 2); ("march", 3); ("april", 4); ("may", 5);
   ("june", 6); ("july", 7); ("august", 8); ("september", 9); ("october", 10);
   ("november", 11); ("december", 12);
   ("jan", 1); ("feb", 2); ("mar", 3); ("apr", 4); ("jun", 6); ("jul", 7);
   ("aug", 8); ("sep", 9); ("oct", 10); ("nov", 11); ("dec", 12)]%Z.

Definition countries : list (string * string) :=
  [("JP", "Japan"); ("US", "United States"); ("GB", "United Kingdom");
   ("KR", "Korea, Republic of")].

Definition read_date_geb (a b : CRow) : bool :=
  match Read_Date a, Read_Date b with
  | _, None => true
  | None, Some _ => false
  | Some x, Some y => String.leb y x
  end.

(** A stable insertion sort, greatest Read Date first, missing last. *)
Fixpoint insert_desc (r : CRow) (df : Frame) : Frame :=
  match df with
  | [] => [r]
  | h :: t => if read_date_geb r h then r :: df else h :: insert_desc r t
  end.

Fixpoint sort_desc (df : Frame) : Frame :=
  match df with
  | [] => []
  | r :: t => insert_desc r (sort_desc t)
  end.

Definition py_ascii : Externals :=
  {| str_lower := lower;
     str_upper := upper;
     str_strip := strip;
     py_int := int;
     astype_float := float_of;
     repeat_count := fun s => option_map N.to_nat (digits s);
     parser_parse_month := fun s => Py.dict_get months (lower s);
     pycountry_alpha_2 := fun s => Py.dict_get countries (upper s);
     sort_values_desc := sort_desc;
     pre_cleaning_example_publisher_7 := fun df => Ok (drop ["Conversion Page"] df);
     country_df := [("Korea, Republic of", "South Korea")];
     city_df := [("Chiyoda-ku", "Tokyo")] |}.

End Ascii_runtime.
Export Ascii_runtime.

(* ===================================================================== *)
(** * Vocabulary of the properties, example data                          *)
(* ===================================================================== *)

(** [c] is an entry for [firm_name], compared without regard to case. *)
Definition client_matches (E : Externals) (firm_name : string) (c : ClientEntry) : Prop :=
  exists name, cl_Client c = Some name /\ str_upper E name = str_upper E firm_name.

Definition acme_entry : ClientEntry :=
  {| cl_Client := Some "ACME Corp"; cl_Domain := Some "acme";
     cl_Investor_Type := Some "Hedge Fund"; cl_Investor_Style := Some "Growth";
     cl_City := Some "TOKYO"; cl_Country := Some "JAPAN" |}.

Definition beta_entry : ClientEntry :=
  {| cl_Client := Some "Beta Capital"; cl_Domain := Some "beta";
     cl_Investor_Type := Some "Pension"; cl_Investor_Style := None;
     cl_City := Some SENTINEL; cl_Country := Some SENTINEL |}.

Definition q2_results : TitleEntry :=
  {| ti_Title := "Q2 Results"; ti_Content := "Second quarter earnings";
     ti_Post_Date := Some "2024-03-01" |}.

Definition q2_results_update : TitleEntry :=
  {| ti_Title := "Q2 Results Update"; ti_Content := "Deep dive";
     ti_Post_Date := Some "2024-04-01" |}.

(** A cleaned row of a firm that is not in the client master. *)
Definition missing_row (firm : string) : TRow :=
  {| resolved :=
       {| base := {| Read_Date := Some "2024-03-07"; Post_Date := Some "2024-03-01";
                     Firm_Name := Some firm; User_Name := Some SENTINEL;
                     Email := Some SENTINEL; City := Some SENTINEL;
                     Country := Some SENTINEL; Report_Title := Some "(1234) Q2 Results";
                     Platform := Some "example_publisher_4";
                     Transaction_ID := Some SENTINEL |};
          Investor_Type := Some SENTINEL; Investor_Style := Some SENTINEL;
          In_Client_Master := false |};
     Title := Some "Q2 Results" |}.

(** The Title column of a row: the resolved title of its Report Title. *)
Definition title_of (E : Externals) (titles : list TitleEntry) (row : MRow) : cell :=
  match Report_Title (base row) with
  | Some report_title => Some (add_shortened_title E report_title titles)
  | None => None
  end.

(** The Post Date the title master holds for the resolved title of a row;
    missing when it has no entry for that title, or a blank one. *)
Definition looked_up_post_date (E : Externals) (titles : list TitleEntry) (row : MRow) : cell :=
  map_post_date titles (title_of E titles row).

(** The row with its Title column and its Post Date overwritten. *)
Definition with_title_and_post_date (E : Externals) (titles : list TitleEntry) (row : MRow)
    : TRow :=
  {| resolved := set_base (set_Post_Date (looked_up_post_date E titles row) (base row)) row;
     Title := title_of E titles row |}.

(** A column other than Post Date and Title holds no value. *)
Definition other_column_missing (row : MRow) : bool :=
  let b := base row in
  isna (Read_Date b) || isna (Firm_Name b) || isna (User_Name b) || isna (Email b) ||
  isna (City b) || isna (Country b) || isna (Report_Title b) || isna (Platform b) ||
  isna (Transaction_ID b) || isna (Investor_Type row) || isna (Investor_Style row).

(** A precleaned row of publisher 4 read by [main]. *)
Definition precleaned_row (firm report_title : string) : CRow :=
  {| Read_Date := Some "2024-03-07"; Post_Date := Some "2024-03-01";
     Firm_Name := Some firm; User_Name := Some SENTINEL; Email := Some SENTINEL;
     City := Some SENTINEL; Country := Some SENTINEL;
     Report_Title := Some report_title; Platform := Some "example_publisher_4";
     Transaction_ID := Some SENTINEL |}.

(** The rows of a run for stock code 1234 after client resolution against
    the client master [[beta_entry]]. *)
Definition resolved_rows : list MRow :=
  [{| base := precleaned_row "Beta Capital" "(1234) Q2 Results";
      Investor_Type := Some "Pension"; Investor_Style := None;
      In_Client_Master := true |};
   {| base := precleaned_row "Acme Corp" "(1234) Q2 Results";
      Investor_Type := Some SENTINEL; Investor_Style := Some SENTINEL;
      In_Client_Master := false |};
   {| base := precleaned_row "Acme Corp" "(1234) Annual report";
      Investor_Type := Some SENTINEL; Investor_Style := Some SENTINEL;
      In_Client_Master := false |}].

(** The rows [process_columns] keeps, before the sentinel substitution:
    the reindexed frame, sorted, without the duplicates when they are
    removed. *)
Definition kept_rows (E : Externals) (df : DataFrame) (remove_duplicates : bool) : Frame :=
  let df := sort_values_desc E (map reindex df) in
  if remove_duplicates then drop_duplicates_tid df else df.

(** What the canonicalization does to one kept row: sentinel substitution,
    country mapping and upper-casing, city mapping and upper-casing. *)
Definition canonical_row (E : Externals) (r : CRow) : result CRow :=
  let r := replace_row r in
  name <- custom_mapping E (Country r) ;;
  let r := set_Country (Some name) r in
  name <- upper_unless_sentinel E (Country r) ;;
  let r := set_Country (Some name) r in
  let r := set_City (map_city E (City r)) r in
  name <- upper_unless_sentinel E (City r) ;;
  Ok (set_City (Some name) r).

(** The row carries the Transaction ID [v]. *)
Definition has_tid (v : cell) (r : CRow) : bool :=
  if cell_eq_dec (Transaction_ID r) v then true else false.

(** The adapters that pass [remove_duplicates=False]. *)
Definition no_dedup_adapters : list string :=
  map (fun a => fst (fst a)) (filter (fun a => negb (snd a)) adapters).

(** Raw rows of publishers 4, 6 and 7. *)
Definition raw_4 (read_date firm : string) : Row :=
  [("Read Date", read_date); ("0", "x"); ("Firm Name", firm); ("1", "x"); ("2", "x");
   ("Post Date", "2024/03/01"); ("Report Title", "(1234) Q2 Results"); ("3", "x");
   ("4", "x")].

Definition raw_6 (published views : string) : Row :=
  [("Published", published); ("Title", "(1234) Q2 Results"); ("Platform Views*", views)].

Definition raw_7 (email date : string) : Row :=
  [("First name", "Hana"); ("Last name", "Sato"); ("姓", "nan"); ("名", "nan");
   ("Email", email); ("メールアドレス", "nan"); ("Profession", "Analyst");
   ("属性", "nan"); ("Downloaded Report", "(1234) Q2 Results");
   ("Conversion Date", date); ("Conversion Page", "https://example.com/1234?document=Q2")].

(** The Firm Name of a prepared row passed the disclosure filter, or is the
    sentinel an adapter without firm names fills in. *)
Definition firm_disclosed (E : Externals) (r : Row) : Prop :=
  exists s, lookup "Firm Name" r = Some s /\ (s = SENTINEL \/ is_non_disclosed E s = false).

(** The Firm Name of a canonical row is none of the raw markers, and it is
    the sentinel or a name that passed the disclosure filter. *)
Definition firm_canonical (E : Externals) (r : CRow) : Prop :=
  exists s, Firm_Name r = Some s /\ is_to_replace s = false
            /\ (s = SENTINEL \/ is_non_disclosed E s = false).

(** The adapter-4 row of the specification's scenario. *)
Definition scenario_row_4 : Row :=
  [("Read Date", "2024/03/07"); ("0", "x"); ("Firm Name", "Non-Disclosed Company Name");
   ("1", "x"); ("2", "x"); ("Post Date", "2024/03/01"); ("Report Title", "X");
   ("3", "x"); ("4", "x")].

(** The condition of adapter 8 on an input row: the Event Type is OPEN and
    the open duration, read as a number of milliseconds, is above 3000. *)
Definition opened_over_3000_ms (E : Externals) (r : Row) : bool :=
  match get "Event Type" r, get "Open duration (ms)" r with
  | Ok event_type, Ok duration =>
      String.eqb event_type "OPEN" &&
      match astype_float E duration with
      | Some ms => float_gt ms (Finite 3000)
      | None => false
      end
  | _, _ => false
  end.

(** A raw row of publisher 8. *)
Definition raw_8 (event_type duration event_id created : string) : Row :=
  [("Recipient", "reader@acme.com"); ("Subject", "(1234) Q2 Results");
   ("Event Type", event_type); ("Event ID", event_id);
   ("Event Created Date (Your time zone)", created); ("City", "Tokyo");
   ("Country", "JP"); ("Open duration (ms)", duration); ("Campaign", "spring")].

(** The date form the source documents for adapter 4, YYYY/MM/DD. *)
Definition is_digit (c : ascii) : bool :=
  let n := nat_of_ascii c in (48 <=? n)%nat && (n <=? 57)%nat.

Definition is_YYYY_MM_DD (s : string) : bool :=
  match s with
  | String y1 (String y2 (String y3 (String y4 (String s1 (String m1 (String m2
      (String s2 (String d1 (String d2 EmptyString))))))))) =>
      is_digit y1 && is_digit y2 && is_digit y3 && is_digit y4 && Ascii.eqb s1 "/" &&
      is_digit m1 && is_digit m2 && Ascii.eqb s2 "/" && is_digit d1 && is_digit d2
  | _ => false
  end.

(** The same date as YYYY-MM-DD. *)
Definition with_dashes (s : string) : string :=
  (substring 0 4 s ++ "-" ++ substring 5 2 s ++ "-" ++ substring 8 2 s)%string.

(** The row carries every column of [cols]. *)
Definition has_columns (cols : list string) (r : Row) : Prop :=
  forall c, In c cols -> exists v, get c r = Ok v.



(** A row of adapter 4 once its constant columns are assigned. *)
Definition assigned_4 (read_date firm post_date report_title : string) : Row :=
  [("Read Date", read_date); ("Firm Name", firm); ("Post Date", post_date);
   ("Report Title", report_title); ("Platform", "example_publisher_4");
   ("User Name", SENTINEL); ("Email", SENTINEL); ("City", SENTINEL);
   ("Country", SENTINEL); ("Transaction ID", SENTINEL)].



(** A raw row of publisher 2. *)
Definition raw_2 (read event_id : string) : Row :=
  [("Date/time read", read); ("Platform", "example_publisher_2");
   ("Parent Firm name", "Acme"); ("Reader name", "A. Reader");
   ("E-mail", "reader@acme.com"); ("City", "Tokyo"); ("Country", "JP");
   ("Readership Event ID", event_id); ("Date/time published", "01-Mar-2024 09:00 AM");
   ("Report title", "(1234) Q2 Results")].

(* ===================================================================== *)
(** * Further functions of the source                                     *)
(* ===================================================================== *)

(** ** cleaning_rawdata.py *)

(** [get_publisher_info]; [PUBLISHERS] is the table params.py loads from the
    Publisher Master File, by publisher name: the Header and the Footer row
    counts.  A publisher without an entry raises [KeyError]. *)
Definition get_publisher_info (PUBLISHERS : list (string * (Z * Z))) (publisher : string)
    : result (Z * Z * option (list string)) :=
  info <- of_option (Py.dict_get PUBLISHERS publisher) ;;
  let header := fst info in
  let footer := snd info in
  let column_names :=
    if String.eqb publisher "example_publisher_4"
    then Some ["Read Date"; "0"; "Firm Name"; "1"; "2"; "Post Date"; "Report Title";
               "3"; "4"]
    else None in
  Ok (header, footer, column_names).

(** [get_data].  Reading a file is pandas' and the file system's business:
    [read_excel] and [read_csv] stand for [pd.read_excel] and for the
    encoding detection followed by [pd.read_csv], with the skip counts, the
    column names and the path as arguments, every cell cast to text.  A path
    with another extension is skipped; [pd.concat] of no frame raises. *)
Definition get_data (E : Externals)
    (read_excel read_csv : Z -> Z -> option (list string) -> string -> result DataFrame)
    (header footer : Z) (column_names : option (list string)) (file_paths : list string)
    : result DataFrame :=
  dfs <- mapM (fun file_path =>
                 if Py.endswith (str_upper E file_path) ".XLS" then
                   df <- read_excel header footer column_names file_path ;; Ok [df]
                 else if Py.endswith (str_upper E file_path) ".CSV" then
                   df <- read_csv header footer column_names file_path ;; Ok [df]
                 else Ok []) file_paths ;;
  match concat dfs with
  | [] => Raised
  | df :: dfs' => Ok (concat (df :: dfs'))
  end.

(** ** cleaning_customer.py *)

Definition set_Firm_Name (v : cell) (r : CRow) : CRow :=
  {| Read_Date := Read_Date r; Post_Date := Post_Date r;
     Firm_Name := v;
     User_Name := User_Name r; Email := Email r; City := City r;
     Country := Country r; Report_Title := Report_Title r;
     Platform := Platform r; Transaction_ID := Transaction_ID r |}.

(** [email.split('@')[1].split('.')[0]]; an address without "@" has no
    second part. *)
Definition email_domain (email : string) : result string :=
  match Py.split email "@" with
  | _ :: rest :: _ =>
      match Py.split rest "." with
      | domain :: _ => Ok domain
      | [] => Raised
      end
  | _ => Raised
  end.

(** [clients.set_index('Domain')['Client'].to_dict()]; an entry with a blank
    Domain has a key that no text equals. *)
Definition firm_name_map (clients : list ClientEntry) : list (string * cell) :=
  flat_map (fun c =>
              match cl_Domain c with
              | Some domain => [(domain, cl_Client c)]
              | None => []
              end) clients.

(** [get_firm_name]: the frame with its new Domain column (the first
    component) and its Firm Name column rewritten.  A missing Email has no
    [split]. *)
Definition get_firm_name (df : Frame) (clients : list ClientEntry)
    : result (list (string * CRow)) :=
  mapM (fun r =>
          email <- of_option (Email r) ;;
          domain <- email_domain email ;;
          let firm_name :=
            match Py.dict_get (firm_name_map clients) domain with
            | Some (Some client) => client
            | _ => SENTINEL
            end in
          Ok (domain, set_Firm_Name (Some firm_name) r)) df.

(** [main], from the precleaned file to [dropna]: the domain-to-firm step
    for the two publisher names the source lists, then the steps of
    [main_master_data].  (The Domain column always holds a value, so leaving
    it out changes nothing for [dropna].) *)
Definition main_rows (E : Externals) (publisher stock_code : string)
    (clients : list ClientEntry) (titles : list TitleEntry) (master_data : Frame)
    : result (list TRow) :=
  master_data <-
    (if existsb (String.eqb publisher) ["Example Publisher 7"; "Example Publisher 8"]
     then df <- get_firm_name master_data clients ;; Ok (map snd df)
     else Ok master_data) ;;
  main_master_data E stock_code clients titles master_data.

(** ** cleaning_all_rawdata.py *)

(** The Missing Clients folder: its files, by name, with their rows. *)
Definition Folder : Type := list (string * list TRow).

(** [df.to_excel(path)]: the file is replaced, or created. *)
Fixpoint write_file (name : string) (rows : list TRow) (folder : Folder) : Folder :=
  match folder with
  | [] => [(name, rows)]
  | (name', rows') :: rest =>
      if String.eqb name' name then (name', rows) :: rest
      else (name', rows') :: write_file name rows rest
  end.

(** [combine_missing_client_files]; [sort_by_firm_name] is the row order
    [sort_values(by='Firm Name')] produces.  Every file of the folder is
    read, in directory order. *)
Definition combine_missing_client_files (sort_by_firm_name : list TRow -> list TRow)
    (folder : Folder) : Folder :=
  match folder with
  | [] => folder
  | _ :: _ =>
      let dfs := map snd folder in
      let df := sort_by_firm_name (concat dfs) in
      write_file "All Missing Clients.xlsx" df folder
  end.

(** ** Vocabulary of the further properties *)

(** The client entry carries exactly the Firm Name of the row. *)
Definition exact_client (row : MRow) (c : ClientEntry) : bool :=
  match cl_Client c, Firm_Name (base row) with
  | Some name, Some firm => String.eqb name firm
  | _, _ => false
  end.

(** The master's value unless it is the sentinel, else the row's own. *)
Definition master_unless_sentinel (master own : cell) : cell :=
  if cell_eqb master (Some SENTINEL) then own else master.

(** The rows of a file of the folder, if the folder has it. *)
Definition read_file (name : string) (folder : Folder) : option (list TRow) :=
  option_map snd (find (fun f => String.eqb (fst f) name) folder).

(** The rows of the customers' files: every file but the combined one. *)
Definition customer_files_rows (folder : Folder) : list TRow :=
  concat (map snd (filter (fun f => negb (String.eqb (fst f) "All Missing Clients.xlsx"))
                          folder)).

(** An ascending insertion sort on Firm Name, missing names last. *)
Definition firm_name_leb (a b : TRow) : bool :=
  match Firm_Name (base (resolved a)), Firm_Name (base (resolved b)) with
  | _, None => true
  | None, Some _ => false
  | Some x, Some y => String.leb x y
  end.

Fixpoint insert_by_firm_name (r : TRow) (df : list TRow) : list TRow :=
  match df with
  | [] => [r]
  | h :: t => if firm_name_leb r h then r :: df else h :: insert_by_firm_name r t
  end.

Fixpoint sort_by_firm_name (df : list TRow) : list TRow :=
  match df with
  | [] => []
  | r :: t => insert_by_firm_name r (sort_by_firm_name t)
  end.

(** The paths [get_data] reads: those whose upper-cased form ends in .XLS or
    in .CSV. *)
Definition is_supported (E : Externals) (file_path : string) : bool :=
  Py.endswith (str_upper E file_path) ".XLS" || Py.endswith (str_upper E file_path) ".CSV".

(** The reader [get_data] calls on a supported path. *)
Definition read_path (E : Externals)
    (read_excel read_csv : Z -> Z -> option (list string) -> string -> result DataFrame)
    (header footer : Z) (column_names : option (list string)) (file_path : string)
    : result DataFrame :=
  if Py.endswith (str_upper E file_path) ".XLS"
  then read_excel header footer column_names file_path
  else read_csv header footer column_names file_path.

(** The cell holds none of the values [process_columns] replaces. *)
Definition no_marker (c : cell) : bool :=
  match c with
  | Some s => negb (is_to_replace s)
  | None => true
  end.

(** The cell holds the sentinel or an upper-cased text. *)
Definition sentinel_or_upper (E : Externals) (c : cell) : Prop :=
  exists s, c = Some s /\ (s = SENTINEL \/ exists x, s = str_upper E x).

(** The second date form the source documents for adapter 1, DD/MM/YYYY,
    and the same date with the year first. *)
Definition is_DD_MM_YYYY (s : string) : bool :=
  match s with
  | String d1 (String d2 (String s1 (String m1 (String m2 (String s2 (String y1
      (String y2 (String y3 (String y4 EmptyString))))))))) =>
      is_digit d1 && is_digit d2 && Ascii.eqb s1 "/" && is_digit m1 && is_digit m2 &&
      Ascii.eqb s2 "/" && is_digit y1 && is_digit y2 && is_digit y3 && is_digit y4
  | _ => false
  end.

Definition year_first (s : string) : string :=
  (substring 6 4 s ++ "/" ++ substring 3 2 s ++ "/" ++ substring 0 2 s)%string.

(** The text holds no blank. *)
Fixpoint has_no_blank (s : string) : bool :=
  match s with
  | EmptyString => true
  | String c t => negb (Ascii.eqb c " ") && has_no_blank t
  end.

(* ===================================================================== *)
(** * Properties                                                          *)
(* ===================================================================== *)

(** ** Calls that may raise *)

Lemma bind_Ok {A B : Type} (m : result A) (k : A -> result B) (b : B) :
  bind m k = Ok b -> exists a, m = Ok a /\ k a = Ok b.
Proof. destruct m as [a|]; simpl; [eauto | discriminate]. Qed.

(** Take a successful chain of calls apart. *)
Ltac inv_Ok :=
  repeat match goal with
  | H : bind _ _ = Ok _ |- _ =>
      let a := fresh "a" in
      let Ha := fresh "Ha" in
      apply bind_Ok in H; destruct H as (a & Ha & H)
  | H : Ok _ = Ok _ |- _ => injection H as H
  | H : Raised = Ok _ |- _ => discriminate H
  | H : of_option ?o = Ok _ |- _ =>
      destruct o eqn:?; simpl in H; [ | discriminate H]
  end.

Lemma mapM_Ok {A B : Type} (f : A -> result B) (l : list A) (l' : list B) :
  mapM f l = Ok l' -> Forall2 (fun x y => f x = Ok y) l l'.
Proof.
  revert l'; induction l as [|x t IH]; simpl; intros l' H.
  - inv_Ok. subst. constructor.
  - inv_Ok. subst. constructor; auto.
Qed.

Lemma mapM_Forall2 {A B : Type} (f : A -> result B) (l : list A) (l' : list B) :
  Forall2 (fun x y => f x = Ok y) l l' -> mapM f l = Ok l'.
Proof.
  induction 1 as [|x y t t' Hxy _ IH]; simpl; [reflexivity|].
  rewrite Hxy; simpl. rewrite IH; reflexivity.
Qed.

Lemma mapM_Raised {A B : Type} (f : A -> result B) (l : list A) (x : A) :
  In x l -> f x = Raised -> mapM f l = Raised.
Proof.
  induction l as [|y t IH]; simpl; [tauto|].
  intros [->|Hin] Hx.
  - rewrite Hx; reflexivity.
  - destruct (f y); simpl; [|reflexivity]. rewrite (IH Hin Hx); reflexivity.
Qed.

Lemma mapM_ext {A B : Type} (f g : A -> result B) (l : list A) :
  (forall x, In x l -> f x = g x) -> mapM f l = mapM g l.
Proof.
  induction l as [|x t IH]; simpl; intros H; [reflexivity|].
  rewrite (H x (or_introl eq_refl)), IH; auto.
Qed.

Lemma mapM_map {A B C : Type} (f : B -> result C) (g : A -> B) (l : list A) :
  mapM f (map g l) = mapM (fun x => f (g x)) l.
Proof. induction l as [|x t IH]; simpl; [reflexivity|]. rewrite IH; reflexivity. Qed.

Lemma mapM_length {A B : Type} (f : A -> result B) (l : list A) (l' : list B) :
  mapM f l = Ok l' -> length l' = length l.
Proof.
  intros H. apply mapM_Ok in H. induction H; simpl; congruence.
Qed.

Lemma filterM_Ok {A : Type} (p : A -> result bool) (l l' : list A) :
  filterM p l = Ok l' ->
  Forall (fun x => exists b, p x = Ok b) l /\
  l' = filter (fun x => match p x with Ok b => b | Raised => false end) l.
Proof.
  revert l'; induction l as [|x t IH]; simpl; intros l' H.
  - inv_Ok. subst. split; constructor.
  - inv_Ok. destruct (IH _ Ha0) as (Hall & ->). rewrite Ha.
    split; [constructor; eauto | ]. subst. reflexivity.
Qed.

Lemma filterM_In {A : Type} (p : A -> result bool) (l l' : list A) (x : A) :
  filterM p l = Ok l' -> In x l' -> In x l /\ p x = Ok true.
Proof.
  intros H Hin. apply filterM_Ok in H. destruct H as (Hall & ->).
  apply filter_In in Hin. destruct Hin as (Hin & Hp). split; [assumption|].
  destruct (p x) as [[|]|]; congruence.
Qed.

Lemma Forall2_In_r {A B : Type} (R : A -> B -> Prop) (l : list A) (l' : list B) (y : B) :
  Forall2 R l l' -> In y l' -> exists x, In x l /\ R x y.
Proof.
  induction 1 as [|a b t t' Hab _ IH]; simpl; [tauto|].
  intros [<-|Hin]; [eauto|]. destruct (IH Hin) as (x & Hx & HR); eauto.
Qed.

Lemma Forall2_In_l {A B : Type} (R : A -> B -> Prop) (l : list A) (l' : list B) (x : A) :
  Forall2 R l l' -> In x l -> exists y, In y l' /\ R x y.
Proof.
  induction 1 as [|a b t t' Hab _ IH]; simpl; [tauto|].
  intros [<-|Hin]; [eauto|]. destruct (IH Hin) as (y & Hy & HR); eauto.
Qed.

(** ** Entity resolver *)

Lemma client_mask_true (E : Externals) (firm_name : string) (c : ClientEntry) :
  match cl_Client c with
  | Some name => String.eqb (str_upper E name) (str_upper E firm_name)
  | None => false
  end = true <-> client_matches E firm_name c.
Proof.
  unfold client_matches. destruct (cl_Client c) as [name|].
  - rewrite String.eqb_eq. split.
    + intros H; exists name; auto.
    + intros (n & Hn & Hu). injection Hn as ->. exact Hu.
  - split; [discriminate|]. intros (n & Hn & _); discriminate.
Qed.

Lemma filter_first {A : Type} (p : A -> bool) (pre post : list A) (x : A) :
  (forall y, In y pre -> p y = false) -> p x = true ->
  exists rest, filter p (pre ++ x :: post) = x :: rest.
Proof.
  induction pre as [|y t IH]; simpl; intros Hpre Hx.
  - rewrite Hx. eauto.
  - rewrite (Hpre y (or_introl eq_refl)). apply IH; auto.
Qed.

Lemma filter_all {A : Type} (p : A -> bool) (l : list A) :
  (forall y, In y l -> p y = true) -> filter p l = l.
Proof.
  induction l as [|y t IH]; simpl; intros H; [reflexivity|].
  rewrite (H y (or_introl eq_refl)). f_equal. apply IH; auto.
Qed.

Lemma filter_none {A : Type} (p : A -> bool) (l : list A) :
  (forall y, In y l -> p y = false) -> filter p l = [].
Proof.
  induction l as [|y t IH]; simpl; intros H; [reflexivity|].
  rewrite (H y (or_introl eq_refl)). apply IH; auto.
Qed.

(** C8: a firm name without a case-insensitive match in the client master
    yields the sentinel for Investor Type and Investor Style and
    IsKnownClient = false (the call returns, it cannot raise); when there is
    a match, the first matching entry's Investor Type and Investor Style are
    returned with IsKnownClient = true. *)
Theorem get_client_info_resolves (E : Externals) (firm_name : string)
    (clients : list ClientEntry) :
  ((forall c, In c clients -> ~ client_matches E firm_name c) ->
   get_client_info E firm_name clients = (Some SENTINEL, Some SENTINEL, false))
  /\
  (forall pre c post,
     clients = pre ++ c :: post ->
     (forall c', In c' pre -> ~ client_matches E firm_name c') ->
     client_matches E firm_name c ->
     get_client_info E firm_name clients
       = (cl_Investor_Type c, cl_Investor_Style c, true)).
Proof.
  unfold get_client_info. split.
  - intros Hno. rewrite filter_none; [reflexivity|].
    intros c Hc. apply not_true_is_false. rewrite client_mask_true. auto.
  - intros pre c post -> Hpre Hc.
    edestruct (@filter_first ClientEntry) as (rest & ->); [ | | reflexivity].
    + intros c' Hc'. apply not_true_is_false. rewrite client_mask_true. auto.
    + apply client_mask_true; exact Hc.
Qed.

Lemma get_client_info_resolves_witness :
  get_client_info py_ascii "Acme Corp" [beta_entry] = (Some SENTINEL, Some SENTINEL, false)
  /\ get_client_info py_ascii "acme corp" [beta_entry; acme_entry]
     = (Some "Hedge Fund", Some "Growth", true).
Proof.
  split.
  - apply (proj1 (get_client_info_resolves py_ascii "Acme Corp" [beta_entry])).
    intros c [<-|[]] (name & Hn & Hu). injection Hn as <-. vm_compute in Hu. discriminate Hu.
  - apply (proj2 (get_client_info_resolves py_ascii "acme corp" [beta_entry; acme_entry])
             [beta_entry] acme_entry []).
    + reflexivity.
    + intros c [<-|[]] (name & Hn & Hu). injection Hn as <-. vm_compute in Hu. discriminate Hu.
    + exists "ACME Corp". split; reflexivity.
Defined.

(** C4, what the code does: [get_client_info] recognises the firm whatever
    its letter case, [get_city_and_country] compares the names exactly, so a
    row whose Firm Name differs from the master's entry in case only is
    flagged as a known client and still keeps its own City and Country. *)
Theorem get_city_and_country_is_case_sensitive :
  let row :=
    {| base := {| Read_Date := Some "2024-03-07"; Post_Date := Some "2024-03-01";
                  Firm_Name := Some "Acme Corp"; User_Name := Some "A. Reader";
                  Email := Some "reader@acme.com"; City := Some "OSAKA";
                  Country := Some SENTINEL; Report_Title := Some "(1234) Q2";
                  Platform := Some "example_publisher_1";
                  Transaction_ID := Some "t1" |};
       Investor_Type := Some "Hedge Fund"; Investor_Style := Some "Growth";
       In_Client_Master := true |} in
  get_client_info py_ascii "Acme Corp" [acme_entry] = (Some "Hedge Fund", Some "Growth", true)
  /\ client_matches py_ascii "Acme Corp" acme_entry
  /\ cl_City acme_entry = Some "TOKYO" /\ cl_Country acme_entry = Some "JAPAN"
  /\ get_city_and_country row [acme_entry] = row
  /\ City (base (get_city_and_country row [acme_entry])) = Some "OSAKA"
  /\ Country (base (get_city_and_country row [acme_entry])) = Some SENTINEL.
Proof.
  cbv zeta. repeat split; try reflexivity.
  exists "ACME Corp". split; reflexivity.
Qed.

(** With the very same spelling the master's values are taken over. *)
Example get_city_and_country_exact_match :
  let row :=
    {| base := {| Read_Date := Some "2024-03-07"; Post_Date := Some "2024-03-01";
                  Firm_Name := Some "ACME Corp"; User_Name := Some "A. Reader";
                  Email := Some "reader@acme.com"; City := Some "OSAKA";
                  Country := Some SENTINEL; Report_Title := Some "(1234) Q2";
                  Platform := Some "example_publisher_1";
                  Transaction_ID := Some "t1" |};
       Investor_Type := Some "Hedge Fund"; Investor_Style := Some "Growth";
       In_Client_Master := true |} in
  City (base (get_city_and_country row [acme_entry])) = Some "TOKYO"
  /\ Country (base (get_city_and_country row [acme_entry])) = Some "JAPAN".
Proof. split; reflexivity. Qed.

(** ** Title resolver *)







(** ** Dropping duplicates *)

Section Drop_duplicates.

Context {A K : Type} (K_eq_dec : forall x y : K, {x = y} + {x <> y}) (key : A -> K).

(** The rows whose key differs from [k]. *)
Local Abbreviation other k := (fun r => if K_eq_dec (key r) k then false else true).
Local Abbreviation dd := (drop_duplicates_on K_eq_dec key).





Lemma drop_duplicates_on_In (l : list A) (r : A) : In r (dd l) -> In r l.
Proof.
  induction l as [|x t IH]; simpl; [tauto|].
  intros [->|H]; [auto|]. apply filter_In in H. right. apply IH. apply H.
Qed.






(** The survivor for a key is the first row of the frame carrying it. *)
Lemma drop_duplicates_on_first (l : list A) (k : K) :
  filter (fun r => if K_eq_dec (key r) k then true else false) (dd l)
  = match find (fun r => if K_eq_dec (key r) k then true else false) l with
    | Some r => [r]
    | None => []
    end.
Proof.
  induction l as [|x t IH]; [reflexivity|].
  cbn [drop_duplicates_on filter find].
  destruct (K_eq_dec (key x) k) as [Heq|Hne].
  - f_equal. apply filter_none. intros y Hy. apply filter_In in Hy.
    destruct Hy as [_ Hy]. destruct (K_eq_dec (key y) (key x)); [discriminate|].
    destruct (K_eq_dec (key y) k); congruence.
  - rewrite <- IH. clear IH.
    generalize (dd t). intros l. induction l as [|y ys IHy]; [reflexivity|].
    simpl. destruct (K_eq_dec (key y) (key x)) as [Hyx|Hyx]; simpl.
    + destruct (K_eq_dec (key y) k); [congruence|]. exact IHy.
    + destruct (K_eq_dec (key y) k); [f_equal|]; exact IHy.
Qed.


End Drop_duplicates.

(** ** Missing-client ledger *)





(** On the first miss there is no ledger yet and the delta is written as it
    is: rows repeated in it stay repeated until the next merge. *)
Example save_missing_clients_first_run :
  save_missing_clients [missing_row "Acme"; missing_row "Acme"] None
  = Some [missing_row "Acme"; missing_row "Acme"].
Proof. reflexivity. Qed.

(** ** Post Date overwrite and row exclusion *)

Lemma has_na_with_title_and_post_date (E : Externals) (titles : list TitleEntry) (row : MRow) :
  has_na (with_title_and_post_date E titles row)
  = isna (looked_up_post_date E titles row) || other_column_missing row.
Proof.
  unfold has_na, other_column_missing, with_title_and_post_date, looked_up_post_date,
    map_post_date, title_of.
  cbn [resolved base set_base set_Post_Date Read_Date Post_Date Firm_Name User_Name
       Email City Country Report_Title Platform Transaction_ID Investor_Type
       Investor_Style Title].
  destruct (Report_Title (base row)) as [rt|]; cbn [isna].
  - rewrite !orb_false_r.
    destruct (isna (Read_Date (base row))), (isna (Firm_Name (base row))),
      (isna (User_Name (base row))), (isna (Email (base row))),
      (isna (City (base row))), (isna (Country (base row))),
      (isna (Platform (base row))), (isna (Transaction_ID (base row))),
      (isna (Investor_Type row)), (isna (Investor_Style row));
      cbn [orb]; rewrite ?orb_true_r, ?orb_false_r; reflexivity.
  - destruct (isna (Read_Date (base row))); reflexivity.
Qed.

Lemma title_stage_rows (E : Externals) (titles : list TitleEntry) (df : list MRow)
    (out : list TRow) :
  title_stage E titles df = Ok out ->
  out = dropna (map (with_title_and_post_date E titles) df).
Proof.
  unfold title_stage. intros H. inv_Ok. subst out. f_equal.
  apply mapM_Ok in Ha. unfold get_post_date.
  induction Ha as [|row t df df' Hrow _ IH]; [reflexivity|].
  cbn [map]. rewrite IH. f_equal. inv_Ok. subst t.
  unfold with_title_and_post_date, looked_up_post_date, title_of.
  cbn [resolved Title]. unfold row_title in Ha.
  destruct (Report_Title (base row)) as [rt|].
  - inv_Ok. subst a. reflexivity.
  - destruct titles; inv_Ok. subst a. reflexivity.
Qed.

(** C3, as the code has it: the stage overwrites the Post Date of every row
    with the title master's Post Date for the row's resolved Title, and keeps
    a row if and only if that lookup finds a date and no other column of the
    row is missing a value.  So every row whose resolved Title has no
    post-date entry is excluded, and so is a row with an entry that lacks a
    value elsewhere. *)
Theorem title_stage_excludes_incomplete_rows (E : Externals) (titles : list TitleEntry)
    (df : list MRow) (out : list TRow) :
  title_stage E titles df = Ok out ->
  out = map (with_title_and_post_date E titles)
            (filter (fun row => negb (isna (looked_up_post_date E titles row))
                                && negb (other_column_missing row)) df)
  /\ (forall row, In row df ->
        (In (with_title_and_post_date E titles row) out
         <-> looked_up_post_date E titles row <> None
             /\ other_column_missing row = false))
  /\ (forall t, In t out ->
        Post_Date (base (resolved t)) = map_post_date titles (Title t)
        /\ has_na t = false).
Proof.
  intros H. apply title_stage_rows in H. subst out. unfold dropna.
  assert (Heq : filter (fun r => negb (has_na r)) (map (with_title_and_post_date E titles) df)
                = map (with_title_and_post_date E titles)
                    (filter (fun row => negb (isna (looked_up_post_date E titles row))
                                        && negb (other_column_missing row)) df)).
  { induction df as [|row df IH]; [reflexivity|]. cbn [map filter].
    rewrite has_na_with_title_and_post_date, negb_orb, IH.
    destruct (negb (isna (looked_up_post_date E titles row))
              && negb (other_column_missing row)); reflexivity. }
  split; [exact Heq|]. split.
  - intros row Hrow. rewrite filter_In, has_na_with_title_and_post_date, negb_true_iff,
      orb_false_iff. split.
    + intros [_ [Hd Ho]]. split; [|exact Ho].
      destruct (looked_up_post_date E titles row); [discriminate|discriminate Hd].
    + intros [Hd Ho]. split; [apply in_map; exact Hrow|]. split; [|exact Ho].
      destruct (looked_up_post_date E titles row); [reflexivity|contradiction Hd; reflexivity].
  - intros t Ht. apply filter_In in Ht. destruct Ht as [Ht Hna].
    apply negb_true_iff in Hna. split; [|exact Hna].
    apply in_map_iff in Ht. destruct Ht as (row & <- & _). reflexivity.
Qed.

(** Three rows of one run.  The first is a known client with a blank
    Investor Style in the client master: its title is in the title master
    with a Post Date, and the row is dropped all the same.  The second, an
    unknown firm with the same title, is kept.  The third has a title the
    master does not know and is dropped. *)
Lemma title_stage_excludes_incomplete_rows_witness :
  title_stage py_ascii [q2_results] resolved_rows = Ok [missing_row "Acme Corp"]
  /\ [missing_row "Acme Corp"]
     = map (with_title_and_post_date py_ascii [q2_results])
         (filter (fun row => negb (isna (looked_up_post_date py_ascii [q2_results] row))
                             && negb (other_column_missing row)) resolved_rows)
  /\ (forall row, In row resolved_rows ->
        (In (with_title_and_post_date py_ascii [q2_results] row) [missing_row "Acme Corp"]
         <-> looked_up_post_date py_ascii [q2_results] row <> None
             /\ other_column_missing row = false))
  /\ (forall t, In t [missing_row "Acme Corp"] ->
        Post_Date (base (resolved t)) = map_post_date [q2_results] (Title t)
        /\ has_na t = false).
Proof.
  assert (H : title_stage py_ascii [q2_results] resolved_rows = Ok [missing_row "Acme Corp"])
    by reflexivity.
  split; [exact H|].
  exact (title_stage_excludes_incomplete_rows py_ascii [q2_results] resolved_rows _ H).
Defined.

Example main_master_data_resolved_rows :
  mapM (resolve_client py_ascii [beta_entry])
       (filter_stock_code "1234"
          [precleaned_row "Beta Capital" "(1234) Q2 Results";
           precleaned_row "Acme Corp" "(1234) Q2 Results";
           precleaned_row "Acme Corp" "(1234) Annual report";
           precleaned_row "Acme Corp" "(9999) Q2 Results"])
  = Ok resolved_rows.
Proof. reflexivity. Qed.

(** The claim as the specification words it fails on the first of these
    rows: its resolved Title has a post-date entry, and it is excluded. *)
Lemma title_stage_drops_row_with_post_date :
  let row := {| base := precleaned_row "Beta Capital" "(1234) Q2 Results";
                Investor_Type := Some "Pension"; Investor_Style := None;
                In_Client_Master := true |} in
  mapM (resolve_client py_ascii [beta_entry])
       (filter_stock_code "1234" [precleaned_row "Beta Capital" "(1234) Q2 Results"])
    = Ok [row]
  /\ looked_up_post_date py_ascii [q2_results] row = Some "2024-03-01"
  /\ title_stage py_ascii [q2_results] [row] = Ok []
  /\ ~ (forall out, title_stage py_ascii [q2_results] [row] = Ok out ->
          (In (with_title_and_post_date py_ascii [q2_results] row) out
           <-> looked_up_post_date py_ascii [q2_results] row <> None)).
Proof.
  cbv zeta. split; [reflexivity|]. split; [reflexivity|]. split; [reflexivity|].
  intros H. specialize (H [] eq_refl). destruct H as [_ H].
  apply H. discriminate.
Qed.

(** ** The concrete sort meets what is assumed of [sort_values] *)

Lemma ascii_compare_trans (a b c : ascii) (o : comparison) :
  Ascii.compare a b = o -> Ascii.compare b c = o -> Ascii.compare a c = o.
Proof.
  unfold Ascii.compare. destruct o.
  - rewrite !N.compare_eq_iff. congruence.
  - rewrite !N.compare_lt_iff. apply N.lt_trans.
  - rewrite !N.compare_gt_iff. intros H1 H2. eapply N.lt_trans; eassumption.
Qed.

Lemma string_compare_trans (s1 s2 s3 : string) :
  String.compare s1 s2 <> Gt -> String.compare s2 s3 <> Gt -> String.compare s1 s3 <> Gt.
Proof.
  revert s2 s3; induction s1 as [|a s1 IH]; intros [|b s2] [|c s3]; simpl;
    try congruence.
  destruct (Ascii.compare a b) eqn:Hab, (Ascii.compare b c) eqn:Hbc; try congruence.
  - rewrite (ascii_compare_trans a b c _ Hab Hbc). apply IH.
  - apply Ascii.compare_eq_iff in Hab. subst b. rewrite Hbc. congruence.
  - apply Ascii.compare_eq_iff in Hbc. subst c. rewrite Hab. congruence.
  - rewrite (ascii_compare_trans a b c _ Hab Hbc). congruence.
Qed.

Lemma string_leb_trans (s1 s2 s3 : string) :
  String.leb s1 s2 = true -> String.leb s2 s3 = true -> String.leb s1 s3 = true.
Proof.
  unfold String.leb. intros H1 H2.
  pose proof (string_compare_trans s1 s2 s3) as H.
  destruct (String.compare s1 s2), (String.compare s2 s3), (String.compare s1 s3);
    try reflexivity; try discriminate; exfalso; apply H; congruence.
Qed.

Lemma read_date_geb_ge (a b : CRow) : read_date_geb a b = true <-> read_date_ge a b.
Proof.
  unfold read_date_geb, read_date_ge.
  destruct (Read_Date a), (Read_Date b); split; auto; discriminate || contradiction.
Qed.

Lemma read_date_ge_refl (a : CRow) : read_date_ge a a.
Proof.
  unfold read_date_ge. destruct (Read_Date a) as [x|]; [|exact I].
  destruct (String.leb_total x x); assumption.
Qed.

Lemma read_date_ge_total (a b : CRow) : read_date_ge a b \/ read_date_ge b a.
Proof.
  unfold read_date_ge. destruct (Read_Date a) as [x|], (Read_Date b) as [y|]; auto.
  destruct (String.leb_total x y); auto.
Qed.

Lemma read_date_ge_trans (a b c : CRow) :
  read_date_ge a b -> read_date_ge b c -> read_date_ge a c.
Proof.
  unfold read_date_ge.
  destruct (Read_Date a) as [x|], (Read_Date b) as [y|], (Read_Date c) as [z|];
    try tauto.
  intros H1 H2. eapply string_leb_trans; eassumption.
Qed.

Lemma insert_desc_Permutation (r : CRow) (df : Frame) :
  Permutation (r :: df) (insert_desc r df).
Proof.
  induction df as [|h t IH]; simpl; [reflexivity|].
  destruct (read_date_geb r h); [reflexivity|].
  rewrite perm_swap. apply perm_skip. exact IH.
Qed.

Lemma insert_desc_sorted (r : CRow) (df : Frame) :
  StronglySorted read_date_ge df -> StronglySorted read_date_ge (insert_desc r df).
Proof.
  induction 1 as [|h t Ht IH Hh]; simpl.
  - constructor; constructor.
  - destruct (read_date_geb r h) eqn:Hrh.
    + apply read_date_geb_ge in Hrh. constructor.
      * constructor; assumption.
      * constructor; [exact Hrh|].
        eapply Forall_impl; [|exact Hh]. intros x Hx.
        eapply read_date_ge_trans; eassumption.
    + constructor; [exact IH|].
      assert (Hhr : read_date_ge h r).
      { destruct (read_date_ge_total r h) as [H|H]; [|exact H].
        apply read_date_geb_ge in H. congruence. }
      eapply Permutation_Forall; [apply insert_desc_Permutation|].
      constructor; assumption.
Qed.

Lemma sort_desc_spec : sort_values_spec (sort_values_desc py_ascii).
Proof.
  intros df. cbn [sort_values_desc py_ascii]. induction df as [|r t [IHp IHs]]; simpl.
  - split; constructor.
  - split.
    + rewrite <- insert_desc_Permutation. apply perm_skip. exact IHp.
    + apply insert_desc_sorted. exact IHs.
Qed.


(** ** The canonicalization, row by row *)

Lemma mapM_bind {A B C : Type} (f : A -> result B) (g : B -> result C) (l : list A) :
  (l' <- mapM f l ;; mapM g l') = mapM (fun x => y <- f x ;; g y) l.
Proof.
  induction l as [|x t IH]; [reflexivity|]. cbn [mapM].
  destruct (f x) as [y|]; cbn [bind]; [|reflexivity].
  rewrite <- IH. destruct (mapM f t) as [ys|]; cbn [bind mapM].
  - reflexivity.
  - destruct (g y); reflexivity.
Qed.

Lemma map_and_fillna_country_rows (E : Externals) (df : Frame) :
  map_and_fillna_country E df
  = mapM (fun r =>
            r' <- (name <- custom_mapping E (Country r) ;; Ok (set_Country (Some name) r)) ;;
            name <- upper_unless_sentinel E (Country r') ;;
            Ok (set_Country (Some name) r')) df.
Proof. unfold map_and_fillna_country. apply mapM_bind. Qed.

Lemma map_and_fillna_city_rows (E : Externals) (df : Frame) :
  map_and_fillna_city E df
  = mapM (fun r =>
            name <- upper_unless_sentinel E (City (set_City (map_city E (City r)) r)) ;;
            Ok (set_City (Some name) (set_City (map_city E (City r)) r))) df.
Proof. unfold map_and_fillna_city. apply mapM_map. Qed.

Lemma bind_ext {A B : Type} (m : result A) (k k' : A -> result B) :
  (forall a, k a = k' a) -> bind m k = bind m k'.
Proof. intros H. destruct m; simpl; auto. Qed.

Lemma canonicalize_rows (E : Externals) (df : DataFrame) (remove_duplicates : bool) :
  canonicalize E df remove_duplicates
  = mapM (canonical_row E) (kept_rows E df remove_duplicates).
Proof.
  unfold canonicalize, process_columns.
  fold (kept_rows E df remove_duplicates).
  generalize (kept_rows E df remove_duplicates). intros kept.
  rewrite (bind_ext _ _ _ (map_and_fillna_city_rows E)).
  rewrite map_and_fillna_country_rows, mapM_map.
  etransitivity; [apply mapM_bind|].
  apply mapM_ext. intros r _. unfold canonical_row.
  destruct (custom_mapping E (Country (replace_row r))) as [n1|]; cbn [bind]; [|reflexivity].
  destruct (upper_unless_sentinel E (Country (set_Country (Some n1) (replace_row r))))
    as [n2|]; cbn [bind]; reflexivity.
Qed.

(** ** Deduplication policy *)

Lemma find_split {A : Type} (p : A -> bool) (l : list A) (r : A) :
  find p l = Some r ->
  exists pre post, l = pre ++ r :: post /\ p r = true /\ forall x, In x pre -> p x = false.
Proof.
  induction l as [|x t IH]; simpl; [discriminate|].
  destruct (p x) eqn:Hx.
  - intros H. injection H as <-. exists [], t. simpl. tauto.
  - intros H. destruct (IH H) as (pre & post & -> & Hr & Hpre).
    exists (x :: pre), post. simpl. repeat split; auto.
    intros y [<-|Hy]; auto.
Qed.

Lemma find_exists {A : Type} (p : A -> bool) (l : list A) (x : A) :
  In x l -> p x = true -> exists r, find p l = Some r.
Proof.
  induction l as [|y t IH]; simpl; [tauto|].
  intros Hin Hx. destruct (p y) eqn:Hy; [eauto|].
  destruct Hin as [->|Hin]; [congruence|]. apply IH; assumption.
Qed.

Lemma StronglySorted_after {A : Type} (R : A -> A -> Prop) (pre post : list A) (r : A) :
  StronglySorted R (pre ++ r :: post) -> Forall (R r) post.
Proof.
  induction pre as [|x pre IH]; simpl; intros H; inversion H; subst; auto.
Qed.

Lemma has_tid_true (v : cell) (r : CRow) : has_tid v r = true <-> Transaction_ID r = v.
Proof. unfold has_tid. destruct (cell_eq_dec (Transaction_ID r) v); split; congruence. Qed.

(** C1, with the number of adapters as the code has it.  Each adapter is its
    row preparation followed by the canonicalization with its
    [remove_duplicates] argument; three adapters, 4, 6 and 7, pass
    [False].  With the default, every Transaction ID of the frame is carried
    by exactly one kept row, the first row with that ID in the sorted frame,
    whose Read Date is not below that of any row with the same ID; without
    deduplication the kept rows are the rows of the frame, rearranged.  The
    output is the kept rows, canonicalized one by one. *)
Theorem deduplication_policy (E : Externals) :
  sort_values_spec (sort_values_desc E) ->
  (forall name rows remove_duplicates,
     In (name, rows, remove_duplicates) adapters ->
     forall df, preclean_data E df name
                = Some (pre <- rows E df ;; canonicalize E pre remove_duplicates))
  /\ no_dedup_adapters
     = ["example_publisher_4"; "example_publisher_6"; "example_publisher_7"]
  /\ (forall df out,
        canonicalize E df true = Ok out ->
        exists kept,
          mapM (canonical_row E) kept = Ok out
          /\ forall v, In v (map Transaction_ID (map reindex df)) ->
               exists r,
                 filter (has_tid v) kept = [r]
                 /\ find (has_tid v) (sort_values_desc E (map reindex df)) = Some r
                 /\ forall r', In r' (map reindex df) -> Transaction_ID r' = v ->
                               read_date_ge r r')
  /\ (forall df out,
        canonicalize E df false = Ok out ->
        exists kept,
          mapM (canonical_row E) kept = Ok out
          /\ Permutation (map reindex df) kept
          /\ length out = length df).
Proof.
  intros Hsort. split; [|split; [reflexivity|split]].
  - intros name rows flag Hin df. unfold adapters in Hin. simpl in Hin.
    repeat (destruct Hin as [Hin|Hin]; [injection Hin as <- <- <-; reflexivity|]).
    destruct Hin.
  - intros df out H. rewrite canonicalize_rows in H.
    exists (kept_rows E df true). split; [exact H|].
    intros v Hv. unfold kept_rows, drop_duplicates_tid.
    destruct (Hsort (map reindex df)) as [Hperm Hsorted].
    set (sorted := sort_values_desc E (map reindex df)) in *.
    assert (Hv' : In v (map Transaction_ID sorted)).
    { eapply Permutation_in; [apply Permutation_map; exact Hperm|exact Hv]. }
    apply in_map_iff in Hv'. destruct Hv' as (x & Hx & Hxin).
    destruct (find_exists (has_tid v) sorted x Hxin (proj2 (has_tid_true v x) Hx))
      as (r & Hr).
    exists r. split; [|split; [exact Hr|]].
    + unfold has_tid. rewrite (drop_duplicates_on_first cell_eq_dec Transaction_ID sorted v).
      fold (has_tid v). rewrite Hr. reflexivity.
    + intros r' Hr' Hv'.
      destruct (find_split _ _ _ Hr) as (pre & post & Heq & Hrv & Hpre).
      assert (Hin' : In r' sorted) by (eapply Permutation_in; eassumption).
      rewrite Heq in Hin', Hsorted. apply in_app_iff in Hin'.
      destruct Hin' as [Hin'|[<-|Hin']].
      * apply Hpre in Hin'. apply has_tid_true in Hv'. congruence.
      * apply read_date_ge_refl.
      * apply StronglySorted_after in Hsorted.
        rewrite Forall_forall in Hsorted. apply Hsorted. exact Hin'.
  - intros df out H. rewrite canonicalize_rows in H.
    exists (kept_rows E df false). split; [exact H|]. split.
    + apply (Hsort (map reindex df)).
    + rewrite (mapM_length _ _ _ H). unfold kept_rows.
      rewrite <- (Permutation_length (proj1 (Hsort (map reindex df)))).
      apply length_map.
Qed.

Lemma deduplication_policy_witness :
  sort_values_spec (sort_values_desc py_ascii)
  /\ no_dedup_adapters
     = ["example_publisher_4"; "example_publisher_6"; "example_publisher_7"]
  /\ (forall df out,
        canonicalize py_ascii df true = Ok out ->
        exists kept,
          mapM (canonical_row py_ascii) kept = Ok out
          /\ forall v, In v (map Transaction_ID (map reindex df)) ->
               exists r,
                 filter (has_tid v) kept = [r]
                 /\ find (has_tid v) (sort_values_desc py_ascii (map reindex df)) = Some r
                 /\ forall r', In r' (map reindex df) -> Transaction_ID r' = v ->
                               read_date_ge r r')
  /\ (forall df out,
        canonicalize py_ascii df false = Ok out ->
        exists kept,
          mapM (canonical_row py_ascii) kept = Ok out
          /\ Permutation (map reindex df) kept
          /\ length out = length df).
Proof.
  split; [exact sort_desc_spec|].
  exact (proj2 (deduplication_policy py_ascii sort_desc_spec)).
Defined.

(** The claim as the specification words it, deduplication disabled for
    exactly two variants, fails: three adapters pass
    [remove_duplicates=False], and each of the three lets two rows with the
    same Transaction ID through. *)
Lemma deduplication_disabled_for_three_adapters :
  no_dedup_adapters = ["example_publisher_4"; "example_publisher_6"; "example_publisher_7"]
  /\ length no_dedup_adapters <> 2
  /\ (forall E df,
        clean_example_publisher_4 E df
        = (pre <- rows_example_publisher_4 E df ;; canonicalize E pre false))
  /\ (forall E df,
        clean_example_publisher_6 E df
        = (pre <- rows_example_publisher_6 E df ;; canonicalize E pre false))
  /\ (forall E df,
        clean_example_publisher_7 E df
        = (pre <- rows_example_publisher_7 E df ;; canonicalize E pre false))
  /\ (exists out,
        clean_example_publisher_4 py_ascii
          [raw_4 "2024/03/07" "Acme"; raw_4 "2024/03/09" "Beta"] = Ok out
        /\ map Transaction_ID out = [Some SENTINEL; Some SENTINEL])
  /\ (exists out,
        clean_example_publisher_6 py_ascii [raw_6 "March 7, 2024" "2"] = Ok out
        /\ map Transaction_ID out = [Some SENTINEL; Some SENTINEL])
  /\ (exists out,
        clean_example_publisher_7 py_ascii
          [raw_7 "a@acme.com" "2024-03-07 10:00:00 AM";
           raw_7 "b@beta.com" "2024-03-09 11:00:00 AM"] = Ok out
        /\ map Transaction_ID out = [Some SENTINEL; Some SENTINEL]).
Proof.
  split; [reflexivity|]. split; [discriminate|].
  split; [reflexivity|]. split; [reflexivity|]. split; [reflexivity|].
  split; [|split]; eexists; (split; [vm_compute; reflexivity | reflexivity]).
Qed.

(** Adapter 2 selects the column Readership Event ID and renames Readership
    Event ID (FactSet): the Transaction ID column of its frame is missing
    throughout, all rows share that missing value, and the default policy
    keeps a single row of the batch. *)
Example adapter_2_keeps_one_row :
  exists out,
    clean_example_publisher_2 py_ascii
      [raw_2 "07-Mar-2024 10:00 AM" "event-1"; raw_2 "08-Mar-2024 10:00 AM" "event-2"]
    = Ok out
    /\ map Read_Date out = [Some "2024-03-08"]
    /\ map Transaction_ID out = [None].
Proof. eexists. split; [vm_compute; reflexivity|]. split; reflexivity. Qed.

(** ** Rows as label-value lists *)

Lemma get_lookup (c : string) (r : Row) (v : string) :
  get c r = Ok v <-> lookup c r = Some v.
Proof.
  induction r as [|[c' v'] t IH]; simpl.
  - split; discriminate.
  - destruct (String.eqb c' c); [split; congruence | exact IH].
Qed.

Lemma lookup_set_eq (c v : string) (r : Row) : lookup c (set c v r) = Some v.
Proof.
  induction r as [|[c' v'] t IH]; simpl.
  - rewrite String.eqb_refl. reflexivity.
  - destruct (String.eqb c' c) eqn:Hc; simpl; rewrite Hc; auto.
Qed.

Lemma lookup_set_ne (c c' v : string) (r : Row) :
  c <> c' -> lookup c (set c' v r) = lookup c r.
Proof.
  intros Hne. induction r as [|[c'' v''] t IH]; simpl.
  - destruct (String.eqb_spec c' c); congruence.
  - destruct (String.eqb_spec c'' c').
    + subst c''. simpl. destruct (String.eqb_spec c' c); congruence.
    + simpl. rewrite IH. reflexivity.
Qed.

Lemma update_lookup_ne (f : string -> result string) (c c' : string) (r r' : Row) :
  update f c' r = Ok r' -> c <> c' -> lookup c r' = lookup c r.
Proof.
  unfold update. intros H Hne. inv_Ok. subst r'. apply lookup_set_ne. exact Hne.
Qed.

Lemma update_fold_Raised (f : string -> result string) (cols : list string) :
  fold_left (fun acc c => r' <- acc ;; update f c r') cols Raised = Raised.
Proof. induction cols as [|c cols IH]; simpl; auto. Qed.

Lemma update_fold_lookup (f : string -> result string) (cols : list string) (c : string)
    (r r' : Row) :
  fold_left (fun acc c => r' <- acc ;; update f c r') cols (Ok r) = Ok r' ->
  ~ In c cols -> lookup c r' = lookup c r.
Proof.
  revert r; induction cols as [|c' cols IH]; simpl; intros r H Hnin.
  - congruence.
  - destruct (update f c' r) as [r1|] eqn:Hu.
    + rewrite (IH r1 H) by tauto. eapply update_lookup_ne; [exact Hu|]. intros ->. tauto.
    + rewrite update_fold_Raised in H. discriminate H.
Qed.

Lemma applymap_lookup (cols : list string) (f : string -> result string)
    (df df' : DataFrame) :
  applymap cols f df = Ok df' ->
  Forall2 (fun r r' => forall c, ~ In c cols -> lookup c r' = lookup c r) df df'.
Proof.
  unfold applymap. intros H. apply mapM_Ok in H.
  eapply Forall2_impl; [|exact H]. simpl. intros r r' Hr c Hc.
  eapply update_fold_lookup; eassumption.
Qed.

Lemma drop_non_disclosed_In (E : Externals) (df df' : DataFrame) (r : Row) :
  drop_non_disclosed E df = Ok df' -> In r df' ->
  In r df /\ exists s, lookup "Firm Name" r = Some s /\ is_non_disclosed E s = false.
Proof.
  unfold drop_non_disclosed. intros H Hin.
  destruct (filterM_In _ _ _ _ H Hin) as [Hin' Hp]. split; [exact Hin'|].
  inv_Ok. exists a. split; [apply get_lookup; exact Ha|].
  apply negb_true_iff. exact Hp.
Qed.

(** A row that went through the disclosure filter and then a date
    conversion. *)
Lemma filtered_then_converted (E : Externals) (cols : list string)
    (f : string -> result string) (df0 df1 df2 : DataFrame) :
  drop_non_disclosed E df0 = Ok df1 ->
  applymap cols f df1 = Ok df2 ->
  ~ In "Firm Name" cols ->
  Forall (firm_disclosed E) df2.
Proof.
  intros Hf Ha Hnin. apply applymap_lookup in Ha. apply Forall_forall. intros r' Hr'.
  destruct (Forall2_In_r _ _ _ _ Ha Hr') as (r & Hr & Hlk).
  destruct (drop_non_disclosed_In E _ _ _ Hf Hr) as (_ & s & Hs & Hd).
  exists s. split; [|right; exact Hd]. rewrite Hlk by exact Hnin. exact Hs.
Qed.

Lemma not_in_dates : ~ In "Firm Name" ["Read Date"; "Post Date"].
Proof. simpl. intros [H|[H|[]]]; discriminate H. Qed.

Lemma not_in_read_date : ~ In "Firm Name" ["Read Date"].
Proof. simpl. intros [H|[]]; discriminate H. Qed.

Lemma rows_1_firm (E : Externals) (df pre : DataFrame) :
  rows_example_publisher_1 E df = Ok pre -> Forall (firm_disclosed E) pre.
Proof.
  unfold rows_example_publisher_1. intros H. inv_Ok.
  eapply filtered_then_converted; eauto using not_in_dates.
Qed.

Lemma rows_2_firm (E : Externals) (df pre : DataFrame) :
  rows_example_publisher_2 E df = Ok pre -> Forall (firm_disclosed E) pre.
Proof.
  unfold rows_example_publisher_2. intros H. inv_Ok.
  eapply filtered_then_converted; eauto using not_in_dates.
Qed.

Lemma rows_3_firm (E : Externals) (df pre : DataFrame) :
  rows_example_publisher_3 E df = Ok pre -> Forall (firm_disclosed E) pre.
Proof.
  unfold rows_example_publisher_3. intros H. inv_Ok.
  eapply filtered_then_converted; eauto using not_in_dates.
Qed.

Lemma rows_4_firm (E : Externals) (df pre : DataFrame) :
  rows_example_publisher_4 E df = Ok pre -> Forall (firm_disclosed E) pre.
Proof.
  unfold rows_example_publisher_4. intros H. inv_Ok.
  eapply filtered_then_converted; eauto using not_in_dates.
Qed.

Lemma rows_5_firm (E : Externals) (df pre : DataFrame) :
  rows_example_publisher_5 E df = Ok pre -> Forall (firm_disclosed E) pre.
Proof.
  unfold rows_example_publisher_5. intros H. inv_Ok.
  eapply filtered_then_converted; eauto using not_in_read_date.
Qed.

Lemma rows_6_firm (E : Externals) (df pre : DataFrame) :
  rows_example_publisher_6 E df = Ok pre -> Forall (firm_disclosed E) pre.
Proof.
  unfold rows_example_publisher_6. intros H. inv_Ok.
  eapply filtered_then_converted; eauto using not_in_dates.
Qed.

(** Renaming leaves a column alone when its label is renamed to itself and
    no other label is renamed to it. *)
Lemma lookup_rename (m : list (string * string)) (c : string) (r : Row) :
  (forall c', match Py.dict_get m c' with Some c'' => c'' | None => c' end = c <-> c' = c) ->
  lookup c (map (fun cv : string * string =>
                   (match Py.dict_get m (fst cv) with Some c' => c' | None => fst cv end,
                    snd cv)) r)
  = lookup c r.
Proof.
  intros Hm. induction r as [|[c0 v0] t IH]; [reflexivity|].
  cbn [map lookup fst snd]. rewrite IH.
  destruct (String.eqb_spec c0 c) as [->|Hne].
  - rewrite (proj2 (Hm c) eq_refl), String.eqb_refl. reflexivity.
  - destruct (String.eqb_spec (match Py.dict_get m c0 with Some c'' => c'' | None => c0 end) c)
      as [Heq|_]; [|reflexivity].
    apply (proj1 (Hm c0)) in Heq. congruence.
Qed.

(** Decide, for a literal renaming, which labels end up as a given one. *)
Ltac solve_renamed_to :=
  let c' := fresh "c" in
  intros c'; cbn [Py.dict_get];
  repeat match goal with
  | |- context [String.eqb ?k c'] =>
      destruct (String.eqb_spec k c'); [subst c'; cbn | ]
  end;
  let Hx := fresh "Hx" in
  split; intros Hx; try discriminate Hx; try reflexivity; try congruence.

Lemma rows_7_firm (E : Externals) (df pre : DataFrame) :
  rows_example_publisher_7 E df = Ok pre -> Forall (firm_disclosed E) pre.
Proof.
  unfold rows_example_publisher_7. intros H. inv_Ok.
  apply applymap_lookup in H. apply Forall_forall. intros r' Hr'.
  destruct (Forall2_In_r _ _ _ _ H Hr') as (r & Hr & Hlk).
  exists SENTINEL. split; [|left; reflexivity].
  rewrite Hlk by exact not_in_dates.
  unfold rename, assign in Hr. rewrite map_map in Hr.
  apply in_map_iff in Hr. destruct Hr as (r0 & <- & _).
  rewrite lookup_rename by solve_renamed_to.
  cbn [fold_left fst snd].
  repeat rewrite lookup_set_ne by discriminate.
  apply lookup_set_eq.
Qed.

Lemma rows_8_firm (E : Externals) (df pre : DataFrame) :
  rows_example_publisher_8 E df = Ok pre -> Forall (firm_disclosed E) pre.
Proof.
  unfold rows_example_publisher_8. intros H. inv_Ok.
  apply applymap_lookup in H. apply Forall_forall. intros r' Hr'.
  destruct (Forall2_In_r _ _ _ _ H Hr') as (r & Hr & Hlk).
  exists SENTINEL. split; [|left; reflexivity].
  rewrite Hlk by exact not_in_dates.
  unfold rename, assign in Hr. rewrite map_map in Hr.
  apply in_map_iff in Hr. destruct Hr as (r0 & <- & _).
  rewrite lookup_rename by solve_renamed_to.
  cbn [fold_left fst snd].
  repeat rewrite lookup_set_ne by discriminate.
  apply lookup_set_eq.
Qed.

(** ** Disclosure *)

Lemma canonical_row_other_columns (E : Externals) (r r' : CRow) :
  canonical_row E r = Ok r' ->
  Read_Date r' = replace_cell (Read_Date r)
  /\ Post_Date r' = replace_cell (Post_Date r)
  /\ Firm_Name r' = replace_cell (Firm_Name r)
  /\ User_Name r' = replace_cell (User_Name r)
  /\ Email r' = replace_cell (Email r)
  /\ Report_Title r' = replace_cell (Report_Title r)
  /\ Platform r' = replace_cell (Platform r)
  /\ Transaction_ID r' = replace_cell (Transaction_ID r).
Proof.
  unfold canonical_row. intros H. inv_Ok. subst r'. cbn. repeat split.
Qed.

Lemma kept_rows_In (E : Externals) (df : DataFrame) (remove_duplicates : bool) (r : CRow) :
  sort_values_spec (sort_values_desc E) ->
  In r (kept_rows E df remove_duplicates) -> In r (map reindex df).
Proof.
  intros Hsort Hin. unfold kept_rows in Hin.
  destruct (Hsort (map reindex df)) as [Hperm _].
  eapply Permutation_in; [symmetry; exact Hperm|].
  destruct remove_duplicates; [|exact Hin].
  eapply drop_duplicates_on_In. exact Hin.
Qed.

Lemma preclean_data_adapters (E : Externals) (df : DataFrame) (name : string)
    (res : result Frame) :
  preclean_data E df name = Some res ->
  exists rows remove_duplicates,
    In (name, rows, remove_duplicates) adapters
    /\ res = (pre <- rows E df ;; canonicalize E pre remove_duplicates).
Proof.
  unfold preclean_data, cleaning_functions, adapters. cbn [Py.dict_get].
  repeat match goal with
  | |- context [String.eqb ?k name] =>
      destruct (String.eqb_spec k name); [subst name; cbn | ]
  end;
  intros H; try discriminate H; injection H as <-;
    do 2 eexists; (split; [|reflexivity]); simpl; tauto.
Qed.

Lemma adapters_firm (E : Externals) (name : string)
    (rows : Externals -> DataFrame -> result DataFrame) (remove_duplicates : bool)
    (df pre : DataFrame) :
  In (name, rows, remove_duplicates) adapters ->
  rows E df = Ok pre -> Forall (firm_disclosed E) pre.
Proof.
  unfold adapters. simpl. intros Hin.
  repeat (destruct Hin as [Hin|Hin]; [injection Hin as <- <- <-|]); try destruct Hin.
  - apply rows_1_firm.
  - apply rows_2_firm.
  - apply rows_3_firm.
  - apply rows_4_firm.
  - apply rows_5_firm.
  - apply rows_6_firm.
  - apply rows_7_firm.
  - apply rows_8_firm.
Qed.

Lemma sort_values_nil (E : Externals) :
  sort_values_spec (sort_values_desc E) -> sort_values_desc E [] = [].
Proof. intros Hsort. apply Permutation_nil. apply (Hsort []). Qed.

(** C7: whatever the adapter, the Firm Name of every row of its output is
    none of the raw markers, and is either the sentinel or a name the
    disclosure filter let through; the adapter-4 row of the scenario, Firm
    Name "Non-Disclosed Company Name", is excluded from the output. *)
Theorem undisclosed_firms_do_not_survive (E : Externals) :
  sort_values_spec (sort_values_desc E) ->
  (forall name df out,
     preclean_data E df name = Some (Ok out) -> Forall (firm_canonical E) out)
  /\ (str_lower E "Non-Disclosed Company Name" = "non-disclosed company name" ->
      preclean_data E [scenario_row_4] "example_publisher_4" = Some (Ok [])).
Proof.
  intros Hsort. split.
  - intros name df out H.
    destruct (preclean_data_adapters E df name _ H) as (rows & flag & Hin & Heq).
    symmetry in Heq. inv_Ok. rename a into pre.
    pose proof (adapters_firm E name rows flag df pre Hin Ha) as Hfirm.
    rewrite canonicalize_rows in Heq. apply mapM_Ok in Heq.
    apply Forall_forall. intros r' Hr'.
    destruct (Forall2_In_r _ _ _ _ Heq Hr') as (r & Hr & Hrow).
    apply (kept_rows_In E pre flag r Hsort) in Hr.
    apply in_map_iff in Hr. destruct Hr as (r0 & <- & Hr0).
    rewrite Forall_forall in Hfirm. destruct (Hfirm r0 Hr0) as (s & Hs & Hd).
    destruct (canonical_row_other_columns E _ _ Hrow) as (_ & _ & Hf & _).
    cbn [reindex Firm_Name] in Hf. rewrite Hs in Hf. cbn [replace_cell] in Hf.
    destruct (is_to_replace s) eqn:Hrep.
    + exists SENTINEL. split; [exact Hf|]. split; [reflexivity|left; reflexivity].
    + exists s. split; [exact Hf|]. split; [exact Hrep|exact Hd].
  - intros Hlower. unfold preclean_data. cbn [Py.dict_get cleaning_functions].
    cbn. unfold clean_example_publisher_4, rows_example_publisher_4.
    cbn. unfold is_non_disclosed. rewrite Hlower. cbn.
    unfold canonicalize, process_columns. cbn [map].
    rewrite (sort_values_nil E Hsort). reflexivity.
Qed.

Lemma undisclosed_firms_do_not_survive_witness :
  sort_values_spec (sort_values_desc py_ascii)
  /\ (forall name df out,
        preclean_data py_ascii df name = Some (Ok out) -> Forall (firm_canonical py_ascii) out)
  /\ (str_lower py_ascii "Non-Disclosed Company Name" = "non-disclosed company name" ->
      preclean_data py_ascii [scenario_row_4] "example_publisher_4" = Some (Ok []))
  /\ str_lower py_ascii "Non-Disclosed Company Name" = "non-disclosed company name"
  /\ preclean_data py_ascii [scenario_row_4] "example_publisher_4" = Some (Ok []).
Proof.
  split; [exact sort_desc_spec|].
  destruct (undisclosed_firms_do_not_survive py_ascii sort_desc_spec) as [Hall Hscenario].
  split; [exact Hall|]. split; [exact Hscenario|]. split; [reflexivity|].
  apply Hscenario. reflexivity.
Defined.

(** ** Adapter 8: opened e-mails only *)

Lemma select_row_8 (r r1 : Row) :
  select_row ["Recipient"; "Subject"; "Event Type"; "Event ID";
              "Event Created Date (Your time zone)"; "City"; "Country";
              "Open duration (ms)"] r = Ok r1 ->
  exists e d,
    get "Event Type" r = Ok e /\ get "Open duration (ms)" r = Ok d
    /\ get "Event Type" r1 = Ok e /\ get "Open duration (ms)" r1 = Ok d.
Proof.
  unfold select_row. cbn [mapM]. intros H. inv_Ok. subst.
  do 2 eexists. split; [eassumption|]. split; [eassumption|]. split; reflexivity.
Qed.

Lemma publisher_8_filters (E : Externals) (df d1 d2 d3 : DataFrame) :
  select ["Recipient"; "Subject"; "Event Type"; "Event ID";
          "Event Created Date (Your time zone)"; "City"; "Country";
          "Open duration (ms)"] df = Ok d1 ->
  filterM is_open d1 = Ok d2 ->
  filterM (opened_long_enough E) d2 = Ok d3 ->
  exists d1' d2',
    select ["Recipient"; "Subject"; "Event Type"; "Event ID";
            "Event Created Date (Your time zone)"; "City"; "Country";
            "Open duration (ms)"] (filter (opened_over_3000_ms E) df) = Ok d1'
    /\ filterM is_open d1' = Ok d2'
    /\ filterM (opened_long_enough E) d2' = Ok d3.
Proof.
  unfold select. revert d1 d2 d3. induction df as [|r t IH]; intros d1 d2 d3 H1 H2 H3.
  - cbn [mapM] in H1. injection H1 as <-. cbn [filterM] in H2. injection H2 as <-.
    exists [], []. repeat split; assumption.
  - cbn [mapM] in H1.
    apply bind_Ok in H1. destruct H1 as (r1 & Hr1 & H1).
    apply bind_Ok in H1. destruct H1 as (t1 & Ht1 & H1). injection H1 as <-.
    cbn [filterM] in H2.
    apply bind_Ok in H2. destruct H2 as (b1 & Hb1 & H2).
    apply bind_Ok in H2. destruct H2 as (t2 & Ht2 & H2). injection H2 as <-.
    destruct (select_row_8 r r1 Hr1) as (e & d & He & Hd & He1 & Hd1).
    assert (Hopen : b1 = String.eqb e "OPEN").
    { unfold is_open in Hb1. rewrite He1 in Hb1. cbn [bind] in Hb1. congruence. }
    cbn [filter]. unfold opened_over_3000_ms at 1. rewrite He, Hd, <- Hopen.
    destruct b1; cbn [andb].
    + cbn [filterM] in H3.
      apply bind_Ok in H3. destruct H3 as (b2 & Hb2 & H3).
      apply bind_Ok in H3. destruct H3 as (t3 & Ht3 & H3). injection H3 as <-.
      destruct (IH t1 t2 t3 Ht1 Ht2 Ht3) as (t1' & t2' & Hs & Ho & Hl).
      assert (Hlong : match astype_float E d with
                      | Some ms => float_gt ms (Finite 3000)
                      | None => false
                      end = b2).
      { unfold opened_long_enough in Hb2. rewrite Hd1 in Hb2. cbn [bind] in Hb2.
        destruct (astype_float E d); cbn [of_option bind] in Hb2; congruence. }
      rewrite Hlong. destruct b2.
      * exists (r1 :: t1'), (r1 :: t2'). cbn [mapM filterM].
        rewrite Hr1, Hs. cbn [bind]. rewrite Hb1, Ho. cbn [bind].
        rewrite Hb2, Hl. cbn [bind]. repeat split.
      * exists t1', t2'. repeat split; assumption.
    + apply (IH t1 t2 d3); assumption.
Qed.

Lemma rows_8_origin (E : Externals) (df pre : DataFrame) (r' : Row) :
  rows_example_publisher_8 E df = Ok pre -> In r' pre ->
  exists r,
    In r df
    /\ lookup "Transaction ID" r' = lookup "Event ID" r
    /\ lookup "Email" r' = lookup "Recipient" r
    /\ lookup "Report Title" r' = lookup "Subject" r.
Proof.
  unfold rows_example_publisher_8. intros H Hr'.
  apply bind_Ok in H. destruct H as (d1 & H1 & H).
  apply bind_Ok in H. destruct H as (d2 & H2 & H).
  apply bind_Ok in H. destruct H as (d3 & H3 & H).
  apply bind_Ok in H. destruct H as (d4 & H4 & H).
  apply applymap_lookup in H.
  destruct (Forall2_In_r _ _ _ _ H Hr') as (r4' & Hr4' & Hlk).
  rewrite !Hlk by (simpl; intros [Hc|[Hc|[]]]; discriminate Hc).
  unfold rename, assign in Hr4'. rewrite map_map in Hr4'.
  apply in_map_iff in Hr4'. destruct Hr4' as (r4 & <- & Hr4).
  apply (filterM_In _ _ _ _ H4) in Hr4. destruct Hr4 as [Hr4 _].
  unfold drop in Hr4. apply in_map_iff in Hr4. destruct Hr4 as (r3 & <- & Hr3).
  apply (filterM_In _ _ _ _ H3) in Hr3. destruct Hr3 as [Hr3 _].
  apply (filterM_In _ _ _ _ H2) in Hr3. destruct Hr3 as [Hr3 _].
  unfold select in H1. apply mapM_Ok in H1.
  destruct (Forall2_In_r _ _ _ _ H1 Hr3) as (r & Hr & Hsel).
  exists r. split; [exact Hr|].
  unfold select_row in Hsel. cbn [mapM] in Hsel. inv_Ok. subst.
  repeat match goal with
  | Hg : get _ r = Ok _ |- _ => apply get_lookup in Hg; rewrite Hg
  end.
  cbn. repeat split.
Qed.

(** C10: the rows adapter 8 prepares, and so its output, are those it
    computes from the input rows with Event Type OPEN and an open duration
    above 3000 ms alone; every prepared row stems from such an input row
    (its Transaction ID, Email and Report Title are that row's Event ID,
    Recipient and Subject); every other row is left out before the
    canonicalization, and an input without such rows yields no row. *)
Theorem publisher_8_keeps_long_opens_only (E : Externals) (df : DataFrame) :
  (forall pre,
     rows_example_publisher_8 E df = Ok pre ->
     rows_example_publisher_8 E (filter (opened_over_3000_ms E) df) = Ok pre)
  /\ (forall out,
        clean_example_publisher_8 E df = Ok out ->
        clean_example_publisher_8 E (filter (opened_over_3000_ms E) df) = Ok out)
  /\ (forall pre r',
        rows_example_publisher_8 E df = Ok pre -> In r' pre ->
        exists r,
          In r df /\ opened_over_3000_ms E r = true
          /\ lookup "Transaction ID" r' = lookup "Event ID" r
          /\ lookup "Email" r' = lookup "Recipient" r
          /\ lookup "Report Title" r' = lookup "Subject" r)
  /\ (forall pre,
        (forall r, In r df -> opened_over_3000_ms E r = false) ->
        rows_example_publisher_8 E df = Ok pre -> pre = []).
Proof.
  assert (Hrows : forall pre,
            rows_example_publisher_8 E df = Ok pre ->
            rows_example_publisher_8 E (filter (opened_over_3000_ms E) df) = Ok pre).
  { intros pre H. unfold rows_example_publisher_8 in H.
    apply bind_Ok in H. destruct H as (d1 & H1 & H).
    apply bind_Ok in H. destruct H as (d2 & H2 & H).
    apply bind_Ok in H. destruct H as (d3 & H3 & H).
    destruct (publisher_8_filters E df d1 d2 d3 H1 H2 H3) as (d1' & d2' & Hs & Ho & Hl).
    unfold rows_example_publisher_8. rewrite Hs. cbn [bind]. rewrite Ho. cbn [bind].
    rewrite Hl. cbn [bind]. exact H. }
  split; [exact Hrows|]. split; [|split].
  - intros out H. unfold clean_example_publisher_8 in *.
    apply bind_Ok in H. destruct H as (pre & Hpre & H).
    rewrite (Hrows pre Hpre). exact H.
  - intros pre r' H Hr'. apply Hrows in H.
    destruct (rows_8_origin E _ pre r' H Hr') as (r & Hr & Hlk).
    apply filter_In in Hr. destruct Hr as [Hr Hkeep].
    exists r. split; [exact Hr|]. split; [exact Hkeep|exact Hlk].
  - intros pre Hnone H. apply Hrows in H.
    rewrite (filter_none _ _ Hnone) in H. cbn in H. congruence.
Qed.

(** Five events: sent but never opened, opened for exactly 3000 ms, for
    3001 ms, for an unknown time, for 4000 ms.  The third and the fifth
    reach the output. *)
Lemma publisher_8_keeps_long_opens_only_witness :
  let df := [raw_8 "SENT" "nan" "e1" "2024-03-05 09:00:00";
             raw_8 "OPEN" "3000" "e2" "2024-03-06 09:00:00";
             raw_8 "OPEN" "3001" "e3" "2024-03-07 09:00:00";
             raw_8 "OPEN" "nan" "e4" "08/03/2024 09:00";
             raw_8 "OPEN" "4000" "e5" "09/03/2024"] in
  filter (opened_over_3000_ms py_ascii) df
  = [raw_8 "OPEN" "3001" "e3" "2024-03-07 09:00:00"; raw_8 "OPEN" "4000" "e5" "09/03/2024"]
  /\ (exists out,
        clean_example_publisher_8 py_ascii df = Ok out
        /\ map Transaction_ID out = [Some "e5"; Some "e3"]
        /\ clean_example_publisher_8 py_ascii (filter (opened_over_3000_ms py_ascii) df)
           = Ok out).
Proof.
  cbv zeta. split; [reflexivity|].
  eexists. split; [vm_compute; reflexivity|]. split; [reflexivity|].
  apply (proj1 (proj2 (publisher_8_keeps_long_opens_only py_ascii _))).
  vm_compute. reflexivity.
Defined.

(** ** Date conversion *)

Lemma mapM_total {A B : Type} (f : A -> result B) (l : list A) :
  (forall x, In x l -> exists y, f x = Ok y) -> exists l', mapM f l = Ok l'.
Proof.
  induction l as [|x t IH]; intros H; cbn [mapM]; [eauto|].
  destruct (H x (or_introl eq_refl)) as (y & ->).
  destruct IH as (t' & ->); [intros z Hz; apply H; right; exact Hz|].
  cbn [bind]. eauto.
Qed.

Lemma filterM_total {A : Type} (p : A -> result bool) (l : list A) :
  (forall x, In x l -> exists b, p x = Ok b) -> exists l', filterM p l = Ok l'.
Proof.
  induction l as [|x t IH]; intros H; cbn [filterM]; [eauto|].
  destruct (H x (or_introl eq_refl)) as (b & ->).
  destruct IH as (t' & ->); [intros z Hz; apply H; right; exact Hz|].
  cbn [bind]. eauto.
Qed.

Lemma is_digit_not_slash (c : ascii) : is_digit c = true -> c <> "/"%char.
Proof. intros H ->. discriminate H. Qed.

Lemma replace_slash_digit (c : ascii) (t : string) :
  is_digit c = true ->
  Py.replace_go "/" "-" 0 (String c t) = String c (Py.replace_go "/" "-" 0 t).
Proof.
  intros H. cbn [Py.replace_go prefix].
  destruct (ascii_dec "/" c) as [Heq|_]; [|reflexivity].
  symmetry in Heq. apply is_digit_not_slash in H. contradiction.
Qed.

Lemma replace_slash_slash (t : string) :
  Py.replace_go "/" "-" 0 (String "/" t) = String "-" (Py.replace_go "/" "-" 0 t).
Proof. destruct t; reflexivity. Qed.

Lemma convert_date_4_well_formed (s : string) :
  is_YYYY_MM_DD s = true -> convert_date_example_publisher_4 s = Ok (with_dashes s).
Proof.
  unfold is_YYYY_MM_DD.
  destruct s as [|y1 [|y2 [|y3 [|y4 [|s1 [|m1 [|m2 [|s2 [|d1 [|d2 [|? ?]]]]]]]]]]];
    try discriminate.
  intros H. do 9 (apply andb_prop in H; destruct H as [H ?]).
  repeat match goal with
  | Hs : Ascii.eqb _ _ = true |- _ => apply Ascii.eqb_eq in Hs; subst
  end.
  unfold convert_date_example_publisher_4, Py.replace. f_equal.
  rewrite !replace_slash_digit by assumption. rewrite replace_slash_slash.
  rewrite !replace_slash_digit by assumption. rewrite replace_slash_slash.
  rewrite !replace_slash_digit by assumption. reflexivity.
Qed.

Lemma select_4_rows (df d1 : DataFrame) :
  select ["Read Date"; "Firm Name"; "Post Date"; "Report Title"] df = Ok d1 ->
  Forall (fun r => exists a b c d,
            r = [("Read Date", a); ("Firm Name", b); ("Post Date", c);
                 ("Report Title", d)]) d1.
Proof.
  unfold select. intros H. apply mapM_Ok in H. apply Forall_forall. intros r1 Hr1.
  destruct (Forall2_In_r _ _ _ _ H Hr1) as (r & _ & Hsel).
  unfold select_row in Hsel. cbn [mapM] in Hsel. inv_Ok. subst. eauto 6.
Qed.

Lemma rows_4_shape (E : Externals) (df pre : DataFrame) :
  rows_example_publisher_4 E df = Ok pre ->
  Forall (fun r => exists a b c d, r = assigned_4 a b c d) pre.
Proof.
  unfold rows_example_publisher_4. intros H.
  apply bind_Ok in H. destruct H as (d1 & H1 & H).
  apply bind_Ok in H. destruct H as (d2 & H2 & H).
  apply select_4_rows in H1. apply mapM_Ok in H.
  apply Forall_forall. intros r' Hr'.
  destruct (Forall2_In_r _ _ _ _ H Hr') as (r & Hr & Hconv).
  unfold drop_non_disclosed in H2. apply (filterM_In _ _ _ _ H2) in Hr.
  destruct Hr as [Hr _]. unfold assign in Hr.
  apply in_map_iff in Hr. destruct Hr as (r1 & <- & Hr1).
  rewrite Forall_forall in H1. destruct (H1 r1 Hr1) as (a & b & c & d & ->).
  cbn in Hconv. injection Hconv as <-. unfold assigned_4. eauto 6.
Qed.

Lemma rows_4_total (E : Externals) (df : DataFrame) :
  Forall (has_columns ["Read Date"; "Firm Name"; "Post Date"; "Report Title"]) df ->
  exists pre, rows_example_publisher_4 E df = Ok pre.
Proof.
  intros Hcols. unfold rows_example_publisher_4.
  destruct (mapM_total (select_row ["Read Date"; "Firm Name"; "Post Date"; "Report Title"]) df)
    as (d1 & H1).
  { intros r Hr. rewrite Forall_forall in Hcols. specialize (Hcols r Hr).
    unfold select_row. apply mapM_total. intros c Hc.
    destruct (Hcols c Hc) as (v & ->). cbn [bind]. eauto. }
  unfold select at 1. rewrite H1. cbn [bind].
  pose proof (select_4_rows df d1 H1) as Hshape. rewrite Forall_forall in Hshape.
  set (assigned := assign _ d1).
  assert (Hassigned : forall r, In r assigned -> exists a b c d, r = assigned_4 a b c d).
  { intros r Hr. unfold assigned, assign in Hr. apply in_map_iff in Hr.
    destruct Hr as (r1 & <- & Hr1). destruct (Hshape r1 Hr1) as (a & b & c & d & ->).
    cbn. unfold assigned_4. eauto 6. }
  destruct (filterM_total
              (fun r => firm <- get "Firm Name" r ;; Ok (negb (is_non_disclosed E firm)))
              assigned) as (d2 & H2).
  { intros r Hr. destruct (Hassigned r Hr) as (a & b & c & d & ->). cbn. eauto. }
  unfold drop_non_disclosed. rewrite H2. cbn [bind].
  apply mapM_total. intros r Hr.
  apply (filterM_In _ _ _ _ H2) in Hr. destruct Hr as [Hr _].
  destruct (Hassigned r Hr) as (a & b & c & d & ->). cbn. eauto.
Qed.

Lemma canonical_row_assigned_4 (E : Externals) (a b c d : string) :
  exists r', canonical_row E (reindex (assigned_4 a b c d)) = Ok r'.
Proof.
  unfold canonical_row. cbn. destruct (Py.dict_get (CUSTOM_CITY_MAPPING E) SENTINEL); cbn; eauto.
Qed.

Lemma clean_4_total (E : Externals) (df : DataFrame) :
  sort_values_spec (sort_values_desc E) ->
  Forall (has_columns ["Read Date"; "Firm Name"; "Post Date"; "Report Title"]) df ->
  exists out, clean_example_publisher_4 E df = Ok out.
Proof.
  intros Hsort Hcols. unfold clean_example_publisher_4.
  destruct (rows_4_total E df Hcols) as (pre & Hpre). rewrite Hpre. cbn [bind].
  rewrite canonicalize_rows. apply mapM_total. intros r Hr.
  apply (kept_rows_In E pre false r Hsort) in Hr.
  apply in_map_iff in Hr. destruct Hr as (r0 & <- & Hr0).
  pose proof (rows_4_shape E df pre Hpre) as Hshape. rewrite Forall_forall in Hshape.
  destruct (Hshape r0 Hr0) as (a & b & c & d & ->).
  apply canonical_row_assigned_4.
Qed.





(** ** A second pass of the canonicalization *)







(* ===================================================================== *)
(** * Further properties                                                  *)
(* ===================================================================== *)

(** ** City and Country from the client master *)

Lemma set_City_same (r : CRow) : set_City (City r) r = r.
Proof. destruct r; reflexivity. Qed.

Lemma set_Country_same (r : CRow) : set_Country (Country r) r = r.
Proof. destruct r; reflexivity. Qed.

Lemma set_base_same (row : MRow) : set_base (base row) row = row.
Proof. destruct row; reflexivity. Qed.

(** X1: [get_city_and_country] leaves a row as it is when no client entry
    carries exactly its Firm Name.  Otherwise the first such entry decides:
    the row's City, respectively Country, becomes the entry's value unless
    that value is the sentinel; a blank value of the entry is copied too and
    leaves the row without a City, respectively Country.  No other column
    changes. *)
Theorem get_city_and_country_first_exact_entry (row : MRow) (clients : list ClientEntry) :
  ((forall c, In c clients -> exact_client row c = false) ->
   get_city_and_country row clients = row)
  /\ (forall pre c post,
        clients = pre ++ c :: post ->
        (forall c', In c' pre -> exact_client row c' = false) ->
        exact_client row c = true ->
        get_city_and_country row clients
        = set_base
            (set_Country (master_unless_sentinel (cl_Country c) (Country (base row)))
               (set_City (master_unless_sentinel (cl_City c) (City (base row)))
                  (base row)))
            row
        /\ (cl_City c = None -> City (base (get_city_and_country row clients)) = None)
        /\ (cl_Country c = None ->
            Country (base (get_city_and_country row clients)) = None)).
Proof.
  unfold get_city_and_country. fold (exact_client row). split.
  - intros Hno. rewrite (filter_none _ _ Hno). reflexivity.
  - intros pre c post -> Hpre Hc.
    destruct (filter_first (exact_client row) pre post c Hpre Hc) as (rest & ->).
    assert (Heq : (let row0 :=
                     if negb (cell_eqb (cl_City c) (Some SENTINEL))
                     then set_base (set_City (cl_City c) (base row)) row else row in
                   let row1 :=
                     if negb (cell_eqb (cl_Country c) (Some SENTINEL))
                     then set_base (set_Country (cl_Country c) (base row0)) row0 else row0 in
                   row1)
                  = set_base
                      (set_Country (master_unless_sentinel (cl_Country c) (Country (base row)))
                         (set_City (master_unless_sentinel (cl_City c) (City (base row)))
                            (base row)))
                      row).
    { unfold master_unless_sentinel. cbv zeta.
      destruct (cell_eqb (cl_City c) (Some SENTINEL)),
        (cell_eqb (cl_Country c) (Some SENTINEL)); cbn [negb];
        destruct row as [b ty st known]; destruct b; reflexivity. }
    split; [exact Heq|].
    cbv zeta in Heq. rewrite Heq. unfold master_unless_sentinel. split.
    + intros ->. destruct (cell_eqb (cl_Country c) (Some SENTINEL)); reflexivity.
    + intros ->. reflexivity.
Qed.

Lemma get_city_and_country_first_exact_entry_witness :
  let row := {| base := precleaned_row "ACME Corp" "(1234) Q2 Results";
                Investor_Type := Some "Hedge Fund"; Investor_Style := Some "Growth";
                In_Client_Master := true |} in
  let blank := {| cl_Client := Some "ACME Corp"; cl_Domain := None;
                  cl_Investor_Type := None; cl_Investor_Style := None;
                  cl_City := None; cl_Country := Some SENTINEL |} in
  get_city_and_country row [beta_entry] = row
  /\ City (base (get_city_and_country row [beta_entry; acme_entry])) = Some "TOKYO"
  /\ City (base (get_city_and_country row [beta_entry; blank; acme_entry])) = None
  /\ Country (base (get_city_and_country row [beta_entry; blank; acme_entry]))
     = Some SENTINEL.
Proof.
  cbv zeta. split; [|split; [|split]].
  - apply (proj1 (get_city_and_country_first_exact_entry _ [beta_entry])).
    intros c [<-|[]]. reflexivity.
  - match goal with
    | |- City (base (get_city_and_country ?row ?cl)) = _ =>
        destruct (proj2 (get_city_and_country_first_exact_entry row cl)
                    [beta_entry] acme_entry [] eq_refl) as (Heq & _ & _);
          [intros c' [<-|[]]; reflexivity | reflexivity | rewrite Heq; reflexivity]
    end.
  - match goal with
    | |- City (base (get_city_and_country ?row ?cl)) = _ =>
        destruct (proj2 (get_city_and_country_first_exact_entry row cl)
                    [beta_entry] _ [acme_entry] eq_refl) as (_ & Hblank & _);
          [intros c' [<-|[]]; reflexivity | reflexivity | apply Hblank; reflexivity]
    end.
  - reflexivity.
Defined.

(** ** Firm names from e-mail domains *)

Lemma mapM_Raised_inv {A B : Type} (f : A -> result B) (l : list A) :
  mapM f l = Raised -> exists x, In x l /\ f x = Raised.
Proof.
  induction l as [|x t IH]; cbn [mapM]; [discriminate|].
  destruct (f x) as [y|] eqn:Hx; cbn [bind].
  - destruct (mapM f t) as [ys|]; cbn [bind]; [discriminate|].
    intros _. destruct (IH eq_refl) as (z & Hz & Hf). exists z. split; [right|]; assumption.
  - intros _. exists x. split; [left; reflexivity|exact Hx].
Qed.







(** ** Publisher names across the two stages *)

Lemma supported_publisher (E : Externals) (df : DataFrame) (name : string) :
  preclean_data E df name <> None <-> In name (map fst cleaning_functions).
Proof.
  unfold preclean_data, cleaning_functions. cbn [Py.dict_get map fst].
  split.
  - repeat match goal with
    | |- context [String.eqb ?k name] =>
        destruct (String.eqb_spec k name); [subst name; cbn | ]
    end; intros H; try (contradiction H; reflexivity); simpl; tauto.
  - simpl. intros H.
    repeat (destruct H as [H|H]; [subst name; cbn; discriminate|]). destruct H.
Qed.

(** X3: [preclean_data] returns nothing exactly for the names outside its
    eight adapters, and for none of the eight names does [main] run the
    domain-to-firm step: the two names [main] tests for are not names of
    adapters.  A precleaned file of adapter 7 or 8 therefore goes through
    the customer stage with the Firm Name the adapter gave it. *)
Theorem supported_publishers_skip_get_firm_name (E : Externals) (name : string) :
  (forall df, preclean_data E df name = None <-> ~ In name (map fst cleaning_functions))
  /\ (In name (map fst cleaning_functions) ->
      forall stock_code clients titles master_data,
        main_rows E name stock_code clients titles master_data
        = main_master_data E stock_code clients titles master_data)
  /\ (existsb (String.eqb name) ["Example Publisher 7"; "Example Publisher 8"] = true ->
      forall df, preclean_data E df name = None).
Proof.
  split; [|split].
  - intros df. pose proof (supported_publisher E df name) as H.
    destruct (preclean_data E df name); split; intros H1.
    + discriminate H1.
    + exfalso. apply H1, H. discriminate.
    + intros H2. apply H in H2. apply H2. reflexivity.
    + reflexivity.
  - simpl. intros H stock_code clients titles master_data.
    repeat (destruct H as [<-|H]; [reflexivity|]). destruct H.
  - cbn [existsb]. intros H df.
    destruct (String.eqb_spec name "Example Publisher 7") as [Heq|_];
      [rewrite Heq; reflexivity|].
    destruct (String.eqb_spec name "Example Publisher 8") as [Heq|_];
      [rewrite Heq; reflexivity|].
    discriminate H.
Qed.

Lemma supported_publishers_skip_get_firm_name_witness :
  In "example_publisher_8" (map fst cleaning_functions)
  /\ (forall stock_code clients titles master_data,
        main_rows py_ascii "example_publisher_8" stock_code clients titles master_data
        = main_master_data py_ascii stock_code clients titles master_data)
  /\ (forall df, preclean_data py_ascii df "Example Publisher 8" = None).
Proof.
  assert (H : In "example_publisher_8" (map fst cleaning_functions)) by (simpl; tauto).
  split; [exact H|]. split.
  - exact (proj1 (proj2 (supported_publishers_skip_get_firm_name py_ascii _)) H).
  - exact (proj2 (proj2 (supported_publishers_skip_get_firm_name py_ascii
                           "Example Publisher 8")) eq_refl).
Defined.

(** ** What reaches the clean file of a customer *)






(** ** The Missing Clients folder *)


Lemma read_write_file (name : string) (rows : list TRow) (folder : Folder) :
  read_file name (write_file name rows folder) = Some rows.
Proof.
  unfold read_file. induction folder as [|[name' rows'] rest IH]; simpl.
  - rewrite String.eqb_refl. reflexivity.
  - destruct (String.eqb name' name) eqn:Heq; simpl; rewrite Heq; [reflexivity|exact IH].
Qed.

Lemma read_write_other_file (name name' : string) (rows : list TRow) (folder : Folder) :
  name' <> name ->
  read_file name' (write_file name rows folder) = read_file name' folder.
Proof.
  intros Hne. unfold read_file.
  induction folder as [|[n r] rest IH]; simpl.
  - destruct (String.eqb_spec name name'); [congruence|reflexivity].
  - destruct (String.eqb_spec n name) as [->|_]; simpl.
    + destruct (String.eqb_spec name name'); [congruence|reflexivity].
    + destruct (String.eqb n name'); [reflexivity|exact IH].
Qed.

Lemma write_file_names (name : string) (rows : list TRow) (folder : Folder) :
  NoDup (map fst folder) -> NoDup (map fst (write_file name rows folder)).
Proof.
  assert (Hin : forall n f, In n (map fst (write_file name rows f)) ->
                            n = name \/ In n (map fst f)).
  { intros n f. induction f as [|[n' r'] rest IH]; simpl.
    - intros [H|[]]; auto.
    - destruct (String.eqb n' name); simpl; [tauto|].
      intros [H|H]; [auto|]. destruct (IH H); auto. }
  induction folder as [|[n r] rest IH]; simpl; intros H.
  - constructor; [intros []|constructor].
  - inversion H as [|? ? Hn Hrest]; subst.
    destruct (String.eqb_spec n name) as [->|Hne]; simpl; [constructor; assumption|].
    constructor; [|auto]. intros Hc. destruct (Hin _ _ Hc); auto.
Qed.

Lemma write_file_rows (name : string) (rows : list TRow) (folder : Folder) :
  NoDup (map fst folder) ->
  Permutation (concat (map snd (write_file name rows folder)))
    (concat (map snd (filter (fun f => negb (String.eqb (fst f) name)) folder)) ++ rows).
Proof.
  induction folder as [|[n r] rest IH]; simpl; intros H.
  - rewrite app_nil_r. apply Permutation_refl.
  - inversion H as [|? ? Hn Hrest]; subst.
    destruct (String.eqb_spec n name) as [->|Hne]; simpl.
    + rewrite filter_all; [apply Permutation_app_comm|].
      intros [n' r'] Hin. simpl.
      destruct (String.eqb_spec n' name) as [->|_]; [|reflexivity].
      exfalso. apply Hn. apply (in_map fst) in Hin. exact Hin.
    + rewrite <- app_assoc. apply Permutation_app_head. apply IH. exact Hrest.
Qed.

Lemma insert_by_firm_name_Permutation (r : TRow) (df : list TRow) :
  Permutation (insert_by_firm_name r df) (r :: df).
Proof.
  induction df as [|h t IH]; simpl; [apply Permutation_refl|].
  destruct (firm_name_leb r h); [apply Permutation_refl|].
  eapply Permutation_trans; [apply perm_skip, IH|apply perm_swap].
Qed.

Lemma sort_by_firm_name_Permutation (df : list TRow) :
  Permutation (sort_by_firm_name df) df.
Proof.
  induction df as [|r t IH]; simpl; [constructor|].
  eapply Permutation_trans; [apply insert_by_firm_name_Permutation|].
  apply perm_skip, IH.
Qed.

(** X6: [combine_missing_client_files] reads every file of the folder, the
    combined file of an earlier call among them.  A call leaves the other
    files as they are and writes the rows of all files, in some order, to
    the combined file; a second call writes the customers' rows together
    with the rows of the first combined file, so that in a folder that had
    no combined file every row is then held twice as often. *)
Theorem combine_missing_client_files_reads_its_output
    (sort_values : list TRow -> list TRow) (folder : Folder) :
  (forall df, Permutation (sort_values df) df) ->
  folder <> [] ->
  NoDup (map fst folder) ->
  let once := combine_missing_client_files sort_values folder in
  let twice := combine_missing_client_files sort_values once in
  (forall name, name <> "All Missing Clients.xlsx" ->
     read_file name once = read_file name folder
     /\ read_file name twice = read_file name folder)
  /\ exists first second,
       read_file "All Missing Clients.xlsx" once = Some first
       /\ read_file "All Missing Clients.xlsx" twice = Some second
       /\ Permutation first (concat (map snd folder))
       /\ Permutation second (customer_files_rows folder ++ first)
       /\ (read_file "All Missing Clients.xlsx" folder = None ->
           Permutation second (first ++ first)).
Proof.
  intros Hsort Hne Hnames once twice.
  destruct folder as [|f rest]; [congruence|].
  set (folder := f :: rest) in *.
  assert (Honce : once = write_file "All Missing Clients.xlsx"
                           (sort_values (concat (map snd folder))) folder) by reflexivity.
  assert (Htwice : twice = write_file "All Missing Clients.xlsx"
                             (sort_values (concat (map snd once))) once).
  { unfold twice, combine_missing_client_files.
    destruct once as [|f1 rest1] eqn:Ho; [|reflexivity].
    exfalso. pose proof (read_write_file "All Missing Clients.xlsx"
                           (sort_values (concat (map snd folder))) folder) as Hr.
    rewrite <- Honce in Hr. discriminate Hr. }
  clearbody once twice. subst once twice.
  assert (Hsecond :
            Permutation
              (sort_values
                 (concat (map snd (write_file "All Missing Clients.xlsx"
                                     (sort_values (concat (map snd folder))) folder))))
              (customer_files_rows folder ++ sort_values (concat (map snd folder)))).
  { eapply Permutation_trans; [apply Hsort|]. apply write_file_rows. exact Hnames. }
  split.
  - intros name Hname. rewrite !read_write_other_file by exact Hname. split; reflexivity.
  - exists (sort_values (concat (map snd folder))). eexists.
    split; [apply read_write_file|]. split; [apply read_write_file|].
    split; [apply Hsort|]. split; [exact Hsecond|].
    intros Hnone. eapply Permutation_trans; [exact Hsecond|].
    apply Permutation_app_tail. apply Permutation_sym.
    eapply Permutation_trans; [apply Hsort|].
    unfold customer_files_rows. rewrite filter_all; [apply Permutation_refl|].
    intros [n r] Hin. simpl.
    destruct (String.eqb_spec n "All Missing Clients.xlsx") as [->|_]; [|reflexivity].
    exfalso. unfold read_file in Hnone.
    destruct (find (fun f0 => String.eqb (fst f0) "All Missing Clients.xlsx") folder)
      eqn:Hfind; [discriminate Hnone|].
    apply (find_none _ _ Hfind) in Hin. discriminate Hin.
Qed.

Lemma combine_missing_client_files_reads_its_output_witness :
  let folder := [("Acme Missing Clients.xlsx", [missing_row "Zeta"; missing_row "Beta"])] in
  let twice := combine_missing_client_files sort_by_firm_name
                 (combine_missing_client_files sort_by_firm_name folder) in
  read_file "All Missing Clients.xlsx" twice
  = Some [missing_row "Beta"; missing_row "Beta"; missing_row "Zeta"; missing_row "Zeta"]
  /\ exists first second,
       read_file "All Missing Clients.xlsx" twice = Some second
       /\ Permutation second (first ++ first).
Proof.
  cbv zeta. split; [reflexivity|].
  destruct (combine_missing_client_files_reads_its_output sort_by_firm_name
              [("Acme Missing Clients.xlsx", [missing_row "Zeta"; missing_row "Beta"])]
              sort_by_firm_name_Permutation)
    as (_ & first & second & _ & Htwice & _ & _ & Hperm).
  - discriminate.
  - repeat constructor. intros [].
  - exists first, second. split; [exact Htwice|]. apply Hperm. reflexivity.
Defined.


(** ** Loading the files of a publisher *)

Lemma bind_assoc {A B C : Type} (m : result A) (f : A -> result B) (g : B -> result C) :
  bind (bind m f) g = bind m (fun a => bind (f a) g).
Proof. destruct m; reflexivity. Qed.

Lemma get_data_frames (E : Externals)
    (read_excel read_csv : Z -> Z -> option (list string) -> string -> result DataFrame)
    (header footer : Z) (column_names : option (list string)) (file_paths : list string) :
  get_data E read_excel read_csv header footer column_names file_paths
  = (frames <- mapM (read_path E read_excel read_csv header footer column_names)
                 (filter (is_supported E) file_paths) ;;
     match frames with
     | [] => Raised
     | _ :: _ => Ok (concat frames)
     end).
Proof.
  unfold get_data.
  set (step := fun file_path : string => _).
  set (k := fun frames : list DataFrame =>
              match frames with [] => Raised | _ :: _ => Ok (concat frames) end).
  assert (H : (dfs <- mapM step file_paths ;; Ok (concat dfs))
              = mapM (read_path E read_excel read_csv header footer column_names)
                  (filter (is_supported E) file_paths)).
  { induction file_paths as [|p t IH]; [reflexivity|].
    cbn [mapM filter].
    destruct (Py.endswith (str_upper E p) ".XLS") eqn:Hx;
      [|destruct (Py.endswith (str_upper E p) ".CSV") eqn:Hc].
    - assert (Hs : is_supported E p = true)
        by (unfold is_supported; rewrite Hx; reflexivity).
      assert (Hr : step p = (df <- read_path E read_excel read_csv header footer
                                     column_names p ;; Ok [df]))
        by (unfold step, read_path; rewrite Hx; reflexivity).
      rewrite Hs, Hr. cbn [mapM]. rewrite <- IH.
      destruct (read_path E read_excel read_csv header footer column_names p);
        cbn [bind]; [|reflexivity].
      destruct (mapM step t); reflexivity.
    - assert (Hs : is_supported E p = true)
        by (unfold is_supported; rewrite Hx, Hc; reflexivity).
      assert (Hr : step p = (df <- read_path E read_excel read_csv header footer
                                     column_names p ;; Ok [df]))
        by (unfold step, read_path; rewrite Hx, Hc; reflexivity).
      rewrite Hs, Hr. cbn [mapM]. rewrite <- IH.
      destruct (read_path E read_excel read_csv header footer column_names p);
        cbn [bind]; [|reflexivity].
      destruct (mapM step t); reflexivity.
    - assert (Hs : is_supported E p = false)
        by (unfold is_supported; rewrite Hx, Hc; reflexivity).
      assert (Hr : step p = Ok []) by (unfold step; rewrite Hx, Hc; reflexivity).
      rewrite Hs, Hr, <- IH. cbn [bind]. destruct (mapM step t); reflexivity. }
  rewrite <- H, bind_assoc. apply bind_ext. intros dfs. cbn [bind].
  unfold k. destruct (concat dfs); reflexivity.
Qed.

(** X7: [get_data] reads the paths whose upper-cased form ends in .XLS or
    .CSV and skips every other path, a path ending in .XLSX among them.  It
    raises exactly when no path is left to read (an empty list included) or
    a read raises; otherwise it returns the rows of the frames read, in the
    order of the paths. *)
Theorem get_data_reads_xls_and_csv_only (E : Externals)
    (read_excel read_csv : Z -> Z -> option (list string) -> string -> result DataFrame)
    (header footer : Z) (column_names : option (list string)) (file_paths : list string) :
  let read := read_path E read_excel read_csv header footer column_names in
  let supported := filter (is_supported E) file_paths in
  (get_data E read_excel read_csv header footer column_names file_paths = Raised
   <-> supported = [] \/ exists file_path, In file_path supported /\ read file_path = Raised)
  /\ (forall df,
        get_data E read_excel read_csv header footer column_names file_paths = Ok df
        <-> exists frames,
              Forall2 (fun file_path frame => read file_path = Ok frame) supported frames
              /\ supported <> []
              /\ df = concat frames)
  /\ (forall file_path stem,
        str_upper E file_path = (stem ++ ".XLSX")%string ->
        is_supported E file_path = false).
Proof.
  intros read supported. rewrite get_data_frames. fold read supported.
  split; [|split].
  - split.
    + destruct (mapM read supported) as [frames|] eqn:Hm; cbn [bind].
      * destruct frames as [|fr frames]; [|discriminate]. intros _. left.
        apply mapM_length in Hm. destruct supported; [reflexivity|discriminate Hm].
      * intros _. right. apply mapM_Raised_inv. exact Hm.
    + intros [Hnil|(p & Hp & Hr)].
      * rewrite Hnil. reflexivity.
      * rewrite (mapM_Raised read supported p Hp Hr). reflexivity.
  - intros df. split.
    + destruct (mapM read supported) as [frames|] eqn:Hm; cbn [bind]; [|discriminate].
      destruct frames as [|fr frames]; [discriminate|]. intros H. injection H as <-.
      exists (fr :: frames). split; [apply mapM_Ok; exact Hm|]. split; [|reflexivity].
      apply mapM_length in Hm. destruct supported; [discriminate Hm|discriminate].
    + intros (frames & Hf & Hne & ->). rewrite (mapM_Forall2 _ _ _ Hf). cbn [bind].
      destruct frames as [|fr frames]; [|reflexivity].
      inversion Hf as [Hs|]. congruence.
  - intros p stem Hp. unfold is_supported, Py.endswith. rewrite Hp. clear Hp.
    assert (Hsub : forall s n, substring (String.length s + 1) n (s ++ ".XLSX")
                               = substring 0 n "XLSX").
    { intros s n. induction s as [|c t IH]; [reflexivity|]. exact IH. }
    assert (Hlen : forall s, (String.length (s ++ ".XLSX") - 4 = String.length s + 1)%nat).
    { intros s.
      assert (H : String.length (s ++ ".XLSX") = (String.length s + 5)%nat).
      { induction s as [|c t IH]; simpl; [reflexivity|]. rewrite IH. reflexivity. }
      rewrite H. lia. }
    cbn [String.length]. rewrite Hlen, !Hsub. cbn. rewrite !andb_false_r. reflexivity.
Qed.

Lemma get_data_reads_xls_and_csv_only_witness :
  is_supported py_ascii "2024-03-07 Example Precleaned.xlsx" = false
  /\ get_data py_ascii (fun _ _ _ _ => Ok []) (fun _ _ _ _ => Ok []) 0 0 None
       ["2024-03-07 Example Precleaned.xlsx"; "notes.txt"] = Raised.
Proof.
  pose proof (get_data_reads_xls_and_csv_only py_ascii (fun _ _ _ _ => Ok [])
                (fun _ _ _ _ => Ok []) 0 0 None
                ["2024-03-07 Example Precleaned.xlsx"; "notes.txt"]) as (Hr & _ & Hx).
  split.
  - apply (Hx _ "2024-03-07 EXAMPLE PRECLEANED"). reflexivity.
  - apply Hr. left. reflexivity.
Defined.


(** ** Adapter 2: the Transaction ID column *)

Lemma drop_duplicates_on_one_key {A K : Type}
    (K_eq_dec : forall x y : K, {x = y} + {x <> y}) (key : A -> K) (k : K) (l : list A) :
  (forall r, In r l -> key r = k) ->
  drop_duplicates_on K_eq_dec key l = match l with [] => [] | r :: _ => [r] end.
Proof.
  destruct l as [|x t]; [reflexivity|]. intros H. cbn [drop_duplicates_on]. f_equal.
  apply filter_none. intros y Hy. apply drop_duplicates_on_In in Hy.
  rewrite (H x (or_introl eq_refl)), (H y (or_intror Hy)).
  destruct (K_eq_dec k k); [reflexivity|congruence].
Qed.

Lemma rows_2_transaction_id (E : Externals) (df pre : DataFrame) :
  rows_example_publisher_2 E df = Ok pre ->
  forall r, In r pre -> lookup "Transaction ID" r = None.
Proof.
  unfold rows_example_publisher_2. intros H r' Hr'.
  apply bind_Ok in H. destruct H as (d1 & H1 & H).
  apply bind_Ok in H. destruct H as (d2 & H2 & H).
  apply applymap_lookup in H.
  destruct (Forall2_In_r _ _ _ _ H Hr') as (r & Hr & Hlk).
  rewrite Hlk by (simpl; intros [Hc|[Hc|[]]]; discriminate Hc).
  destruct (drop_non_disclosed_In E _ _ _ H2 Hr) as (Hin & _).
  unfold rename in Hin. apply in_map_iff in Hin. destruct Hin as (r1 & <- & Hr1).
  unfold select in H1. apply mapM_Ok in H1.
  destruct (Forall2_In_r _ _ _ _ H1 Hr1) as (r0 & _ & Hsel).
  unfold select_row in Hsel. cbn [mapM] in Hsel. inv_Ok. subst. reflexivity.
Qed.

(** X8: adapter 2 selects the column Readership Event ID but renames
    Readership Event ID (FactSet), so no row it prepares has a Transaction
    ID.  All rows then share the missing value and the deduplication keeps
    one row of the whole batch, however many readership events it held: a
    row that no other row exceeds in Read Date. *)
Theorem adapter_2_keeps_a_single_row (E : Externals) (df : DataFrame) (out : Frame) :
  sort_values_spec (sort_values_desc E) ->
  clean_example_publisher_2 E df = Ok out ->
  exists pre,
    rows_example_publisher_2 E df = Ok pre
    /\ (forall r, In r pre -> lookup "Transaction ID" r = None)
    /\ (pre = [] -> out = [])
    /\ (pre <> [] ->
        exists kept row,
          In kept (map reindex pre)
          /\ (forall r, In r (map reindex pre) -> read_date_ge kept r)
          /\ canonical_row E kept = Ok row
          /\ Transaction_ID row = None
          /\ out = [row]).
Proof.
  intros Hsort H. unfold clean_example_publisher_2 in H.
  apply bind_Ok in H. destruct H as (pre & Hpre & H).
  exists pre. split; [exact Hpre|].
  pose proof (rows_2_transaction_id E df pre Hpre) as Htid.
  split; [exact Htid|].
  rewrite canonicalize_rows in H. unfold kept_rows, drop_duplicates_tid in H.
  destruct (Hsort (map reindex pre)) as [Hperm Hsorted].
  set (sorted := sort_values_desc E (map reindex pre)) in *.
  assert (Hnone : forall r, In r sorted -> Transaction_ID r = None).
  { intros r Hr. apply (Permutation_in _ (Permutation_sym Hperm)) in Hr.
    apply in_map_iff in Hr. destruct Hr as (r0 & <- & Hr0).
    cbn [reindex Transaction_ID]. apply Htid. exact Hr0. }
  rewrite (drop_duplicates_on_one_key cell_eq_dec Transaction_ID None sorted Hnone) in H.
  split.
  - intros ->. cbn [map] in Hperm. apply Permutation_nil in Hperm.
    fold sorted in Hperm. rewrite Hperm in H. cbn in H. congruence.
  - intros Hne. destruct sorted as [|kept rest] eqn:Hs.
    + apply Permutation_sym, Permutation_nil in Hperm.
      destruct pre; [congruence|discriminate Hperm].
    + cbn [mapM] in H. apply bind_Ok in H. destruct H as (row & Hrow & H).
      cbn in H. injection H as <-. exists kept, row.
      split; [apply (Permutation_in _ (Permutation_sym Hperm)); left; reflexivity|].
      split; [|split; [exact Hrow|split; [|reflexivity]]].
      * intros r Hr. apply (Permutation_in _ Hperm) in Hr. destruct Hr as [<-|Hr].
        -- apply read_date_ge_refl.
        -- inversion Hsorted as [|? ? _ Hall]; subst.
           rewrite Forall_forall in Hall. apply Hall. exact Hr.
      * destruct (canonical_row_other_columns E kept row Hrow)
          as (_ & _ & _ & _ & _ & _ & _ & Ht).
        rewrite Ht, (Hnone kept (or_introl eq_refl)). reflexivity.
Qed.

Lemma adapter_2_keeps_a_single_row_witness :
  sort_values_spec (sort_values_desc py_ascii)
  /\ exists out,
       clean_example_publisher_2 py_ascii
         [raw_2 "07-Mar-2024 10:00 AM" "event-1"; raw_2 "08-Mar-2024 10:00 AM" "event-2"]
       = Ok out
       /\ length out = 1%nat.
Proof.
  split; [exact sort_desc_spec|]. eexists. split; [vm_compute; reflexivity|].
  destruct (adapter_2_keeps_a_single_row py_ascii
              [raw_2 "07-Mar-2024 10:00 AM" "event-1"; raw_2 "08-Mar-2024 10:00 AM" "event-2"]
              _ sort_desc_spec eq_refl) as (pre & Hpre & _ & _ & Hone).
  destruct Hone as (kept & row & _ & _ & _ & _ & Hout).
  - intros ->. vm_compute in Hpre. discriminate Hpre.
  - exact (f_equal (@length CRow) Hout).
Defined.


(** ** The frames [canonicalize] returns *)

Lemma no_marker_replace_cell (c : cell) : no_marker (replace_cell c) = true.
Proof.
  destruct c as [s|]; [|reflexivity]. cbn [replace_cell].
  destruct (is_to_replace s) eqn:Hs; cbn [no_marker]; [reflexivity|].
  rewrite Hs. reflexivity.
Qed.

Lemma replace_cell_no_marker (c : cell) : no_marker c = true -> replace_cell c = c.
Proof.
  destruct c as [s|]; [|reflexivity]. cbn [no_marker replace_cell].
  destruct (is_to_replace s); [discriminate|reflexivity].
Qed.

Lemma upper_unless_sentinel_Ok (E : Externals) (c : cell) (name : string) :
  upper_unless_sentinel E c = Ok name -> sentinel_or_upper E (Some name).
Proof.
  destruct c as [x|]; [|discriminate]. cbn [upper_unless_sentinel].
  intros H. injection H as <-. exists (if String.eqb x SENTINEL then x else str_upper E x).
  split; [reflexivity|].
  destruct (String.eqb_spec x SENTINEL) as [->|_]; [left; reflexivity|right; eauto].
Qed.

Lemma canonical_row_Raised (E : Externals) (r : CRow) :
  canonical_row E r = Raised <-> City r = None \/ Country r = None.
Proof.
  unfold canonical_row.
  cbn [replace_row Country City set_Country set_City].
  destruct (Country r) as [country|], (City r) as [city|]; cbn [replace_cell].
  - split; [|intros [H|H]; discriminate H].
    destruct (is_to_replace country), (is_to_replace city);
      cbn [custom_mapping bind upper_unless_sentinel map_city];
      repeat match goal with
      | |- context [String.eqb ?a ?b] => destruct (String.eqb a b)
      | |- context [Py.dict_get ?d ?k] => destruct (Py.dict_get d k)
      end; cbn [bind upper_unless_sentinel]; discriminate.
  - split; [intros _; left; reflexivity|intros _].
    destruct (is_to_replace country);
      cbn [custom_mapping bind upper_unless_sentinel map_city];
      repeat match goal with
      | |- context [String.eqb ?a ?b] => destruct (String.eqb a b)
      | |- context [Py.dict_get ?d ?k] => destruct (Py.dict_get d k)
      end; reflexivity.
  - split; [intros _; right; reflexivity|reflexivity].
  - split; [intros _; left; reflexivity|reflexivity].
Qed.

(** X9: [canonicalize] raises exactly when a row that [process_columns]
    keeps has no City or no Country, as every row of a frame without such a
    column after [reindex]: the upper-casing calls [upper] on the missing
    value.  A missing value in any other column passes. *)
Theorem canonicalize_needs_city_and_country (E : Externals) (df : DataFrame)
    (remove_duplicates : bool) :
  canonicalize E df remove_duplicates = Raised
  <-> exists r, In r (kept_rows E df remove_duplicates)
                /\ (City r = None \/ Country r = None).
Proof.
  rewrite canonicalize_rows. split.
  - intros H. apply mapM_Raised_inv in H. destruct H as (r & Hr & H).
    exists r. split; [exact Hr|]. exact (proj1 (canonical_row_Raised E r) H).
  - intros (r & Hr & H). apply (mapM_Raised _ _ r Hr).
    exact (proj2 (canonical_row_Raised E r) H).
Qed.

(** X10: in a frame [canonicalize] returns, none of the eight columns other
    than City and Country holds one of the raw markers of
    [process_columns]; City and Country always hold a value, which is the
    sentinel or an upper-cased text. *)
Theorem canonical_frames_columns (E : Externals) (df : DataFrame)
    (remove_duplicates : bool) (out : Frame) :
  canonicalize E df remove_duplicates = Ok out ->
  forall r, In r out ->
    (no_marker (Read_Date r) = true /\ no_marker (Post_Date r) = true
     /\ no_marker (Firm_Name r) = true /\ no_marker (User_Name r) = true
     /\ no_marker (Email r) = true /\ no_marker (Report_Title r) = true
     /\ no_marker (Platform r) = true /\ no_marker (Transaction_ID r) = true)
    /\ sentinel_or_upper E (City r)
    /\ sentinel_or_upper E (Country r).
Proof.
  rewrite canonicalize_rows. intros H r' Hr'. apply mapM_Ok in H.
  destruct (Forall2_In_r _ _ _ _ H Hr') as (r & _ & Hrow).
  split.
  - destruct (canonical_row_other_columns E r r' Hrow)
      as (-> & -> & -> & -> & -> & -> & -> & ->).
    repeat split; apply no_marker_replace_cell.
  - unfold canonical_row in Hrow.
    apply bind_Ok in Hrow. destruct Hrow as (n1 & _ & Hrow).
    apply bind_Ok in Hrow. destruct Hrow as (n2 & Hn2 & Hrow).
    apply bind_Ok in Hrow. destruct Hrow as (n3 & Hn3 & Hrow).
    injection Hrow as <-. cbn [City Country set_City set_Country].
    split; eapply upper_unless_sentinel_Ok; eassumption.
Qed.

Lemma canonical_frames_columns_witness :
  canonicalize py_ascii [assigned_4 "2024-03-07" "Restricted" "nan" "(1234) Q2 Results"] false
  = Ok [{| Read_Date := Some "2024-03-07"; Post_Date := Some SENTINEL;
           Firm_Name := Some SENTINEL; User_Name := Some SENTINEL;
           Email := Some SENTINEL; City := Some SENTINEL; Country := Some SENTINEL;
           Report_Title := Some "(1234) Q2 Results";
           Platform := Some "example_publisher_4";
           Transaction_ID := Some SENTINEL |}]
  /\ no_marker (Some SENTINEL) = true.
Proof.
  split; [reflexivity|].
  exact (proj1 (proj2 (proj1 (canonical_frames_columns py_ascii
                                [assigned_4 "2024-03-07" "Restricted" "nan"
                                   "(1234) Q2 Results"] false _ eq_refl _
                                (or_introl eq_refl))))).
Defined.

Lemma StronglySorted_filter {A : Type} (R : A -> A -> Prop) (p : A -> bool) (l : list A) :
  StronglySorted R l -> StronglySorted R (filter p l).
Proof.
  induction 1 as [|x t Ht IH Hx]; cbn [filter]; [constructor|].
  destruct (p x); [|exact IH]. constructor; [exact IH|].
  rewrite Forall_forall in *. intros y Hy. apply filter_In in Hy. apply Hx, Hy.
Qed.

Lemma StronglySorted_drop_duplicates_on {A K : Type} (R : A -> A -> Prop)
    (K_eq_dec : forall x y : K, {x = y} + {x <> y}) (key : A -> K) (l : list A) :
  StronglySorted R l -> StronglySorted R (drop_duplicates_on K_eq_dec key l).
Proof.
  induction 1 as [|x t Ht IH Hx]; cbn [drop_duplicates_on]; [constructor|].
  constructor; [apply StronglySorted_filter; exact IH|].
  rewrite Forall_forall in *. intros y Hy. apply filter_In in Hy.
  apply Hx. eapply drop_duplicates_on_In. apply Hy.
Qed.

Lemma StronglySorted_read_dates (l l' : Frame) :
  Forall2 (fun r r' => Read_Date r' = Read_Date r) l l' ->
  StronglySorted read_date_ge l -> StronglySorted read_date_ge l'.
Proof.
  induction 1 as [|x y t t' Hxy Htt IH]; intros Hs; [constructor|].
  inversion Hs as [|? ? Ht Hx]; subst. constructor; [apply IH; exact Ht|].
  clear IH Hs Ht. induction Htt as [|a b u u' Hab _ IHu]; [constructor|].
  inversion Hx as [|? ? Ha Hu]; subst. constructor; [|apply IHu; exact Hu].
  unfold read_date_ge in *. rewrite Hxy, Hab. exact Ha.
Qed.

(** X11: when no Read Date of the input is one of the raw markers, the
    frame [canonicalize] returns is in descending order of Read Date, rows
    without a Read Date last, whether or not duplicates are removed.  (A
    marker is replaced by the sentinel after the sort, which may leave it
    out of place.) *)
Theorem canonical_frames_are_sorted (E : Externals) (df : DataFrame)
    (remove_duplicates : bool) (out : Frame) :
  sort_values_spec (sort_values_desc E) ->
  (forall r, In r df -> no_marker (lookup "Read Date" r) = true) ->
  canonicalize E df remove_duplicates = Ok out ->
  StronglySorted read_date_ge out.
Proof.
  intros Hsort Hdates H. rewrite canonicalize_rows in H. apply mapM_Ok in H.
  apply (StronglySorted_read_dates (kept_rows E df remove_duplicates) out).
  - assert (Hkept : forall r, In r (kept_rows E df remove_duplicates) ->
                              no_marker (Read_Date r) = true).
    { intros r Hr. apply (kept_rows_In E df remove_duplicates r Hsort) in Hr.
      apply in_map_iff in Hr. destruct Hr as (r0 & <- & Hr0). apply Hdates, Hr0. }
    revert Hkept. induction H as [|r r' t t' Hrow _ IH]; intros Hkept; constructor.
    + destruct (canonical_row_other_columns E r r' Hrow) as (-> & _).
      apply replace_cell_no_marker. apply Hkept. left; reflexivity.
    + apply IH. intros x Hx. apply Hkept. right; exact Hx.
  - unfold kept_rows. destruct (Hsort (map reindex df)) as [_ Hsorted].
    destruct remove_duplicates; [|exact Hsorted].
    apply StronglySorted_drop_duplicates_on. exact Hsorted.
Qed.

Lemma canonical_frames_are_sorted_witness :
  sort_values_spec (sort_values_desc py_ascii)
  /\ (forall r, In r [assigned_4 "2024-03-07" "Acme" "2024-03-01" "(1234) Q2 Results";
                      assigned_4 "2024-03-09" "Beta" "2024-03-01" "(1234) Q2 Results"] ->
                no_marker (lookup "Read Date" r) = true)
  /\ exists out,
       canonicalize py_ascii
         [assigned_4 "2024-03-07" "Acme" "2024-03-01" "(1234) Q2 Results";
          assigned_4 "2024-03-09" "Beta" "2024-03-01" "(1234) Q2 Results"] true = Ok out
       /\ map Read_Date out = [Some "2024-03-09"]
       /\ StronglySorted read_date_ge out.
Proof.
  assert (Hdates : forall r,
             In r [assigned_4 "2024-03-07" "Acme" "2024-03-01" "(1234) Q2 Results";
                   assigned_4 "2024-03-09" "Beta" "2024-03-01" "(1234) Q2 Results"] ->
             no_marker (lookup "Read Date" r) = true).
  { intros r [<-|[<-|[]]]; reflexivity. }
  split; [exact sort_desc_spec|]. split; [exact Hdates|].
  eexists. split; [vm_compute; reflexivity|]. split; [reflexivity|].
  exact (canonical_frames_are_sorted py_ascii _ true _ sort_desc_spec Hdates eq_refl).
Defined.


(** ** Columns an adapter fills with a constant *)

(** A column set by [assign] and not converted afterwards, in a row the
    adapter prepared. *)
Ltac assigned_column H Hin :=
  let r := fresh "r" in
  let Hr := fresh "Hr" in
  let Hr' := fresh "Hr" in
  let Hlk := fresh "Hlk" in
  let r0 := fresh "r" in
  inv_Ok; apply applymap_lookup in H;
  destruct (Forall2_In_r _ _ _ _ H Hin) as (r & Hr & Hlk);
  rewrite Hlk by (simpl; intuition discriminate);
  try match goal with
      | Hf : drop_non_disclosed _ _ = Ok _ |- _ =>
          destruct (drop_non_disclosed_In _ _ _ _ Hf Hr) as (Hr' & _);
          clear Hr; rename Hr' into Hr
      end;
  unfold rename, assign in Hr; rewrite ?map_map in Hr;
  apply in_map_iff in Hr; destruct Hr as (r0 & <- & _);
  rewrite ?lookup_rename by solve_renamed_to;
  cbn [fold_left fst snd];
  repeat rewrite lookup_set_ne by discriminate;
  apply lookup_set_eq.

Lemma adapters_platform (E : Externals) (name : string)
    (rows : Externals -> DataFrame -> result DataFrame) (remove_duplicates : bool)
    (df pre : DataFrame) :
  In (name, rows, remove_duplicates) adapters ->
  name <> "example_publisher_2" ->
  rows E df = Ok pre ->
  is_to_replace name = false
  /\ forall r, In r pre -> lookup "Platform" r = Some name.
Proof.
  unfold adapters. simpl. intros Hin.
  repeat (destruct Hin as [Hin|Hin]; [injection Hin as <- <- <-|]); try destruct Hin;
    intros Hne H; try congruence; (split; [reflexivity|]); intros r' Hr'.
  - unfold rows_example_publisher_1 in H. assigned_column H Hr'.
  - unfold rows_example_publisher_3 in H. assigned_column H Hr'.
  - unfold rows_example_publisher_4 in H. assigned_column H Hr'.
  - unfold rows_example_publisher_5 in H. assigned_column H Hr'.
  - unfold rows_example_publisher_6 in H. assigned_column H Hr'.
  - unfold rows_example_publisher_7 in H. assigned_column H Hr'.
  - unfold rows_example_publisher_8 in H. assigned_column H Hr'.
Qed.

(** X12: every row [preclean_data] returns for a publisher other than
    publisher 2 carries the publisher's name in its Platform column;
    adapter 2 alone takes the column from its input. *)
Theorem adapters_stamp_their_platform (E : Externals) (name : string) (df : DataFrame)
    (out : Frame) :
  sort_values_spec (sort_values_desc E) ->
  name <> "example_publisher_2" ->
  preclean_data E df name = Some (Ok out) ->
  forall r, In r out -> Platform r = Some name.
Proof.
  intros Hsort Hne H r' Hr'.
  apply preclean_data_adapters in H. destruct H as (rows & flag & Hin & H).
  symmetry in H. apply bind_Ok in H. destruct H as (pre & Hpre & H).
  destruct (adapters_platform E name rows flag df pre Hin Hne Hpre) as (Hname & Hplat).
  rewrite canonicalize_rows in H. apply mapM_Ok in H.
  destruct (Forall2_In_r _ _ _ _ H Hr') as (r & Hr & Hrow).
  apply (kept_rows_In E pre flag r Hsort) in Hr.
  apply in_map_iff in Hr. destruct Hr as (r0 & <- & Hr0).
  destruct (canonical_row_other_columns E _ _ Hrow) as (_ & _ & _ & _ & _ & _ & -> & _).
  cbn [reindex Platform]. rewrite (Hplat r0 Hr0). cbn [replace_cell]. rewrite Hname.
  reflexivity.
Qed.

Lemma adapters_stamp_their_platform_witness :
  sort_values_spec (sort_values_desc py_ascii)
  /\ "example_publisher_4" <> "example_publisher_2"
  /\ exists out,
       preclean_data py_ascii [raw_4 "2024/03/07" "Acme"; raw_4 "2024/03/09" "Beta"]
         "example_publisher_4" = Some (Ok out)
       /\ forall r, In r out -> Platform r = Some "example_publisher_4".
Proof.
  assert (Hne : "example_publisher_4" <> "example_publisher_2") by discriminate.
  split; [exact sort_desc_spec|]. split; [exact Hne|].
  eexists. split; [vm_compute; reflexivity|].
  exact (adapters_stamp_their_platform py_ascii "example_publisher_4"
           [raw_4 "2024/03/07" "Acme"; raw_4 "2024/03/09" "Beta"] _
           sort_desc_spec Hne eq_refl).
Defined.

Lemma no_dedup_adapters_constants (E : Externals) (name : string)
    (rows : Externals -> DataFrame -> result DataFrame) (df pre : DataFrame) :
  In (name, rows, false) adapters ->
  rows E df = Ok pre ->
  forall r, In r pre ->
    lookup "Transaction ID" r = Some SENTINEL /\ lookup "Country" r = Some SENTINEL.
Proof.
  unfold adapters. simpl. intros Hin.
  repeat (destruct Hin as [Hin|Hin]; [try discriminate Hin; injection Hin as <- <-|]);
    try destruct Hin; intros H r' Hr'.
  - unfold rows_example_publisher_4 in H. split; assigned_column H Hr'.
  - unfold rows_example_publisher_6 in H. split; assigned_column H Hr'.
  - unfold rows_example_publisher_7 in H. split; assigned_column H Hr'.
Qed.

(** X13: the adapters that pass [remove_duplicates=False] are those whose
    rows all get the sentinel as Transaction ID (and as Country): with the
    default, [drop_duplicates(subset='Transaction ID')] would keep a single
    row of any batch of theirs. *)
Theorem no_dedup_adapters_share_one_transaction_id (E : Externals) (name : string)
    (df : DataFrame) (out : Frame) :
  sort_values_spec (sort_values_desc E) ->
  In name no_dedup_adapters ->
  preclean_data E df name = Some (Ok out) ->
  (forall r, In r out ->
     Transaction_ID r = Some SENTINEL /\ Country r = Some SENTINEL)
  /\ drop_duplicates_tid out = match out with [] => [] | r :: _ => [r] end.
Proof.
  intros Hsort Hname H.
  assert (Hrows : forall r, In r out ->
                    Transaction_ID r = Some SENTINEL /\ Country r = Some SENTINEL).
  { intros r' Hr'.
    apply preclean_data_adapters in H. destruct H as (rows & flag & Hin & H).
    assert (Hflag : flag = false).
    { unfold no_dedup_adapters, adapters in Hname. simpl in Hname, Hin.
      repeat (destruct Hin as [Hin|Hin];
              [injection Hin as <- <- <-; try reflexivity;
               exfalso; intuition discriminate|]).
      destruct Hin. }
    subst flag. symmetry in H. apply bind_Ok in H. destruct H as (pre & Hpre & H).
    rewrite canonicalize_rows in H. apply mapM_Ok in H.
    destruct (Forall2_In_r _ _ _ _ H Hr') as (r & Hr & Hrow).
    apply (kept_rows_In E pre false r Hsort) in Hr.
    apply in_map_iff in Hr. destruct Hr as (r0 & <- & Hr0).
    destruct (no_dedup_adapters_constants E name rows df pre Hin Hpre r0 Hr0)
      as (Htid & Hcountry).
    split.
    - destruct (canonical_row_other_columns E _ _ Hrow)
        as (_ & _ & _ & _ & _ & _ & _ & ->).
      cbn [reindex Transaction_ID]. rewrite Htid. reflexivity.
    - unfold canonical_row in Hrow.
      cbn [reindex replace_row Country City set_Country set_City] in Hrow.
      rewrite Hcountry in Hrow. cbn [replace_cell] in Hrow.
      change (is_to_replace SENTINEL) with false in Hrow.
      cbn [custom_mapping] in Hrow. rewrite String.eqb_refl in Hrow.
      cbn [bind upper_unless_sentinel] in Hrow. rewrite String.eqb_refl in Hrow.
      apply bind_Ok in Hrow. destruct Hrow as (n & _ & Hrow).
      injection Hrow as <-. reflexivity. }
  split; [exact Hrows|].
  apply (drop_duplicates_on_one_key cell_eq_dec Transaction_ID (Some SENTINEL)).
  intros r Hr. apply Hrows, Hr.
Qed.

Lemma no_dedup_adapters_share_one_transaction_id_witness :
  sort_values_spec (sort_values_desc py_ascii)
  /\ In "example_publisher_6" no_dedup_adapters
  /\ exists out,
       preclean_data py_ascii [raw_6 "March 7, 2024" "2"; raw_6 "March 9, 2024" "1"]
         "example_publisher_6" = Some (Ok out)
       /\ length out = 3%nat
       /\ drop_duplicates_tid out = match out with [] => [] | r :: _ => [r] end.
Proof.
  assert (Hname : In "example_publisher_6" no_dedup_adapters)
    by (right; left; reflexivity).
  split; [exact sort_desc_spec|]. split; [exact Hname|].
  eexists. split; [vm_compute; reflexivity|]. split; [reflexivity|].
  exact (proj2 (no_dedup_adapters_share_one_transaction_id py_ascii
                  "example_publisher_6"
                  [raw_6 "March 7, 2024" "2"; raw_6 "March 9, 2024" "1"] _
                  sort_desc_spec Hname eq_refl)).
Defined.


(** ** Adapter 6: one row per view *)






(** ** The Post Date of the title master *)

Lemma dict_get_None {V : Type} (d : list (string * V)) (k : string) :
  ~ In k (map fst d) -> Py.dict_get d k = None.
Proof.
  induction d as [|[k' v'] t IH]; cbn [Py.dict_get map fst In]; [reflexivity|].
  intros H. rewrite IH by tauto.
  destruct (String.eqb_spec k' k); [tauto|reflexivity].
Qed.

Lemma dict_get_last {V : Type} (d1 d2 : list (string * V)) (k : string) (v : V) :
  ~ In k (map fst d2) -> Py.dict_get (d1 ++ (k, v) :: d2) k = Some v.
Proof.
  intros H. induction d1 as [|[k' v'] t IH]; cbn [app Py.dict_get].
  - rewrite (dict_get_None d2 k H), String.eqb_refl. reflexivity.
  - rewrite IH. reflexivity.
Qed.

(** X15: [get_post_date] overwrites the Post Date of every row with the
    value the title master holds for the row's Title, the publisher's own
    Post Date being discarded: nothing when the row has no Title or no
    entry carries it, and, when several entries carry the Title, the Post
    Date of the last of them, blank or not.  No other column changes. *)
Theorem get_post_date_last_entry_wins (df : list TRow) (titles : list TitleEntry)
    (r' : TRow) :
  In r' (get_post_date df titles) ->
  exists r,
    In r df
    /\ r' = {| resolved := set_base (set_Post_Date (Post_Date (base (resolved r')))
                                                   (base (resolved r)))
                                    (resolved r);
               Title := Title r |}
    /\ match Title r with
       | None => Post_Date (base (resolved r')) = None
       | Some title =>
           ((forall entry, In entry titles -> ti_Title entry <> title) ->
            Post_Date (base (resolved r')) = None)
           /\ (forall before entry after,
                 titles = before ++ entry :: after ->
                 ti_Title entry = title ->
                 (forall entry', In entry' after -> ti_Title entry' <> title) ->
                 Post_Date (base (resolved r')) = ti_Post_Date entry)
       end.
Proof.
  unfold get_post_date. intros H. apply in_map_iff in H. destruct H as (r & <- & Hr).
  exists r. split; [exact Hr|]. split; [reflexivity|].
  cbn [resolved base set_base set_Post_Date Post_Date]. unfold map_post_date.
  destruct (Title r) as [title|]; [|reflexivity]. split.
  - intros Hnone. rewrite dict_get_None; [reflexivity|].
    unfold post_date_map. rewrite map_map. cbn [fst]. intros Hin.
    apply in_map_iff in Hin. destruct Hin as (entry & Htitle & Hentry).
    exact (Hnone entry Hentry Htitle).
  - intros before entry after -> <- Hafter.
    unfold post_date_map. rewrite map_app. cbn [map].
    rewrite dict_get_last; [reflexivity|].
    rewrite map_map. cbn [fst]. intros Hin.
    apply in_map_iff in Hin. destruct Hin as (entry' & Htitle & Hentry).
    exact (Hafter entry' Hentry Htitle).
Qed.

Lemma get_post_date_last_entry_wins_witness :
  let revised := {| ti_Title := "Q2 Results"; ti_Content := "Revised";
                    ti_Post_Date := Some "2024-03-15" |} in
  In (missing_row "Acme") [missing_row "Acme"]
  /\ map (fun r => Post_Date (base (resolved r)))
         (get_post_date [missing_row "Acme"] [q2_results; q2_results_update; revised])
     = [Some "2024-03-15"]
  /\ exists r,
       In r [missing_row "Acme"]
       /\ Title r = Some "Q2 Results".
Proof.
  cbv zeta. split; [left; reflexivity|]. split; [reflexivity|].
  destruct (get_post_date_last_entry_wins [missing_row "Acme"]
              [q2_results; q2_results_update;
               {| ti_Title := "Q2 Results"; ti_Content := "Revised";
                  ti_Post_Date := Some "2024-03-15" |}]
              _ (or_introl eq_refl)) as (r & Hr & _).
  exists r. split; [exact Hr|]. destruct Hr as [<-|[]]. reflexivity.
Defined.


(** ** Publisher information *)

Lemma dict_get_key {V : Type} (d : list (string * V)) (k : string) :
  In k (map fst d) -> exists v, Py.dict_get d k = Some v.
Proof.
  induction d as [|[k' v'] t IH]; cbn [Py.dict_get map fst In]; [tauto|].
  intros [->|H].
  - destruct (Py.dict_get t k); [eauto|]. rewrite String.eqb_refl. eauto.
  - destruct (IH H) as (v & ->). eauto.
Qed.

(** X16: [get_publisher_info] raises exactly for a publisher the Publisher
    Master File does not list.  It supplies column names for
    example_publisher_4 alone, and they are enough for that adapter: on a
    frame whose rows carry these nine columns [preclean_data] returns a
    frame and does not raise, whatever the cells hold. *)
Theorem publisher_4_column_names (E : Externals) (PUBLISHERS : list (string * (Z * Z)))
    (publisher : string) :
  sort_values_spec (sort_values_desc E) ->
  (get_publisher_info PUBLISHERS publisher = Raised
   <-> ~ In publisher (map fst PUBLISHERS))
  /\ (forall header footer column_names,
        get_publisher_info PUBLISHERS publisher = Ok (header, footer, column_names) ->
        (column_names <> None <-> publisher = "example_publisher_4")
        /\ forall names df,
             column_names = Some names ->
             Forall (has_columns names) df ->
             exists out, preclean_data E df publisher = Some (Ok out)).
Proof.
  intros Hsort. unfold get_publisher_info. split.
  - split.
    + intros H Hin. destruct (dict_get_key PUBLISHERS publisher Hin) as (v & Hv).
      rewrite Hv in H. discriminate H.
    + intros H. rewrite (dict_get_None PUBLISHERS publisher H). reflexivity.
  - intros header footer column_names H.
    destruct (Py.dict_get PUBLISHERS publisher) as [info|]; [|discriminate H].
    cbn [of_option bind] in H. injection H as _ _ <-.
    destruct (String.eqb_spec publisher "example_publisher_4") as [->|Hne].
    + split; [split; [reflexivity|discriminate]|].
      intros names df Hnames Hcols. injection Hnames as <-.
      destruct (clean_4_total E df Hsort) as (out & Hout).
      * eapply Forall_impl; [|exact Hcols]. intros r Hr c Hc. apply Hr.
        cbn [In] in *. intuition auto.
      * exists out. unfold preclean_data. cbn. rewrite Hout. reflexivity.
    + split; [split; [congruence|contradiction]|]. intros names df Hnames. discriminate Hnames.
Qed.

Lemma publisher_4_column_names_witness :
  sort_values_spec (sort_values_desc py_ascii)
  /\ get_publisher_info [("example_publisher_4", (0, 0)%Z)] "Example Publisher 4" = Raised
  /\ exists names out,
       get_publisher_info [("example_publisher_4", (0, 0)%Z)] "example_publisher_4"
       = Ok (0%Z, 0%Z, Some names)
       /\ Forall (has_columns names) [raw_4 "7 March 2024" "Acme"]
       /\ preclean_data py_ascii [raw_4 "7 March 2024" "Acme"] "example_publisher_4"
          = Some (Ok out).
Proof.
  split; [exact sort_desc_spec|]. split; [reflexivity|].
  assert (Hcols : Forall (has_columns ["Read Date"; "0"; "Firm Name"; "1"; "2"; "Post Date";
                                        "Report Title"; "3"; "4"])
                    [raw_4 "7 March 2024" "Acme"]).
  { constructor; [|constructor]. intros c Hc. cbn [In] in Hc.
    repeat (destruct Hc as [<-|Hc]; [cbn; eauto|]). destruct Hc. }
  destruct (proj2 (proj2 (publisher_4_column_names py_ascii
                            [("example_publisher_4", (0, 0)%Z)] "example_publisher_4"
                            sort_desc_spec) _ _ _ eq_refl)
              _ [raw_4 "7 March 2024" "Acme"] eq_refl Hcols) as (out & Hout).
  eexists. exists out. split; [reflexivity|]. split; [exact Hcols|exact Hout].
Defined.


(** ** Adapter 8: internal recipients *)

Lemma rows_8_recipient (E : Externals) (df pre : DataFrame) (r' : Row) :
  rows_example_publisher_8 E df = Ok pre -> In r' pre ->
  exists email,
    lookup "Email" r' = Some email
    /\ Py.endswith email "@non-disclosedcompany.com" = false
    /\ String.eqb email "user@hotmail.com" = false.
Proof.
  unfold rows_example_publisher_8. intros H Hr'.
  apply bind_Ok in H. destruct H as (d1 & H1 & H).
  apply bind_Ok in H. destruct H as (d2 & H2 & H).
  apply bind_Ok in H. destruct H as (d3 & H3 & H).
  apply bind_Ok in H. destruct H as (d4 & H4 & H).
  apply applymap_lookup in H.
  destruct (Forall2_In_r _ _ _ _ H Hr') as (r4' & Hr4' & Hlk).
  rewrite !Hlk by (simpl; intros [Hc|[Hc|[]]]; discriminate Hc).
  unfold rename, assign in Hr4'. rewrite map_map in Hr4'.
  apply in_map_iff in Hr4'. destruct Hr4' as (r4 & <- & Hr4).
  apply (filterM_In _ _ _ _ H4) in Hr4. destruct Hr4 as [Hr4 Hkeep].
  unfold drop in Hr4. apply in_map_iff in Hr4. destruct Hr4 as (r3 & <- & Hr3).
  apply (filterM_In _ _ _ _ H3) in Hr3. destruct Hr3 as [Hr3 _].
  apply (filterM_In _ _ _ _ H2) in Hr3. destruct Hr3 as [Hr3 _].
  unfold select in H1. apply mapM_Ok in H1.
  destruct (Forall2_In_r _ _ _ _ H1 Hr3) as (r & Hr & Hsel).
  apply bind_Ok in Hkeep. destruct Hkeep as (email & Hget & Hkeep).
  injection Hkeep as Hkeep.
  apply andb_prop in Hkeep. destruct Hkeep as [Hend Hhot].
  apply negb_true_iff in Hend. apply negb_true_iff in Hhot.
  exists email. split; [|split; assumption].
  unfold select_row in Hsel. cbn [mapM] in Hsel. inv_Ok. subst.
  cbn in Hget. injection Hget as <-. reflexivity.
Qed.

(** X17: adapter 8 lets no event of an internal recipient through: the
    Email of every row of its output is an address that neither ends in
    @non-disclosedcompany.com nor is user@hotmail.com (or is the sentinel
    that replaced a raw marker). *)
Theorem publisher_8_drops_internal_recipients (E : Externals) (df : DataFrame)
    (out : Frame) :
  sort_values_spec (sort_values_desc E) ->
  clean_example_publisher_8 E df = Ok out ->
  forall r, In r out ->
    exists email,
      Email r = Some email
      /\ Py.endswith email "@non-disclosedcompany.com" = false
      /\ email <> "user@hotmail.com".
Proof.
  intros Hsort H r' Hr'. unfold clean_example_publisher_8 in H.
  apply bind_Ok in H. destruct H as (pre & Hpre & H).
  rewrite canonicalize_rows in H. apply mapM_Ok in H.
  destruct (Forall2_In_r _ _ _ _ H Hr') as (r & Hr & Hrow).
  apply (kept_rows_In E pre true r Hsort) in Hr.
  apply in_map_iff in Hr. destruct Hr as (r0 & <- & Hr0).
  destruct (rows_8_recipient E df pre r0 Hpre Hr0) as (email & Hemail & Hend & Hhot).
  destruct (canonical_row_other_columns E _ _ Hrow) as (_ & _ & _ & _ & -> & _).
  cbn [reindex Email]. rewrite Hemail. cbn [replace_cell].
  destruct (is_to_replace email).
  - exists SENTINEL. split; [reflexivity|]. split; [reflexivity|discriminate].
  - exists email. split; [reflexivity|]. split; [exact Hend|].
    intros ->. discriminate Hhot.
Qed.

Lemma publisher_8_drops_internal_recipients_witness :
  sort_values_spec (sort_values_desc py_ascii)
  /\ exists out,
       clean_example_publisher_8 py_ascii
         [raw_8 "OPEN" "3001" "e3" "2024-03-07 09:00:00";
          [("Recipient", "staff@non-disclosedcompany.com"); ("Subject", "(1234) Q2 Results");
           ("Event Type", "OPEN"); ("Event ID", "e6");
           ("Event Created Date (Your time zone)", "2024-03-08 09:00:00");
           ("City", "Tokyo"); ("Country", "JP"); ("Open duration (ms)", "9000")]]
       = Ok out
       /\ map Email out = [Some "reader@acme.com"]
       /\ forall r, In r out ->
            exists email,
              Email r = Some email
              /\ Py.endswith email "@non-disclosedcompany.com" = false
              /\ email <> "user@hotmail.com".
Proof.
  split; [exact sort_desc_spec|]. eexists.
  split; [vm_compute; reflexivity|]. split; [reflexivity|].
  exact (publisher_8_drops_internal_recipients py_ascii
           [raw_8 "OPEN" "3001" "e3" "2024-03-07 09:00:00";
            [("Recipient", "staff@non-disclosedcompany.com");
             ("Subject", "(1234) Q2 Results"); ("Event Type", "OPEN"); ("Event ID", "e6");
             ("Event Created Date (Your time zone)", "2024-03-08 09:00:00");
             ("City", "Tokyo"); ("Country", "JP"); ("Open duration (ms)", "9000")]]
           _ sort_desc_spec eq_refl).
Defined.


(** ** The placeholder Post Date of adapters 7 and 8 *)

Lemma applymap_post_date (f : string -> result string) (df df' : DataFrame) :
  applymap ["Read Date"; "Post Date"] f df = Ok df' ->
  Forall2 (fun r r' => forall v, lookup "Post Date" r = Some v ->
                       exists v', f v = Ok v' /\ lookup "Post Date" r' = Some v') df df'.
Proof.
  unfold applymap. intros H. apply mapM_Ok in H.
  eapply Forall2_impl; [|exact H]. cbn beta. intros r r' Hr v Hv.
  cbn [fold_left bind] in Hr.
  apply bind_Ok in Hr. destruct Hr as (r1 & Hr1 & Hr).
  assert (Hv1 : lookup "Post Date" r1 = Some v).
  { rewrite (update_lookup_ne f "Post Date" "Read Date" r r1 Hr1) by discriminate.
    exact Hv. }
  unfold update in Hr. apply get_lookup in Hv1. rewrite Hv1 in Hr. cbn [bind] in Hr.
  destruct (f v) as [v'|]; [|discriminate Hr]. cbn [bind] in Hr. injection Hr as <-.
  exists v'. split; [reflexivity|apply lookup_set_eq].
Qed.

(** X18: adapters 7 and 8 have no Post Date in their input and assign a
    placeholder, which their date converters turn into 2000-12-31 on every
    row of the output ([int] being taken to read 12 and 31 as it does). *)
Theorem placeholder_post_dates (E : Externals) :
  sort_values_spec (sort_values_desc E) ->
  py_int E "12" = Some 12%Z ->
  py_int E "31" = Some 31%Z ->
  forall name df out,
    In name ["example_publisher_7"; "example_publisher_8"] ->
    preclean_data E df name = Some (Ok out) ->
    forall r, In r out -> Post_Date r = Some "2000-12-31".
Proof.
  intros Hsort H12 H31 name df out Hname H r' Hr'.
  assert (Hpre : exists pre flag,
             canonicalize E pre flag = Ok out
             /\ forall r, In r pre -> lookup "Post Date" r = Some "2000-12-31").
  { destruct Hname as [<-|[<-|[]]]; cbn in H; injection H as H.
    - unfold clean_example_publisher_7 in H.
      apply bind_Ok in H. destruct H as (pre & Hpre & H).
      exists pre, false. split; [exact H|]. intros r Hr.
      unfold rows_example_publisher_7 in Hpre. inv_Ok.
      apply applymap_post_date in Hpre.
      destruct (Forall2_In_r _ _ _ _ Hpre Hr) as (r0 & Hr0 & Hconv).
      destruct (Hconv "2000-12-31 00:00:00 AM") as (v' & Hv' & ->).
      + unfold rename, assign in Hr0. rewrite map_map in Hr0.
        apply in_map_iff in Hr0. destruct Hr0 as (r1 & <- & _).
        rewrite lookup_rename by solve_renamed_to.
        cbn [fold_left fst snd]. repeat rewrite lookup_set_ne by discriminate.
        apply lookup_set_eq.
      + cbn in Hv'. injection Hv' as <-. reflexivity.
    - unfold clean_example_publisher_8 in H.
      apply bind_Ok in H. destruct H as (pre & Hpre & H).
      exists pre, true. split; [exact H|]. intros r Hr.
      unfold rows_example_publisher_8 in Hpre. inv_Ok.
      apply applymap_post_date in Hpre.
      destruct (Forall2_In_r _ _ _ _ Hpre Hr) as (r0 & Hr0 & Hconv).
      destruct (Hconv "31/12/2000 00:00") as (v' & Hv' & ->).
      + unfold rename, assign in Hr0. rewrite map_map in Hr0.
        apply in_map_iff in Hr0. destruct Hr0 as (r1 & <- & _).
        rewrite lookup_rename by solve_renamed_to.
        cbn [fold_left fst snd]. repeat rewrite lookup_set_ne by discriminate.
        apply lookup_set_eq.
      + cbn in Hv'. rewrite H12, H31 in Hv'. cbn in Hv'. injection Hv' as <-.
        reflexivity. }
  destruct Hpre as (pre & flag & Hcanon & Hdate).
  rewrite canonicalize_rows in Hcanon. apply mapM_Ok in Hcanon.
  destruct (Forall2_In_r _ _ _ _ Hcanon Hr') as (r & Hr & Hrow).
  apply (kept_rows_In E pre flag r Hsort) in Hr.
  apply in_map_iff in Hr. destruct Hr as (r0 & <- & Hr0).
  destruct (canonical_row_other_columns E _ _ Hrow) as (_ & -> & _).
  cbn [reindex Post_Date]. rewrite (Hdate r0 Hr0). reflexivity.
Qed.

Lemma placeholder_post_dates_witness :
  sort_values_spec (sort_values_desc py_ascii)
  /\ py_int py_ascii "12" = Some 12%Z
  /\ py_int py_ascii "31" = Some 31%Z
  /\ In "example_publisher_8" ["example_publisher_7"; "example_publisher_8"]
  /\ exists out,
       preclean_data py_ascii [raw_8 "OPEN" "3001" "e3" "2024-03-07 09:00:00"]
         "example_publisher_8" = Some (Ok out)
       /\ length out = 1%nat
       /\ forall r, In r out -> Post_Date r = Some "2000-12-31".
Proof.
  assert (Hname : In "example_publisher_8" ["example_publisher_7"; "example_publisher_8"])
    by (right; left; reflexivity).
  split; [exact sort_desc_spec|]. split; [reflexivity|]. split; [reflexivity|].
  split; [exact Hname|]. eexists.
  split; [vm_compute; reflexivity|]. split; [reflexivity|].
  exact (placeholder_post_dates py_ascii sort_desc_spec eq_refl eq_refl
           "example_publisher_8" [raw_8 "OPEN" "3001" "e3" "2024-03-07 09:00:00"] _
           Hname eq_refl).
Defined.


(** ** The two date forms of adapter 1 *)

Lemma append_char_assoc (acc : string) (c : ascii) (t : string) :
  ((acc ++ String c EmptyString) ++ t = acc ++ String c t)%string.
Proof. induction acc as [|a acc IH]; cbn; [reflexivity|]. rewrite IH. reflexivity. Qed.

Lemma append_empty_r (s : string) : (s ++ EmptyString = s)%string.
Proof. induction s as [|a s IH]; cbn; [reflexivity|]. rewrite IH. reflexivity. Qed.

Lemma split_go_no_blank (acc t : string) :
  has_no_blank t = true -> Py.split_go " " 0 acc t = [(acc ++ t)%string].
Proof.
  revert acc. induction t as [|c t IH]; intros acc H.
  - cbn. rewrite append_empty_r. reflexivity.
  - cbn [has_no_blank] in H. apply andb_prop in H. destruct H as [Hc Ht].
    apply negb_true_iff in Hc. apply Ascii.eqb_neq in Hc.
    cbn [Py.split_go prefix].
    destruct (ascii_dec " " c) as [Heq|_]; [congruence|].
    rewrite (IH _ Ht), append_char_assoc. reflexivity.
Qed.

Lemma split_at_blank (a b : string) :
  has_no_blank a = true -> has_no_blank b = true ->
  Py.split (a ++ String " " b) " " = [a; b].
Proof.
  unfold Py.split. intros Ha Hb.
  assert (H : forall acc, Py.split_go " " 0 acc (a ++ String " " b)
                          = [(acc ++ a)%string; b]).
  { induction a as [|c a IH]; intros acc.
    - cbn [append Py.split_go]. destruct b as [|c b].
      + cbn. rewrite append_empty_r. reflexivity.
      + replace (prefix " " (String " " (String c b))) with true by reflexivity.
        cbn [String.length Nat.sub]. rewrite (split_go_no_blank EmptyString _ Hb).
        rewrite append_empty_r. reflexivity.
    - cbn [has_no_blank] in Ha. apply andb_prop in Ha. destruct Ha as [Hc Ha].
      apply negb_true_iff in Hc. apply Ascii.eqb_neq in Hc.
      cbn [append Py.split_go prefix].
      destruct (ascii_dec " " c) as [Heq|_]; [congruence|].
      rewrite (IH Ha), append_char_assoc. reflexivity. }
  exact (H EmptyString).
Qed.

Lemma is_digit_no_blank (c : ascii) : is_digit c = true -> negb (Ascii.eqb c " ") = true.
Proof.
  intros H. apply negb_true_iff. apply Ascii.eqb_neq. intros ->. discriminate H.
Qed.

Lemma is_digit_no_slash (c : ascii) : is_digit c = true -> Ascii.eqb c "/" = false.
Proof. intros H. apply Ascii.eqb_neq. intros ->. discriminate H. Qed.

(** X19: the date converter of adapter 1 reads both forms its comment
    names.  Followed by a blank and a time, a date YYYY/MM/DD comes out as
    YYYY-MM-DD, and a date DD/MM/YYYY comes out as the same day with the
    year first; the time is dropped. *)
Theorem convert_date_1_reads_both_forms (date time : string) :
  has_no_blank time = true ->
  (is_YYYY_MM_DD date = true ->
   convert_date_example_publisher_1 (date ++ String " " time) = Ok (with_dashes date))
  /\ (is_DD_MM_YYYY date = true ->
      is_YYYY_MM_DD (year_first date) = true
      /\ convert_date_example_publisher_1 (date ++ String " " time)
         = Ok (with_dashes (year_first date))).
Proof.
  intros Htime. split.
  - intros Hdate. pose proof (convert_date_4_well_formed date Hdate) as Hconv.
    unfold convert_date_example_publisher_4 in Hconv.
    unfold is_YYYY_MM_DD in Hdate.
    destruct date as [|y1 [|y2 [|y3 [|y4 [|s1 [|m1 [|m2 [|s2 [|d1 [|d2 [|? ?]]]]]]]]]]];
      try discriminate.
    do 9 (apply andb_prop in Hdate; destruct Hdate as [Hdate ?]).
    repeat match goal with
    | Hs : Ascii.eqb _ "/" = true |- _ => apply Ascii.eqb_eq in Hs; subst
    end.
    unfold convert_date_example_publisher_1. rewrite split_at_blank.
    + cbn [String.get]. rewrite (is_digit_no_slash y3) by assumption. exact Hconv.
    + cbn [has_no_blank].
      repeat match goal with
      | Hd : is_digit ?c = true |- _ => rewrite (is_digit_no_blank c Hd); clear Hd
      end. reflexivity.
    + exact Htime.
  - intros Hdate. unfold is_DD_MM_YYYY in Hdate.
    destruct date as [|d1 [|d2 [|s1 [|m1 [|m2 [|s2 [|y1 [|y2 [|y3 [|y4 [|? ?]]]]]]]]]]];
      try discriminate.
    do 9 (apply andb_prop in Hdate; destruct Hdate as [Hdate ?]).
    repeat match goal with
    | Hs : Ascii.eqb _ "/" = true |- _ => apply Ascii.eqb_eq in Hs; subst
    end.
    assert (Hyear : is_YYYY_MM_DD
                      (year_first (String d1 (String d2 (String "/" (String m1 (String m2
                         (String "/" (String y1 (String y2 (String y3 (String y4
                            EmptyString))))))))))) = true).
    { cbn. rewrite !andb_true_r.
      repeat match goal with
      | Hd : is_digit ?c = true |- context [is_digit ?c] => rewrite Hd
      end. reflexivity. }
    split; [exact Hyear|].
    pose proof (convert_date_4_well_formed _ Hyear) as Hconv.
    unfold convert_date_example_publisher_4 in Hconv.
    unfold convert_date_example_publisher_1. rewrite split_at_blank.
    + cbn [String.get Ascii.eqb Bool.eqb]. exact Hconv.
    + cbn [has_no_blank].
      repeat match goal with
      | Hd : is_digit ?c = true |- _ => rewrite (is_digit_no_blank c Hd); clear Hd
      end. reflexivity.
    + exact Htime.
Qed.

Lemma convert_date_1_reads_both_forms_witness :
  has_no_blank "09:30" = true
  /\ is_YYYY_MM_DD "2024/03/07" = true
  /\ is_DD_MM_YYYY "07/03/2024" = true
  /\ convert_date_example_publisher_1 "2024/03/07 09:30" = Ok "2024-03-07"
  /\ convert_date_example_publisher_1 "07/03/2024 09:30" = Ok "2024-03-07".
Proof.
  split; [reflexivity|]. split; [reflexivity|]. split; [reflexivity|]. split.
  - exact (proj1 (convert_date_1_reads_both_forms "2024/03/07" "09:30" eq_refl) eq_refl).
  - exact (proj2 (proj2 (convert_date_1_reads_both_forms "07/03/2024" "09:30" eq_refl)
                    eq_refl)).
Defined.


(** ** Firm names taken from the e-mail domain *)



